(** * Session authentication services of frontend-platform

    A shallow embedding of [src/auth/AbstractAuthService.js],
    [src/auth/AxiosJwtAuthService.js], [src/auth/DevelopmentAuthService.js]
    and [src/auth/interceptors/createApiInterceptor.js].

    JavaScript objects are finite maps from property names to values, the
    service classes are records threaded through a state-and-exception monad,
    and every call to a collaborator (browser navigation, logging sink, token
    services, transport, middleware functions) is recorded in a trace, so that
    "exactly once" and "no call" are statements about that trace. *)

From Stdlib Require Import String Ascii List Bool Lia.
From stdpp Require Import base option list strings gmap.

Local Open Scope string_scope.
Set Warnings "-register-all".

(** ** JavaScript values and strings *)

(** Strings are kept as their UTF-8 text, which is the form in which
    [encodeURIComponent] reads them.  A number is kept as its rendering by
    [String(n)], which determines it. *)

Inductive JsValue : Type :=
| JUndefined
| JNull
| JBool (b : bool)
| JNum (rendering : string)
| JStr (s : string)
| JArr (items : list JsValue)
| JObj (entries : list (string * JsValue)).

(** The entries of an object in property enumeration order
    ([Object.entries]). *)
Abbreviation JsEntries := (list (string * JsValue)).

(** An object used as a record of properties. *)
Abbreviation JsObject := (gmap string JsValue).

(** [o.k]: a missing property reads as [undefined]. *)
Definition prop (o : JsObject) (k : string) : JsValue :=
  default JUndefined (o !! k).

(** ToBoolean. *)
Definition truthy (v : JsValue) : bool :=
  match v with
  | JUndefined | JNull => false
  | JBool b => b
  | JNum n => negb (String.eqb n "0" || String.eqb n "NaN")
  | JStr s => negb (String.eqb s "")
  | JArr _ | JObj _ => true
  end.

(** [a || b] on values. *)
Definition js_or (a b : JsValue) : JsValue := if truthy a then a else b.

(** ToString, as used by template literals. *)
Fixpoint js_join (sep : string) (parts : list string) : string :=
  match parts with
  | [] => ""
  | [p] => p
  | p :: rest => p ++ sep ++ js_join sep rest
  end.

Fixpoint toString (v : JsValue) : string :=
  match v with
  | JUndefined => "undefined"
  | JNull => "null"
  | JBool true => "true"
  | JBool false => "false"
  | JNum n => n
  | JStr s => s
  | JArr items =>
      js_join ","
        (map (fun i => match i with
                       | JUndefined | JNull => ""
                       | _ => toString i
                       end) items)
  | JObj _ => "[object Object]"
  end.

(** [s.toLowerCase()], on the letters of ASCII. *)
Definition toLower (c : ascii) : ascii :=
  let n := nat_of_ascii c in
  if ((65 <=? n) && (n <=? 90))%nat then ascii_of_nat (n + 32) else c.

Fixpoint toLowerCase (s : string) : string :=
  match s with
  | "" => ""
  | String c rest => String (toLower c) (toLowerCase rest)
  end.

(** [s.startsWith(searchString)]. *)
Definition startsWith (s searchString : string) : bool :=
  String.prefix searchString s.

(** [encodeURIComponent]: the unreserved marks, letters and digits are kept,
    every other byte of the UTF-8 text becomes [%XX]. *)
Definition isAlphaNum (c : ascii) : bool :=
  let n := nat_of_ascii c in
  (((65 <=? n) && (n <=? 90)) || ((97 <=? n) && (n <=? 122))
   || ((48 <=? n) && (n <=? 57)))%nat.

Definition uriUnreserved (c : ascii) : bool :=
  isAlphaNum c
  || existsb (Ascii.eqb c)
       ["-"; "_"; "."; "!"; "~"; "*"; "'"; "("; ")"]%char.

Definition hexDigit (n : nat) : ascii :=
  if (n <? 10)%nat then ascii_of_nat (48 + n) else ascii_of_nat (55 + n).

Definition percentEncode (c : ascii) : string :=
  let n := nat_of_ascii c in
  String "%" (String (hexDigit (n / 16)) (String (hexDigit (n mod 16)) "")).

Fixpoint encodeURIComponent (s : string) : string :=
  match s with
  | "" => ""
  | String c rest =>
      (if uriUnreserved c then String c "" else percentEncode c)
        ++ encodeURIComponent rest
  end.

(** ** Errors, client handles and the world outside the service *)

(** An [Error] object: its message and the [isRedirecting] property that
    [ensureAuthenticatedUser] sets on one of its errors. *)
Record JsError := { message : string; isRedirecting : bool }.

Definition newError (msg : string) : JsError :=
  {| message := msg; isRedirecting := false |}.

(** A client handle.  [ident] is the identity of the object;  [instance] is
    the axios instance whose [defaults] and [interceptors] the object reads:
    its own for the result of [axios.create()], those of its prototype for
    the result of [Object.create(client)]. *)
Record Client := { ident : nat; instance : nat }.

Global Instance Client_eq_dec : EqDecision Client.
Proof. solve_decision. Defined.

Definition sameClient (a b : Client) : bool := bool_decide (a = b).

(** A request configuration: the fields the services and their interceptors
    read or set. *)
Record AxiosRequestConfig := {
  url : string;
  method : string;
  headers : gmap string string;
  isPublic : bool;
  isCsrfExempt : bool;
  mockApiId : option string;
  adapter : option JsObject;
}.

Definition setHeader (k v : string) (c : AxiosRequestConfig) : AxiosRequestConfig :=
  {| url := url c; method := method c; headers := <[k := v]> (headers c);
     isPublic := isPublic c; isCsrfExempt := isCsrfExempt c;
     mockApiId := mockApiId c; adapter := adapter c |}.

Definition setAdapter (a : JsObject) (c : AxiosRequestConfig) : AxiosRequestConfig :=
  {| url := url c; method := method c; headers := headers c;
     isPublic := isPublic c; isCsrfExempt := isCsrfExempt c;
     mockApiId := mockApiId c; adapter := Some a |}.

Definition setMethod (m : string) (c : AxiosRequestConfig) : AxiosRequestConfig :=
  {| url := url c; method := m; headers := headers c;
     isPublic := isPublic c; isCsrfExempt := isCsrfExempt c;
     mockApiId := mockApiId c; adapter := adapter c |}.

(** The configuration with its method in lower case, as axios hands it to
    the request interceptors. *)
Definition lowerCaseMethod (c : AxiosRequestConfig) : AxiosRequestConfig :=
  setMethod (toLowerCase (method c)) c.

(** [client.get(url)] starts from this configuration. *)
Definition getRequest (u : string) : AxiosRequestConfig :=
  {| url := u; method := "get"; headers := ∅; isPublic := false;
     isCsrfExempt := false; mockApiId := None; adapter := None |}.

(** The response of the accounts endpoint: [data] is the parsed JSON object. *)
Record AxiosResponse := { data : JsEntries }.

(** The interceptors the services register, as the closures they are built
    from. *)
Inductive RequestInterceptor :=
| attachCsrfTokenInterceptor (CSRF_TOKEN_API_PATH : string)
| refreshAccessTokenInterceptor
| apiInterceptor (apiConfig : gmap string JsObject).

Inductive ResponseInterceptor :=
| processAxiosRequestErrorInterceptor.

Record AxiosInstance := {
  usesCache : bool;
  withCredentials : bool;
  requestInterceptors : list RequestInterceptor;
  responseInterceptors : list ResponseInterceptor;
}.

(** A middleware function supplied at configuration: [mw_fn c] is the error
    it throws when called on client [c], if any. *)
Record Middleware := { mw_name : string; mw_fn : Client → option JsError }.

Inductive LogPayload :=
| LogMessage (text : string)
| LogException (error : JsError).

(** The calls made to collaborators, oldest first. *)
Inductive Event :=
| LocationAssign (target : string)
| LogError (what : LogPayload)
| ConsoleLog (text : string)
| GetJwtToken (forceRefresh : bool)
| GetCsrfToken (requestUrl apiPath : string)
| Send (request : AxiosRequestConfig)
| ConfigureCache
| MiddlewareCall (name : string) (client : Client).

(** The collaborators, by what they answer. *)
Record Collaborators := {
  (** [global.document.referrer] *)
  document_referrer : string;
  (** [jwtTokenService.getJwtToken(forceRefresh)]: the decoded token or null *)
  getJwtToken : bool → option JsObject;
  (** [csrfTokenService.getCsrfToken(url, path)] *)
  getCsrfToken : string → string → JsError + string;
  (** the request header that carries the anti-forgery token *)
  CSRF_HEADER_NAME : string;
  (** whether [configureCache()] rejects, and with what *)
  configureCache : option JsError;
  (** the transport behind every client *)
  send : AxiosRequestConfig → JsError + AxiosResponse;
}.

Record World := {
  env : Collaborators;
  instances : list AxiosInstance;
  objects : nat;
  trace : list Event;
}.

Definition newWorld (e : Collaborators) : World :=
  {| env := e; instances := []; objects := 0; trace := [] |}.

Definition recordEvent (ev : Event) (w : World) : World :=
  {| env := env w; instances := instances w; objects := objects w;
     trace := trace w ++ [ev] |}.

(** [axios.create()], or the client [configureCache()] resolves to. *)
Definition createInstance (cached : bool) (w : World) : Client * World :=
  ({| ident := objects w; instance := length (instances w) |},
   {| env := env w;
      instances := instances w ++
        [{| usesCache := cached; withCredentials := false;
            requestInterceptors := []; responseInterceptors := [] |}];
      objects := S (objects w); trace := trace w |}).

(** [Object.create(client)]: a new object, reading every property through
    its prototype. *)
Definition objectCreate (proto : Client) (w : World) : Client * World :=
  ({| ident := objects w; instance := instance proto |},
   {| env := env w; instances := instances w; objects := S (objects w);
      trace := trace w |}).

Definition updateInstance (f : AxiosInstance → AxiosInstance) (c : Client)
    (w : World) : World :=
  {| env := env w; instances := alter f (instance c) (instances w);
     objects := objects w; trace := trace w |}.

Definition enableCredentials (a : AxiosInstance) : AxiosInstance :=
  {| usesCache := usesCache a; withCredentials := true;
     requestInterceptors := requestInterceptors a;
     responseInterceptors := responseInterceptors a |}.

Definition useRequest (i : RequestInterceptor) (a : AxiosInstance) : AxiosInstance :=
  {| usesCache := usesCache a; withCredentials := withCredentials a;
     requestInterceptors := requestInterceptors a ++ [i];
     responseInterceptors := responseInterceptors a |}.

Definition useResponse (i : ResponseInterceptor) (a : AxiosInstance) : AxiosInstance :=
  {| usesCache := usesCache a; withCredentials := withCredentials a;
     requestInterceptors := requestInterceptors a;
     responseInterceptors := responseInterceptors a ++ [i] |}.

(** ** The monad of methods: state of [this] and of the world, exceptions *)

Inductive Outcome (A : Type) :=
| Return (a : A)
| Throw (e : JsError).
Arguments Return {A} a.
Arguments Throw {A} e.

Definition M (S A : Type) : Type := S * World → Outcome A * (S * World).

Global Instance M_ret {S} : MRet (M S) := λ A a σ, (Return a, σ).

Global Instance M_bind {S} : MBind (M S) := λ A B f m σ,
  match m σ with
  | (Return a, σ') => f a σ'
  | (Throw e, σ') => (Throw e, σ')
  end.

Definition throw {S A} (e : JsError) : M S A := λ σ, (Throw e, σ).

(** [try { body } catch (error) { handler }] *)
Definition tryCatch {S A} (body : M S A) (handler : JsError → M S A) : M S A :=
  λ σ, match body σ with
       | (Throw e, σ') => handler e σ'
       | r => r
       end.

Definition this {S} : M S S := λ σ, (Return σ.1, σ).
Definition assign {S} (f : S → S) : M S unit := λ σ, (Return tt, (f σ.1, σ.2)).
Definition ask {S} : M S Collaborators := λ σ, (Return (env σ.2), σ).
Definition emit {S} (ev : Event) : M S unit := λ σ, (Return tt, (σ.1, recordEvent ev σ.2)).
Definition inWorld {S A} (f : World → A * World) : M S A :=
  λ σ, let (a, w) := f σ.2 in (Return a, (σ.1, w)).
Definition fromResult {S A} (r : JsError + A) : M S A :=
  match r with inl e => throw e | inr a => mret a end.

(** [list.forEach(f)] *)
Fixpoint forEach {S A} (f : A → M S unit) (l : list A) : M S unit :=
  match l with
  | [] => mret tt
  | x :: rest => f x ;; forEach f rest
  end.

(** Promise chaining on a settled promise: [p.then(f)], [p.catch(g)] and
    [p.finally(h)]. *)
Definition promiseThen {S A B} (p : M S A) (f : A → M S B) : M S B := p ≫= f.

Definition promiseCatch {S A} (p : M S A) (g : JsError → M S A) : M S A :=
  tryCatch p g.

Definition promiseFinally {S A} (p : M S A) (h : M S unit) : M S A :=
  λ σ, match p σ with
       | (r, σ') =>
           match h σ' with
           | (Return _, σ'') => (r, σ'')
           | (Throw e, σ'') => (Throw e, σ'')
           end
       end.

(** Modelled from the spec: [logFrontendAuthError] of [./utils], which is not
    part of the sources; it reports its argument to the logging sink's
    [logError]. *)
Definition logFrontendAuthError {S} (what : LogPayload) : M S unit :=
  emit (LogError what).

(** ** Configuration *)

Record DevConfig := {
  dev_authenticatedUser : option JsObject;
  dev_hydratedAuthenticatedUser : option JsObject;
  dev_apiConfig : option (gmap string JsObject);
}.

Record Config := {
  BASE_URL : string;
  LMS_BASE_URL : string;
  LOGIN_URL : string;
  LOGOUT_URL : string;
  REFRESH_ACCESS_TOKEN_ENDPOINT : string;
  ACCESS_TOKEN_COOKIE_NAME : string;
  CSRF_TOKEN_API_PATH : string;
  dev : option DevConfig;
}.

Module Options.
Record t := { config : Config; middleware : option (list Middleware) }.
End Options.

(** ** Interceptors *)

Definition includes (l : list string) (x : string) : bool :=
  existsb (String.eqb x) l.

Definition CSRF_PROTECTED_METHODS : list string :=
  ["post"; "put"; "patch"; "delete"].

(** The [shouldSkip] closure given to the anti-forgery interceptor. *)
Definition attachCsrfToken_shouldSkip (c : AxiosRequestConfig) : bool :=
  isCsrfExempt c || negb (includes CSRF_PROTECTED_METHODS (method c)).

(** The [shouldSkip] closure given to the access-token interceptor. *)
Definition refreshAccessToken_shouldSkip (c : AxiosRequestConfig) : bool :=
  isPublic c.

Section Interceptors.
Context {S : Type}.

(** Modelled from the spec: [createCsrfTokenProviderInterceptor] of
    [./interceptors], which is not part of the sources.  The step is
    skipped when [shouldSkip] says so; otherwise it calls the token
    service and sets the token as a request header; a failed fetch fails
    the request. *)
Definition createCsrfTokenProviderInterceptor (apiPath : string)
    (shouldSkip : AxiosRequestConfig → bool)
    (c : AxiosRequestConfig) : M S AxiosRequestConfig :=
  if shouldSkip c then mret c
  else
    e ← ask;
    emit (GetCsrfToken (url c) apiPath) ;;
    csrfToken ← fromResult (getCsrfToken e (url c) apiPath);
    mret (setHeader (CSRF_HEADER_NAME e) csrfToken c).

(** Modelled from the spec: [createJwtTokenProviderInterceptor] of
    [./interceptors], which is not part of the sources.  The step is
    skipped when [shouldSkip] says so; otherwise it asks the token service
    for the credential without forcing a refresh, and the request proceeds
    whether or not there is one. *)
Definition createJwtTokenProviderInterceptor
    (shouldSkip : AxiosRequestConfig → bool)
    (c : AxiosRequestConfig) : M S AxiosRequestConfig :=
  if shouldSkip c then mret c
  else emit (GetJwtToken false) ;; mret c.

(** [createApiInterceptor({ apiConfig })] *)
Definition createApiInterceptor (apiConfig : gmap string JsObject)
    (axiosRequestConfig : AxiosRequestConfig) : M S AxiosRequestConfig :=
  let mockApiId := default "undefined" (mockApiId axiosRequestConfig) in
  match apiConfig !! mockApiId with
  | None =>
      emit (ConsoleLog "could not find mockApiId for: ") ;;
      mret axiosRequestConfig
  | Some callConfig => mret (setAdapter callConfig axiosRequestConfig)
  end.

Definition runRequestInterceptor (i : RequestInterceptor)
    : AxiosRequestConfig → M S AxiosRequestConfig :=
  match i with
  | attachCsrfTokenInterceptor apiPath =>
      createCsrfTokenProviderInterceptor apiPath attachCsrfToken_shouldSkip
  | refreshAccessTokenInterceptor =>
      createJwtTokenProviderInterceptor refreshAccessToken_shouldSkip
  | apiInterceptor apiConfig => createApiInterceptor apiConfig
  end.

Fixpoint runRequestInterceptors (l : list RequestInterceptor)
    (c : AxiosRequestConfig) : M S AxiosRequestConfig :=
  match l with
  | [] => mret c
  | i :: rest => c' ← runRequestInterceptor i c; runRequestInterceptors rest c'
  end.

(** Modelled from the spec: [createProcessAxiosRequestErrorInterceptor];
    it raises again the error it is given. *)
Definition runResponseErrorInterceptor (i : ResponseInterceptor)
    (e : JsError) : M S AxiosResponse :=
  match i with
  | processAxiosRequestErrorInterceptor => throw e
  end.

Fixpoint runResponseErrorInterceptors (l : list ResponseInterceptor)
    (e : JsError) : M S AxiosResponse :=
  match l with
  | [] => throw e
  | i :: rest =>
      tryCatch (runResponseErrorInterceptor i e)
               (runResponseErrorInterceptors rest)
  end.

(** A request on a client, as axios dispatches it: the method is put in
    lower case, then come the request interceptors of the instance, the last
    registered first, then the transport, then the response interceptors. *)
Definition request (client : Client) (c : AxiosRequestConfig)
    : M S AxiosResponse :=
  a ← inWorld (λ w, (instances w !! instance client, w));
  match a with
  | None => throw (newError "not a client")
  | Some a =>
      tryCatch
        (c' ← runRequestInterceptors (rev (requestInterceptors a))
                (lowerCaseMethod c);
         e ← ask;
         emit (Send c') ;;
         fromResult (send e c'))
        (runResponseErrorInterceptors (responseInterceptors a))
  end.
End Interceptors.

(** ** [camelCaseObject] *)

Definition toUpper (c : ascii) : ascii :=
  let n := nat_of_ascii c in
  if ((97 <=? n) && (n <=? 122))%nat then ascii_of_nat (n - 32) else c.

(** Modelled from the spec: the scan behind [camelCase].  Underscores are
    dropped; [upperNext] says that the next letter starts a word other than
    the first, [started] that a word has been written. *)
Fixpoint camelCaseFrom (upperNext started : bool) (s : string) : string :=
  match s with
  | "" => ""
  | String c rest =>
      if Ascii.eqb c "_" then camelCaseFrom started started rest
      else String (if upperNext then toUpper c else c)
                  (camelCaseFrom false true rest)
  end.

(** Modelled from the spec: the conversion of a field name "from the wire's
    snake_case convention to the in-memory camelCase convention"; the
    function the sources import is not part of them.  The words between
    underscores are joined, every word but the first with its first letter
    in upper case. *)
Definition camelCase (key : string) : string := camelCaseFrom false false key.

(** [result[key] = value] on the entries of an object: an existing property
    keeps its place. *)
Fixpoint setEntry (key : string) (value : JsValue) (entries : JsEntries)
    : JsEntries :=
  match entries with
  | [] => [(key, value)]
  | (k, v) :: rest =>
      if String.eqb k key then (k, value) :: rest
      else (k, v) :: setEntry key value rest
  end.

Definition assignEntries (entries : JsEntries) : JsEntries :=
  fold_left (λ result kv, setEntry kv.1 kv.2 result) entries [].

(** Modelled from the spec: the traversal behind [camelCaseObject] of
    [../utils], which is not part of the sources.  It rebuilds the value
    with every field name converted, in objects and in the elements of
    arrays. *)
Fixpoint modifyObjectKeys (modify : string → string) (object : JsValue)
    : JsValue :=
  match object with
  | JArr items => JArr (map (modifyObjectKeys modify) items)
  | JObj entries =>
      JObj (assignEntries
              (map (λ kv, (modify kv.1, modifyObjectKeys modify kv.2)) entries))
  | _ => object
  end.

(** Modelled from the spec: [camelCaseObject] on the object that is the
    profile response. *)
Definition camelCaseObject (entries : JsEntries) : JsEntries :=
  assignEntries
    (map (λ kv, (camelCase kv.1, modifyObjectKeys camelCase kv.2)) entries).

(** [{ ...target, ...source }] *)
Definition spread (target : JsObject) (source : JsEntries) : JsObject :=
  fold_left (λ o kv, <[kv.1 := kv.2]> o) source target.

(** The test of [ensureAuthenticatedUser] on the referrer:
    [referrer && referrer.startsWith(loginUrl)]. *)
Definition fromLoginPage (referrer loginUrl : string) : bool :=
  negb (String.eqb referrer "") && startsWith referrer loginUrl.

(** ** [AbstractAuthService] *)

Module AbstractAuthService.

Record t := {
  authenticatedHttpClient : option Client;
  httpClient : option Client;
  authenticatedUser : option JsObject;
  config : Config;
}.

(** What a subclass adds: how it reaches the fields of the base class and
    its own [getMiddlewareClients]. *)
Class Subclass (S : Type) := {
  super : S → t;
  withSuper : (t → t) → S → S;
  getMiddlewareClients : S → list (option Client);
}.

Definition constructor (options : Options.t) : t :=
  {| authenticatedHttpClient := None;
     httpClient := None;
     authenticatedUser := None;
     config := Options.config options |}.

Definition set_authenticatedHttpClient (c : option Client) (s : t) : t :=
  {| authenticatedHttpClient := c; httpClient := httpClient s;
     authenticatedUser := authenticatedUser s; config := config s |}.

Definition set_httpClient (c : option Client) (s : t) : t :=
  {| authenticatedHttpClient := authenticatedHttpClient s; httpClient := c;
     authenticatedUser := authenticatedUser s; config := config s |}.

Definition set_authenticatedUser (u : option JsObject) (s : t) : t :=
  {| authenticatedHttpClient := authenticatedHttpClient s;
     httpClient := httpClient s;
     authenticatedUser := u; config := config s |}.

Section Methods.
Context {S : Type} `{Subclass S}.

Definition getConfig : M S Config :=
  self ← this; mret (config (super self)).

Definition callMiddleware (middlewareFn : Middleware)
    (client : option Client) : M S unit :=
  match client with
  | None => mret tt
  | Some c =>
      emit (MiddlewareCall (mw_name middlewareFn) c) ;;
      match mw_fn middlewareFn c with
      | Some error => throw error
      | None => mret tt
      end
  end.

Definition applyMiddleware (middleware : option (list Middleware))
    : M S unit :=
  let middleware := default [] middleware in
  self ← this;
  let clients := getMiddlewareClients self in
  tryCatch
    (forEach (λ middlewareFn,
                forEach (λ client, callMiddleware middlewareFn client)
                        clients)
             middleware)
    (λ error,
       logFrontendAuthError (LogException error) ;;
       throw error).

Definition getAuthenticatedHttpClient : M S (option Client) :=
  self ← this; mret (authenticatedHttpClient (super self)).

Definition getHttpClient : M S (option Client) :=
  self ← this; mret (httpClient (super self)).

Definition getLoginRedirectUrl (redirectUrl : option string) : M S string :=
  c ← getConfig;
  let redirectUrl := default (BASE_URL c) redirectUrl in
  mret (LOGIN_URL c ++ "?next=" ++ encodeURIComponent redirectUrl).

Definition redirectToLogin (redirectUrl : option string) : M S unit :=
  c ← getConfig;
  let redirectUrl := default (BASE_URL c) redirectUrl in
  target ← getLoginRedirectUrl (Some redirectUrl);
  emit (LocationAssign target).

Definition getLogoutRedirectUrl (redirectUrl : option string) : M S string :=
  c ← getConfig;
  let redirectUrl := default (BASE_URL c) redirectUrl in
  mret (LOGOUT_URL c ++ "?redirect_url=" ++ encodeURIComponent redirectUrl).

Definition redirectToLogout (redirectUrl : option string) : M S unit :=
  c ← getConfig;
  let redirectUrl := default (BASE_URL c) redirectUrl in
  target ← getLogoutRedirectUrl (Some redirectUrl);
  emit (LocationAssign target).

Definition getAuthenticatedUser : M S (option JsObject) :=
  self ← this; mret (authenticatedUser (super self)).

Definition setAuthenticatedUser (authUser : option JsObject) : M S unit :=
  assign (withSuper (set_authenticatedUser authUser)).

End Methods.

(** The methods the base class leaves to its subclasses. *)
Definition fetchAuthenticatedUser : M t (option JsObject) :=
  throw (newError "Subclasses must implement fetchAuthenticatedUser.").

Definition ensureAuthenticatedUser : M t JsObject :=
  throw (newError "Subclasses must implement ensureAuthenticatedUser.").

Definition hydrateAuthenticatedUser : M t unit :=
  throw (newError "Subclasses must implement hydrateAuthenticatedUser.").

Definition redirectLoopError : JsError :=
  newError "Redirect from login page. Rejecting to avoid infinite redirect loop.".

Definition unauthorizedError : JsError :=
  {| message := "Failed to ensure the user is authenticated";
     isRedirecting := true |}.

Global Instance itself : Subclass t := {|
  super := id;
  withSuper f := f;
  getMiddlewareClients s := [authenticatedHttpClient s; httpClient s];
|}.

End AbstractAuthService.

(** ** [AxiosJwtAuthService] *)

Module AxiosJwtAuthService.
Import AbstractAuthService.

Record t := {
  base : AbstractAuthService.t;
  cachedAuthenticatedHttpClient : option Client;
  cachedHttpClient : option Client;
  middleware : option (list Middleware);
}.

Definition set_cached (a h : option Client) (s : t) : t :=
  {| base := base s; cachedAuthenticatedHttpClient := a;
     cachedHttpClient := h; middleware := middleware s |}.

Definition set_middleware (m : option (list Middleware)) (s : t) : t :=
  {| base := base s;
     cachedAuthenticatedHttpClient := cachedAuthenticatedHttpClient s;
     cachedHttpClient := cachedHttpClient s; middleware := m |}.

Global Instance extends : Subclass t := {|
  super := base;
  withSuper f s :=
    {| base := f (base s);
       cachedAuthenticatedHttpClient := cachedAuthenticatedHttpClient s;
       cachedHttpClient := cachedHttpClient s;
       middleware := middleware s |};
  getMiddlewareClients s :=
    [authenticatedHttpClient (base s);
     httpClient (base s);
     cachedAuthenticatedHttpClient s;
     cachedHttpClient s];
|}.

Definition addAuthenticationToHttpClient (newHttpClient : Client)
    : M t Client :=
  httpClient ← inWorld (objectCreate newHttpClient);
  inWorld (λ w, (tt, updateInstance enableCredentials httpClient w)) ;;
  c ← getConfig;
  inWorld (λ w, (tt, updateInstance
      (useRequest (attachCsrfTokenInterceptor (CSRF_TOKEN_API_PATH c)))
      httpClient w)) ;;
  inWorld (λ w, (tt, updateInstance
      (useRequest refreshAccessTokenInterceptor) httpClient w)) ;;
  inWorld (λ w, (tt, updateInstance
      (useResponse processAxiosRequestErrorInterceptor) httpClient w)) ;;
  mret httpClient.

(** The body of the constructor, up to the call of [configureCache()]; the
    callbacks it attaches to the promise are [cacheInitialization]. *)
Definition constructor (options : Options.t) : M t unit :=
  created ← inWorld (createInstance false);
  client ← addAuthenticationToHttpClient created;
  assign (withSuper (set_authenticatedHttpClient (Some client))) ;;
  created ← inWorld (createInstance false);
  assign (withSuper (set_httpClient (Some created))) ;;
  assign (set_cached None None) ;;
  emit ConfigureCache.

(** [this] before the body of the constructor runs: the fields set by
    [super(options)]. *)
Definition allocated (options : Options.t) : t :=
  {| base := AbstractAuthService.constructor options;
     cachedAuthenticatedHttpClient := None;
     cachedHttpClient := None;
     middleware := None |}.

(** The promise [configureCache()] returned, once it has settled. *)
Definition configureCacheSettled : M t Client :=
  e ← ask;
  match configureCache e with
  | Some error => throw error
  | None => inWorld (createInstance true)
  end.

(** [configureCache().then(..).catch(..).finally(..)] *)
Definition cacheInitialization (options : Options.t) : M t unit :=
  promiseFinally
    (promiseCatch
       (promiseThen configureCacheSettled
          (λ cachedAxiosClient,
             client ← addAuthenticationToHttpClient cachedAxiosClient;
             assign (set_cached (Some client) (Some cachedAxiosClient))))
       (λ e,
          self ← this;
          assign (set_cached (authenticatedHttpClient (base self))
                             (httpClient (base self))) ;;
          logFrontendAuthError
            (LogMessage ("configureCache failed with error: " ++ message e))))
    (assign (set_middleware (Options.middleware options)) ;;
     applyMiddleware (Options.middleware options)).

Definition getAuthenticatedHttpClient (useCache : bool)
    : M t (option Client) :=
  if useCache then
    self ← this; mret (cachedAuthenticatedHttpClient self)
  else AbstractAuthService.getAuthenticatedHttpClient.

Definition getHttpClient (useCache : bool) : M t (option Client) :=
  if useCache then
    self ← this; mret (cachedHttpClient self)
  else AbstractAuthService.getHttpClient.

Definition fetchAuthenticatedUser (forceRefresh : bool)
    : M t (option JsObject) :=
  e ← ask;
  emit (GetJwtToken forceRefresh) ;;
  match getJwtToken e forceRefresh with
  | Some decodedAccessToken =>
      setAuthenticatedUser (Some (
        <["name" := prop decodedAccessToken "name"]> (
        <["administrator" := prop decodedAccessToken "administrator"]> (
        <["roles" := js_or (prop decodedAccessToken "roles") (JArr [])]> (
        <["username" := prop decodedAccessToken "preferred_username"]> (
        <["userId" := prop decodedAccessToken "user_id"]> (
        <["email" := prop decodedAccessToken "email"]> ∅)))))))
  | None => setAuthenticatedUser None
  end ;;
  getAuthenticatedUser.

Definition ensureAuthenticatedUser (redirectUrl : option string)
    : M t JsObject :=
  c ← getConfig;
  let redirectUrl := default (BASE_URL c) redirectUrl in
  fetchAuthenticatedUser false ;;
  user ← getAuthenticatedUser;
  match user with
  | None =>
      e ← ask;
      let isRedirectFromLoginPage :=
        fromLoginPage (document_referrer e) (LOGIN_URL c) in
      if isRedirectFromLoginPage then
        logFrontendAuthError (LogException redirectLoopError) ;;
        throw redirectLoopError
      else
        redirectToLogin (Some redirectUrl) ;;
        throw unauthorizedError
  | Some user => mret user
  end.

Definition hydrateAuthenticatedUser : M t unit :=
  user ← getAuthenticatedUser;
  match user with
  | Some user =>
      self ← this;
      match authenticatedHttpClient (base self) with
      | None => throw (newError "Cannot read properties of null")
      | Some client =>
          c ← getConfig;
          response ← request client
            (getRequest (LMS_BASE_URL c ++ "/api/user/v1/accounts/"
                         ++ toString (prop user "username")));
          setAuthenticatedUser
            (Some (spread user (camelCaseObject (data response))))
      end
  | None => mret tt
  end.

End AxiosJwtAuthService.

(** ** [DevelopmentAuthService] *)

Module DevelopmentAuthService.
Import AbstractAuthService.

Record t := {
  base : AbstractAuthService.t;
  hydratedAuthenticatedUser : JsObject;
}.

Global Instance extends : Subclass t := {|
  super := base;
  withSuper f s :=
    {| base := f (base s);
       hydratedAuthenticatedUser := hydratedAuthenticatedUser s |};
  getMiddlewareClients s :=
    [authenticatedHttpClient (base s); httpClient (base s)];
|}.

Definition set_hydratedAuthenticatedUser (u : JsObject) (s : t) : t :=
  {| base := base s; hydratedAuthenticatedUser := u |}.

Definition addConfigResponderToHttpClient (newHttpClient : Client)
    : M t Client :=
  emit (ConsoleLog "add config responder") ;;
  httpClient ← inWorld (objectCreate newHttpClient);
  c ← getConfig;
  let apiConfig := default ∅ (d ← dev c; dev_apiConfig d) in
  inWorld (λ w, (tt, updateInstance (useRequest (apiInterceptor apiConfig))
                                    httpClient w)) ;;
  mret httpClient.

Definition constructor (options : Options.t) : M t unit :=
  c ← getConfig;
  assign (withSuper (set_authenticatedUser (d ← dev c; dev_authenticatedUser d))) ;;
  assign (set_hydratedAuthenticatedUser
            (default ∅ (d ← dev c; dev_hydratedAuthenticatedUser d))) ;;
  created ← inWorld (createInstance false);
  client ← addConfigResponderToHttpClient created;
  assign (withSuper (set_authenticatedHttpClient (Some client))) ;;
  created ← inWorld (createInstance false);
  client ← addConfigResponderToHttpClient created;
  assign (withSuper (set_httpClient (Some client))).

Definition allocated (options : Options.t) : t :=
  {| base := AbstractAuthService.constructor options;
     hydratedAuthenticatedUser := ∅ |}.

Definition fetchAuthenticatedUser : M t (option JsObject) :=
  getAuthenticatedUser.

Definition ensureAuthenticatedUser (redirectUrl : option string)
    : M t JsObject :=
  c ← getConfig;
  let redirectUrl := default (BASE_URL c) redirectUrl in
  fetchAuthenticatedUser ;;
  user ← getAuthenticatedUser;
  match user with
  | None =>
      e ← ask;
      let isRedirectFromLoginPage :=
        fromLoginPage (document_referrer e) (LOGIN_URL c) in
      if isRedirectFromLoginPage then
        logFrontendAuthError (LogException redirectLoopError) ;;
        throw redirectLoopError
      else
        redirectToLogin (Some redirectUrl) ;;
        throw unauthorizedError
  | Some user => mret user
  end.

Definition hydrateAuthenticatedUser : M t (option JsObject) :=
  getAuthenticatedUser.

End DevelopmentAuthService.

(** ** In-flight deduplication of a refresh *)

Module TokenProvider.

(** Modelled from the spec: the credential and anti-forgery token
    providers ([AxiosJwtTokenService], [AxiosCsrfTokenService]), which are
    not part of the sources.  A provider holds the cached value and "a
    singleton in-flight marker": "while non-null, all concurrent
    requesters await the same pending operation; set to null once
    settled".  Tasks interleave on one event loop, so a run is a sequence
    of calls and settlements. *)

Inductive Kind := Credential | AntiForgeryToken.

Inductive Settlement (V : Type) :=
| Fulfilled (v : V)
| Rejected (e : JsError).
Arguments Fulfilled {V} v.
Arguments Rejected {V} e.

(** What a requester gets back. *)
Inductive Observed (V : Type) :=
| Value (v : V)
| Null
| Failure (e : JsError).
Arguments Value {V} v.
Arguments Null {V}.
Arguments Failure {V} e.

(** Modelled from the spec: what the requesters of a settled refresh get.  A
    failed credential refresh "returns null and does not throw"; a failed
    anti-forgery fetch "propagates as an error to all waiters". *)
Definition observe {V} (kind : Kind) (r : Settlement V) : Observed V :=
  match r, kind with
  | Fulfilled v, _ => Value v
  | Rejected _, Credential => Null
  | Rejected e, AntiForgeryToken => Failure e
  end.

(** Modelled from the spec: the state of a provider.  [inFlight] is the
    in-flight marker, with the requesters awaiting the pending refresh;
    [refreshCalls] counts the calls made to the backend and [observed] lists
    what each requester got. *)
Record t (V : Type) := {
  cached : option V;
  inFlight : option (list nat);
  refreshCalls : nat;
  observed : list (nat * Observed V);
}.
Arguments cached {V} _.
Arguments inFlight {V} _.
Arguments refreshCalls {V} _.
Arguments observed {V} _.

Definition idle {V} : t V :=
  {| cached := None; inFlight := None; refreshCalls := 0; observed := [] |}.

Inductive Input (V : Type) :=
| Call (caller : nat)
| Settle (r : Settlement V).
Arguments Call {V} caller.
Arguments Settle {V} r.

(** Modelled from the spec: one turn of the event loop.  A call is answered
    from the cache when there is a value; otherwise it joins the pending
    refresh, or starts one when none is pending.  A settlement hands its
    result to every waiting requester and clears the marker. *)
Definition step {V} (kind : Kind) (p : t V) (i : Input V) : t V :=
  match i with
  | Call caller =>
      match cached p, inFlight p with
      | Some v, _ =>
          {| cached := cached p; inFlight := inFlight p;
             refreshCalls := refreshCalls p;
             observed := observed p ++ [(caller, Value v)] |}
      | None, Some waiting =>
          {| cached := None; inFlight := Some (waiting ++ [caller])%list;
             refreshCalls := refreshCalls p; observed := observed p |}
      | None, None =>
          {| cached := None; inFlight := Some [caller];
             refreshCalls := S (refreshCalls p); observed := observed p |}
      end
  | Settle r =>
      match inFlight p with
      | Some waiting =>
          {| cached := match r with Fulfilled v => Some v | Rejected _ => cached p end;
             inFlight := None;
             refreshCalls := refreshCalls p;
             observed := observed p
               ++ map (λ caller, (caller, observe kind r)) waiting |}
      | None => p
      end
  end.

Definition run {V} (kind : Kind) (inputs : list (Input V)) (p : t V) : t V :=
  fold_left (step kind) inputs p.

End TokenProvider.

(** ** Observations on traces and on the life of a service *)

(** The events recorded between two states of the world. *)
Definition eventsSince (before after : World) : list Event :=
  drop (length (trace before)) (trace after).

Definition isNetworkCall (ev : Event) : bool :=
  match ev with
  | GetJwtToken _ | GetCsrfToken _ _ | Send _ => true
  | _ => false
  end.

Definition isReport (text : string) (ev : Event) : bool :=
  match ev with
  | LogError (LogMessage t) => String.eqb t text
  | _ => false
  end.

Definition isCall (name : string) (c : Client) (ev : Event) : bool :=
  match ev with
  | MiddlewareCall n c' => String.eqb n name && sameClient c c'
  | _ => false
  end.

Definition count (p : Event → bool) (evs : list Event) : nat :=
  length (filter (λ ev, p ev = true) evs).

(** The headers of the requests handed to the transport. *)
Definition sentHeaders (evs : list Event) : list (gmap string string) :=
  omap (λ ev, match ev with Send c => Some (headers c) | _ => None end) evs.

(** The world after more events. *)
Definition recordAll (evs : list Event) (w : World) : World :=
  {| env := env w; instances := instances w; objects := objects w;
     trace := trace w ++ evs |}.

(** The events [applyMiddleware] can record: calls of middleware functions
    and the report of what one of them threw. *)
Definition isMiddlewareEvent (ev : Event) : bool :=
  match ev with
  | MiddlewareCall _ _ | LogError (LogException _) => true
  | _ => false
  end.

(** The calls made when every function of [middleware] is applied to every
    client of [clients] that is not null. *)
Definition middlewareCalls (middleware : list Middleware)
    (clients : list (option Client)) : list Event :=
  flat_map (λ m, map (MiddlewareCall (mw_name m)) (omap id clients)) middleware.

(** The anti-forgery token fetches among some events: request URL and API
    path of each. *)
Definition csrfFetches (evs : list Event) : list (string * string) :=
  omap (λ ev, match ev with
              | GetCsrfToken requestUrl apiPath => Some (requestUrl, apiPath)
              | _ => None
              end) evs.

(** The targets of the navigations among some events. *)
Definition navigations (evs : list Event) : list string :=
  omap (λ ev, match ev with LocationAssign target => Some target | _ => None end) evs.

Module Lifecycle.
Import AbstractAuthService AxiosJwtAuthService.

(** [new AxiosJwtAuthService(options)]: what the caller gets. *)
Definition constructed (options : Options.t) (w : World)
    : Outcome unit * (AxiosJwtAuthService.t * World) :=
  AxiosJwtAuthService.constructor options
    (AxiosJwtAuthService.allocated options, w).

(** What application code can do with a service between its construction
    and the settlement of the cache. *)
Inductive Operation :=
| FetchAuthenticatedUser (forceRefresh : bool)
| EnsureAuthenticatedUser (redirectUrl : option string)
| HydrateAuthenticatedUser
| SetAuthenticatedUser (authUser : option JsObject)
| RedirectToLogin (redirectUrl : option string)
| RedirectToLogout (redirectUrl : option string)
| Request (useCache authenticated : bool) (c : AxiosRequestConfig).

Definition discard {A} (m : M AxiosJwtAuthService.t A)
    : M AxiosJwtAuthService.t unit :=
  λ σ, (Return tt, (m σ).2).

Definition perform (op : Operation) : M AxiosJwtAuthService.t unit :=
  match op with
  | FetchAuthenticatedUser forceRefresh =>
      discard (AxiosJwtAuthService.fetchAuthenticatedUser forceRefresh)
  | EnsureAuthenticatedUser redirectUrl =>
      discard (AxiosJwtAuthService.ensureAuthenticatedUser redirectUrl)
  | HydrateAuthenticatedUser =>
      discard AxiosJwtAuthService.hydrateAuthenticatedUser
  | SetAuthenticatedUser authUser => setAuthenticatedUser authUser
  | RedirectToLogin redirectUrl => redirectToLogin redirectUrl
  | RedirectToLogout redirectUrl => redirectToLogout redirectUrl
  | Request useCache authenticated c =>
      discard
        (client ← (if authenticated
                   then AxiosJwtAuthService.getAuthenticatedHttpClient useCache
                   else AxiosJwtAuthService.getHttpClient useCache);
         match client with
         | Some client => request client c
         | None => throw (newError "Cannot read properties of null")
         end)
  end.

Fixpoint performAll (ops : list Operation)
    (σ : AxiosJwtAuthService.t * World) : AxiosJwtAuthService.t * World :=
  match ops with
  | [] => σ
  | op :: rest => performAll rest (perform op σ).2
  end.

(** The service while the promise of [configureCache()] is pending, after
    the application has performed [ops]. *)
Definition pending (options : Options.t) (ops : list Operation) (w : World)
    : AxiosJwtAuthService.t * World :=
  performAll ops (constructed options w).2.

(** The service once the promise has settled and its callbacks have run. *)
Definition settled (options : Options.t) (ops : list Operation) (w : World)
    : Outcome unit * (AxiosJwtAuthService.t * World) :=
  AxiosJwtAuthService.cacheInitialization options (pending options ops w).
End Lifecycle.

(** Two states of a service with the same four client handles. *)
Definition sameClients (s s' : AxiosJwtAuthService.t) : Prop :=
  AxiosJwtAuthService.cachedAuthenticatedHttpClient s'
    = AxiosJwtAuthService.cachedAuthenticatedHttpClient s
  ∧ AxiosJwtAuthService.cachedHttpClient s' = AxiosJwtAuthService.cachedHttpClient s
  ∧ AbstractAuthService.authenticatedHttpClient (AxiosJwtAuthService.base s')
    = AbstractAuthService.authenticatedHttpClient (AxiosJwtAuthService.base s)
  ∧ AbstractAuthService.httpClient (AxiosJwtAuthService.base s')
    = AbstractAuthService.httpClient (AxiosJwtAuthService.base s).

(** ** Sample inputs *)

Module Sample.

Definition config : Config :=
  {| BASE_URL := "http://localhost";
     LMS_BASE_URL := "http://lms";
     LOGIN_URL := "http://localhost/login";
     LOGOUT_URL := "http://localhost/logout";
     REFRESH_ACCESS_TOKEN_ENDPOINT := "http://lms/login_refresh";
     ACCESS_TOKEN_COOKIE_NAME := "jwt";
     CSRF_TOKEN_API_PATH := "/csrf/api/v1/token";
     dev := None |}.

(** A configuration whose login URL is the empty string. *)
Definition noLoginUrl : Config :=
  {| BASE_URL := "http://localhost";
     LMS_BASE_URL := "http://lms";
     LOGIN_URL := "";
     LOGOUT_URL := "http://localhost/logout";
     REFRESH_ACCESS_TOKEN_ENDPOINT := "http://lms/login_refresh";
     ACCESS_TOKEN_COOKIE_NAME := "jwt";
     CSRF_TOKEN_API_PATH := "/csrf/api/v1/token";
     dev := None |}.

Definition profile : JsEntries := [("full_name", JStr "A B")].

Definition collaborators (referrer : string) (token : option JsObject)
    (cacheFailure : option JsError) : Collaborators :=
  {| document_referrer := referrer;
     getJwtToken := λ _, token;
     getCsrfToken := λ _ _, inr "token";
     CSRF_HEADER_NAME := "X-CSRFToken";
     configureCache := cacheFailure;
     send := λ _, inr {| data := profile |} |}.

Definition options (c : Config) (middleware : option (list Middleware))
    : Options.t :=
  {| Options.config := c; Options.middleware := middleware |}.

(** A service of each kind, constructed and still anonymous. *)
Definition jwt (c : Config) (w : World) : AxiosJwtAuthService.t * World :=
  (Lifecycle.constructed (options c None) w).2.

Definition development (c : Config) (w : World)
    : DevelopmentAuthService.t * World :=
  (DevelopmentAuthService.constructor (options c None)
     (DevelopmentAuthService.allocated (options c None), w)).2.

(** The user and the profile response of the example of hydration. *)
Definition user : JsObject :=
  <["roles" := JArr [JStr "x"]]> (<["username" := JStr "a"]> (<["userId" := JStr "1"]> ∅)).

Definition hydratedUser : JsObject := <["fullName" := JStr "A B"]> user.

Definition authenticatedJwt : AxiosJwtAuthService.t * World :=
  (AbstractAuthService.setAuthenticatedUser (Some user)
     (jwt config (newWorld (collaborators "" None None)))).2.

(** A decoded access token without roles. *)
Definition decodedAccessToken : JsObject :=
  <["preferred_username" := JStr "a"]> (<["user_id" := JNum "1"]>
    (<["email" := JStr "a@example.com"]> (<["administrator" := JBool false]> ∅))).

(** A development configuration with a mock user and its hydrated form. *)
Definition mockConfig : Config :=
  {| BASE_URL := "http://localhost";
     LMS_BASE_URL := "http://lms";
     LOGIN_URL := "http://localhost/login";
     LOGOUT_URL := "http://localhost/logout";
     REFRESH_ACCESS_TOKEN_ENDPOINT := "http://lms/login_refresh";
     ACCESS_TOKEN_COOKIE_NAME := "jwt";
     CSRF_TOKEN_API_PATH := "/csrf/api/v1/token";
     dev := Some {| dev_authenticatedUser := Some user;
                    dev_hydratedAuthenticatedUser := Some hydratedUser;
                    dev_apiConfig := None |} |}.

Definition mockDevelopment : DevelopmentAuthService.t * World :=
  development mockConfig (newWorld (collaborators "" None None)).

(** A middleware function that never throws. *)
Definition quiet (name : string) : Middleware :=
  {| mw_name := name; mw_fn := λ _, None |}.

(** A service whose cache fails to initialise, configured with one
    middleware function, once the failure has been handled. *)
Definition cacheFailed : AxiosJwtAuthService.t * World :=
  (Lifecycle.settled (options config (Some [quiet "m"])) []
     (newWorld (collaborators "" None (Some (newError "no storage"))))).2.

(** The same service when the cache initialises. *)
Definition cacheReady : AxiosJwtAuthService.t * World :=
  (Lifecycle.settled (options config (Some [quiet "m"])) []
     (newWorld (collaborators "" None None))).2.

(** A request to create an enrollment, flagged exempt or not. *)
Definition enroll (requestMethod : string) (exempt : bool) : AxiosRequestConfig :=
  {| url := "http://lms/api/enrollment/v1/enrollment";
     method := requestMethod;
     headers := ∅;
     isPublic := false;
     isCsrfExempt := exempt;
     mockApiId := None;
     adapter := None |}.

Definition anonymousJwt (referrer : string) (c : Config)
    : AxiosJwtAuthService.t * World :=
  jwt c (newWorld (collaborators referrer None None)).

Definition anonymousDevelopment (referrer : string) (c : Config)
    : DevelopmentAuthService.t * World :=
  development c (newWorld (collaborators referrer None None)).

End Sample.

(** ** Decoding a query value, canned responses, further observations *)

Definition hexValue (c : ascii) : option nat :=
  let n := nat_of_ascii c in
  if ((48 <=? n) && (n <=? 57))%nat then Some (n - 48)
  else if ((65 <=? n) && (n <=? 70))%nat then Some (n - 55)
  else if ((97 <=? n) && (n <=? 102))%nat then Some (n - 87)
  else None.

(** The percent-decoding a server applies to the value of a query
    parameter: [%XX] is the byte [XX], any other character is itself. *)
Fixpoint percentDecode (s : string) : option string :=
  match s with
  | "" => Some ""
  | String c rest =>
      if Ascii.eqb c "%" then
        match rest with
        | String h (String l rest') =>
            match hexValue h, hexValue l with
            | Some a, Some b =>
                option_map (String (ascii_of_nat (16 * a + b))) (percentDecode rest')
            | _, _ => None
            end
        | _ => None
        end
      else option_map (String c) (percentDecode rest)
  end.

(** The response the adapter installed by [createApiInterceptor] resolves
    with, for the [config] it is called with:
    [{ data: {}, status: 200, statusText: 'OK', headers: {..}, config,
       request: {}, ...callConfig }]. *)
Definition adapterResponse (callConfig : JsObject) (config : JsValue) : JsObject :=
  callConfig ∪
    <["data" := JObj []]> (
    <["status" := JNum "200"]> (
    <["statusText" := JStr "OK"]> (
    <["headers" := JObj [("content-type", JStr "application/json")]]> (
    <["config" := config]> (
    <["request" := JObj []]> ∅))))).

(** The [forceRefresh] arguments of the calls to the token service among
    some events. *)
Definition credentialFetches (evs : list Event) : list bool :=
  omap (λ ev, match ev with GetJwtToken forceRefresh => Some forceRefresh | _ => None end) evs.

(** What was reported to the logging sink among some events. *)
Definition reported (evs : list Event) : list LogPayload :=
  omap (λ ev, match ev with LogError what => Some what | _ => None end) evs.

(** The requests handed to the transport among some events. *)
Definition sent (evs : list Event) : list AxiosRequestConfig :=
  omap (λ ev, match ev with Send c => Some c | _ => None end) evs.

(** The calls of middleware functions among some events: name of the
    function and client of each. *)
Definition middlewareCalled (evs : list Event) : list (string * Client) :=
  omap (λ ev, match ev with MiddlewareCall name c => Some (name, c) | _ => None end) evs.

(** The characters of a query value that end it or split it. *)
Definition queryDelimiters : list ascii := ["&"; "="; "#"; "?"; "/"; ":"; " "; "+"]%char.

(** The user [fetchAuthenticatedUser] builds from a decoded token. *)
Definition userOfToken (decodedAccessToken : JsObject) : JsObject :=
  <["name" := prop decodedAccessToken "name"]> (
  <["administrator" := prop decodedAccessToken "administrator"]> (
  <["roles" := js_or (prop decodedAccessToken "roles") (JArr [])]> (
  <["username" := prop decodedAccessToken "preferred_username"]> (
  <["userId" := prop decodedAccessToken "user_id"]> (
  <["email" := prop decodedAccessToken "email"]> ∅))))).

(** The address of the accounts endpoint for a user. *)
Definition accountUrl (c : Config) (user : JsObject) : string :=
  LMS_BASE_URL c ++ "/api/user/v1/accounts/" ++ toString (prop user "username").

(** [new DevelopmentAuthService(options)]: what the caller gets. *)
Definition developmentConstructed (options : Options.t) (w : World)
    : Outcome unit * (DevelopmentAuthService.t * World) :=
  DevelopmentAuthService.constructor options
    (DevelopmentAuthService.allocated options, w).

(** The table of canned responses of a configuration:
    [config.dev && config.dev.apiConfig || {}]. *)
Definition apiConfigOf (c : Config) : gmap string JsObject :=
  default ∅ (d ← dev c; dev_apiConfig d).


(** An axios instance as [axios.create()] returns it. *)
Definition freshInstance (cached : bool) : AxiosInstance :=
  {| usesCache := cached; withCredentials := false;
     requestInterceptors := []; responseInterceptors := [] |}.

Module Scenario.

(** Collaborators whose transport fails every request. *)
Definition offline (token : option JsObject) : Collaborators :=
  {| document_referrer := "";
     getJwtToken := λ _, token;
     getCsrfToken := λ _ _, inl (newError "no token");
     CSRF_HEADER_NAME := "X-CSRFToken";
     configureCache := None;
     send := λ _, inl (newError "Network Error") |}.

(** A middleware function that throws on every client. *)
Definition failing (name : string) : Middleware :=
  {| mw_name := name; mw_fn := λ _, Some (newError "middleware failed") |}.

(** A JWT service with a user, whose profile request will fail. *)
Definition authenticatedOffline : AxiosJwtAuthService.t * World :=
  (AbstractAuthService.setAuthenticatedUser (Some Sample.user)
     (Sample.jwt Sample.config (newWorld (offline None)))).2.



End Scenario.

(** * Properties *)

(** ** Strings and traces *)

Lemma prefix_refl (s : string) : String.prefix s s = true.
Proof.
  induction s as [|c s IH]; simpl; [reflexivity|].
  destruct (ascii_dec c c); [exact IH | congruence].
Qed.

Lemma startsWith_refl (s : string) : startsWith s s = true.
Proof. apply prefix_refl. Qed.

Lemma fromLoginPage_same (s : string) : s ≠ "" → fromLoginPage s s = true.
Proof.
  intros Hs. unfold fromLoginPage. rewrite startsWith_refl, andb_true_r.
  apply negb_true_iff, String.eqb_neq, Hs.
Qed.

Lemma fromLoginPage_empty (loginUrl : string) : fromLoginPage "" loginUrl = false.
Proof. reflexivity. Qed.

Lemma eventsSince_record (w w' : World) (evs : list Event) :
  trace w' = (trace w ++ evs)%list → eventsSince w w' = evs.
Proof. intros H. unfold eventsSince. rewrite H. apply drop_app_length. Qed.

(** The examples of the documentation of [getLoginRedirectUrl] and
    [getLogoutRedirectUrl], and the conversion of a field name. *)
Example getLoginRedirectUrl_mypage :
  (AbstractAuthService.getLoginRedirectUrl (Some "http://localhost/mypage")
     (Sample.anonymousJwt "" Sample.config)).1
  = Return "http://localhost/login?next=http%3A%2F%2Flocalhost%2Fmypage".
Proof. reflexivity. Qed.

Example getLogoutRedirectUrl_mypage :
  (AbstractAuthService.getLogoutRedirectUrl (Some "http://localhost/mypage")
     (Sample.anonymousJwt "" Sample.config)).1
  = Return "http://localhost/logout?redirect_url=http%3A%2F%2Flocalhost%2Fmypage".
Proof. reflexivity. Qed.

Example camelCase_full_name :
  camelCase "full_name" = "fullName" ∧ camelCase "fullName" = "fullName"
  ∧ camelCase "level_of_education" = "levelOfEducation".
Proof. repeat split. Qed.

Example camelCaseObject_nested :
  camelCaseObject
    [("date_joined", JStr "2020"); ("social_links", JArr [JObj [("social_link", JNull)]])]
  = [("dateJoined", JStr "2020"); ("socialLinks", JArr [JObj [("socialLink", JNull)]])].
Proof. reflexivity. Qed.

Example toString_array :
  toString (JArr [JNum "-120"; JNull; JArr [JStr "a"; JBool true]]) = "-120,,a,true".
Proof. reflexivity. Qed.

(** The user [fetchAuthenticatedUser] builds from a decoded token: the six
    fields, [roles] defaulting to the empty array, a claim the token lacks
    left undefined. *)
Example fetchAuthenticatedUser_builds_user :
  (AxiosJwtAuthService.fetchAuthenticatedUser false
     (Sample.jwt Sample.config
        (newWorld (Sample.collaborators "" (Some Sample.decodedAccessToken) None)))).1
  = Return (Some (
      <["email" := JStr "a@example.com"]> (<["userId" := JNum "1"]> (
      <["username" := JStr "a"]> (<["roles" := JArr []]> (
      <["administrator" := JBool false]> (<["name" := JUndefined]> ∅))))))).
Proof. vm_compute. reflexivity. Qed.

(** ** [ensureAuthenticatedUser] *)

Arguments fromLoginPage : simpl never.
Arguments encodeURIComponent : simpl never.
Arguments request : simpl never.
Arguments lowerCaseMethod : simpl never.
Arguments getRequest : simpl never.
Arguments toString : simpl never.
Arguments prop : simpl never.
Arguments camelCaseObject : simpl never.
Arguments spread : simpl never.

Ltac run_method :=
  unfold mbind, M_bind, mret, M_ret, throw, emit, this, assign, ask,
    fromResult, logFrontendAuthError; simpl.

Lemma jwt_ensure_loop (s : AxiosJwtAuthService.t) (w : World)
    (redirectUrl : option string) :
  getJwtToken (env w) false = None →
  fromLoginPage (document_referrer (env w))
                (LOGIN_URL (AbstractAuthService.config (AxiosJwtAuthService.base s))) = true →
  AxiosJwtAuthService.ensureAuthenticatedUser redirectUrl (s, w)
  = (Throw AbstractAuthService.redirectLoopError,
     (AbstractAuthService.withSuper (AbstractAuthService.set_authenticatedUser None) s,
      recordEvent (LogError (LogException AbstractAuthService.redirectLoopError))
        (recordEvent (GetJwtToken false) w))).
Proof.
  intros Htoken Hloop.
  unfold AxiosJwtAuthService.ensureAuthenticatedUser,
    AxiosJwtAuthService.fetchAuthenticatedUser,
    AbstractAuthService.getAuthenticatedUser,
    AbstractAuthService.setAuthenticatedUser,
    AbstractAuthService.getConfig.
  run_method. rewrite Htoken. simpl. rewrite Hloop. reflexivity.
Qed.

Lemma jwt_fetch_null (s : AxiosJwtAuthService.t) (w : World) (forceRefresh : bool) :
  (AxiosJwtAuthService.fetchAuthenticatedUser forceRefresh (s, w)).1 = Return None
  ↔ getJwtToken (env w) forceRefresh = None.
Proof.
  unfold AxiosJwtAuthService.fetchAuthenticatedUser,
    AbstractAuthService.getAuthenticatedUser,
    AbstractAuthService.setAuthenticatedUser.
  run_method.
  destruct (getJwtToken (env w) forceRefresh); simpl; split; congruence.
Qed.

Lemma jwt_ensure_redirects (s : AxiosJwtAuthService.t) (w : World)
    (redirectUrl : option string) :
  let c := AbstractAuthService.config (AxiosJwtAuthService.base s) in
  getJwtToken (env w) false = None →
  fromLoginPage (document_referrer (env w)) (LOGIN_URL c) = false →
  AxiosJwtAuthService.ensureAuthenticatedUser redirectUrl (s, w)
  = (Throw AbstractAuthService.unauthorizedError,
     (AbstractAuthService.withSuper (AbstractAuthService.set_authenticatedUser None) s,
      recordEvent
        (LocationAssign (LOGIN_URL c ++ "?next="
           ++ encodeURIComponent (default (BASE_URL c) redirectUrl)))
        (recordEvent (GetJwtToken false) w))).
Proof.
  intros c Htoken Hloop. subst c.
  unfold AxiosJwtAuthService.ensureAuthenticatedUser,
    AxiosJwtAuthService.fetchAuthenticatedUser,
    AbstractAuthService.redirectToLogin,
    AbstractAuthService.getLoginRedirectUrl,
    AbstractAuthService.getAuthenticatedUser,
    AbstractAuthService.setAuthenticatedUser,
    AbstractAuthService.getConfig.
  run_method. rewrite Htoken. simpl. rewrite Hloop. reflexivity.
Qed.

Lemma dev_ensure_loop (s : DevelopmentAuthService.t) (w : World)
    (redirectUrl : option string) :
  AbstractAuthService.authenticatedUser (DevelopmentAuthService.base s) = None →
  fromLoginPage (document_referrer (env w))
    (LOGIN_URL (AbstractAuthService.config (DevelopmentAuthService.base s))) = true →
  DevelopmentAuthService.ensureAuthenticatedUser redirectUrl (s, w)
  = (Throw AbstractAuthService.redirectLoopError,
     (s, recordEvent (LogError (LogException AbstractAuthService.redirectLoopError)) w)).
Proof.
  intros Huser Hloop.
  unfold DevelopmentAuthService.ensureAuthenticatedUser,
    DevelopmentAuthService.fetchAuthenticatedUser,
    AbstractAuthService.getAuthenticatedUser,
    AbstractAuthService.getConfig.
  run_method. rewrite Huser. simpl. rewrite Hloop. reflexivity.
Qed.

Lemma dev_ensure_redirects (s : DevelopmentAuthService.t) (w : World)
    (redirectUrl : option string) :
  let c := AbstractAuthService.config (DevelopmentAuthService.base s) in
  AbstractAuthService.authenticatedUser (DevelopmentAuthService.base s) = None →
  fromLoginPage (document_referrer (env w)) (LOGIN_URL c) = false →
  DevelopmentAuthService.ensureAuthenticatedUser redirectUrl (s, w)
  = (Throw AbstractAuthService.unauthorizedError,
     (s, recordEvent
           (LocationAssign (LOGIN_URL c ++ "?next="
              ++ encodeURIComponent (default (BASE_URL c) redirectUrl)))
           w)).
Proof.
  intros c Huser Hloop. subst c.
  unfold DevelopmentAuthService.ensureAuthenticatedUser,
    DevelopmentAuthService.fetchAuthenticatedUser,
    AbstractAuthService.redirectToLogin,
    AbstractAuthService.getLoginRedirectUrl,
    AbstractAuthService.getAuthenticatedUser,
    AbstractAuthService.getConfig.
  run_method. rewrite Huser. simpl. rewrite Hloop. reflexivity.
Qed.

Lemma eventsSince_record1 (w : World) (a : Event) :
  eventsSince w (recordEvent a w) = [a].
Proof. apply eventsSince_record. reflexivity. Qed.

Lemma eventsSince_record2 (w : World) (a b : Event) :
  eventsSince w (recordEvent b (recordEvent a w)) = [a; b].
Proof.
  apply eventsSince_record. simpl. rewrite <- app_assoc. reflexivity.
Qed.

(** C1, as amended.  For the JWT and the development service alike: when the
    session is anonymous after [fetchAuthenticatedUser] and the referrer is
    not the empty string and equals the configured login URL,
    [ensureAuthenticatedUser] rejects with the redirect-loop error and no
    navigation takes place. *)
Theorem ensureAuthenticatedUser_rejects_redirect_loop
    (w : World) (redirectUrl : option string) :
  document_referrer (env w) ≠ "" →
  (∀ s : AxiosJwtAuthService.t,
     (AxiosJwtAuthService.fetchAuthenticatedUser false (s, w)).1 = Return None →
     document_referrer (env w)
       = LOGIN_URL (AbstractAuthService.config (AxiosJwtAuthService.base s)) →
     ∃ σ, AxiosJwtAuthService.ensureAuthenticatedUser redirectUrl (s, w)
            = (Throw AbstractAuthService.redirectLoopError, σ)
          ∧ navigations (eventsSince w σ.2) = []
          ∧ AbstractAuthService.authenticatedUser (AxiosJwtAuthService.base σ.1) = None)
  ∧ (∀ s : DevelopmentAuthService.t,
       (DevelopmentAuthService.fetchAuthenticatedUser (s, w)).1 = Return None →
       document_referrer (env w)
         = LOGIN_URL (AbstractAuthService.config (DevelopmentAuthService.base s)) →
       ∃ σ, DevelopmentAuthService.ensureAuthenticatedUser redirectUrl (s, w)
              = (Throw AbstractAuthService.redirectLoopError, σ)
            ∧ navigations (eventsSince w σ.2) = []
            ∧ AbstractAuthService.authenticatedUser (DevelopmentAuthService.base σ.1) = None).
Proof.
  intros Hreferrer. split.
  - intros s Hfetch Hsame. apply jwt_fetch_null in Hfetch.
    eexists. split.
    + apply jwt_ensure_loop; [exact Hfetch|].
      rewrite <- Hsame. apply fromLoginPage_same, Hreferrer.
    + simpl. rewrite eventsSince_record2. split; reflexivity.
  - intros s Hfetch Hsame.
    assert (Huser : AbstractAuthService.authenticatedUser
                      (DevelopmentAuthService.base s) = None).
    { unfold DevelopmentAuthService.fetchAuthenticatedUser,
        AbstractAuthService.getAuthenticatedUser in Hfetch.
      revert Hfetch. run_method. congruence. }
    eexists. split.
    + apply dev_ensure_loop; [exact Huser|].
      rewrite <- Hsame. apply fromLoginPage_same, Hreferrer.
    + simpl. rewrite eventsSince_record1. split; [reflexivity | exact Huser].
Qed.

Lemma ensureAuthenticatedUser_rejects_redirect_loop_witness :
  (∃ σ, AxiosJwtAuthService.ensureAuthenticatedUser None
          ((Sample.anonymousJwt "http://localhost/login" Sample.config).1,
           (Sample.anonymousJwt "http://localhost/login" Sample.config).2)
          = (Throw AbstractAuthService.redirectLoopError, σ)
        ∧ navigations
            (eventsSince
               (Sample.anonymousJwt "http://localhost/login" Sample.config).2 σ.2)
          = []
        ∧ AbstractAuthService.authenticatedUser (AxiosJwtAuthService.base σ.1) = None)
  ∧ (∃ σ, DevelopmentAuthService.ensureAuthenticatedUser None
            ((Sample.anonymousDevelopment "http://localhost/login" Sample.config).1,
             (Sample.anonymousDevelopment "http://localhost/login" Sample.config).2)
            = (Throw AbstractAuthService.redirectLoopError, σ)
          ∧ navigations
              (eventsSince
                 (Sample.anonymousDevelopment "http://localhost/login"
                    Sample.config).2 σ.2)
            = []
          ∧ AbstractAuthService.authenticatedUser
              (DevelopmentAuthService.base σ.1) = None).
Proof.
  split.
  - apply (proj1 (ensureAuthenticatedUser_rejects_redirect_loop
                    (Sample.anonymousJwt "http://localhost/login" Sample.config).2
                    None ltac:(discriminate))
                 (Sample.anonymousJwt "http://localhost/login" Sample.config).1);
      reflexivity.
  - apply (proj2 (ensureAuthenticatedUser_rejects_redirect_loop
                    (Sample.anonymousDevelopment "http://localhost/login"
                       Sample.config).2
                    None ltac:(discriminate))
                 (Sample.anonymousDevelopment "http://localhost/login"
                    Sample.config).1);
      reflexivity.
Defined.

(** C1, as stated, fails where the login URL is configured as the empty
    string and the page has no referrer: the referrer equals the login URL,
    the session is anonymous, and both services navigate to the login page
    and reject with the redirecting error. *)
Lemma ensureAuthenticatedUser_empty_referrer_navigates :
  (document_referrer (env (Sample.anonymousJwt "" Sample.noLoginUrl).2)
     = LOGIN_URL (AbstractAuthService.config (AxiosJwtAuthService.base
         (Sample.anonymousJwt "" Sample.noLoginUrl).1))
   ∧ (AxiosJwtAuthService.fetchAuthenticatedUser false
        (Sample.anonymousJwt "" Sample.noLoginUrl)).1 = Return None
   ∧ (AxiosJwtAuthService.ensureAuthenticatedUser None
        (Sample.anonymousJwt "" Sample.noLoginUrl)).1
       = Throw AbstractAuthService.unauthorizedError
   ∧ navigations
       (eventsSince (Sample.anonymousJwt "" Sample.noLoginUrl).2
          (AxiosJwtAuthService.ensureAuthenticatedUser None
             (Sample.anonymousJwt "" Sample.noLoginUrl)).2.2)
       = ["?next=http%3A%2F%2Flocalhost"])
  ∧ (document_referrer (env (Sample.anonymousDevelopment "" Sample.noLoginUrl).2)
     = LOGIN_URL (AbstractAuthService.config (DevelopmentAuthService.base
         (Sample.anonymousDevelopment "" Sample.noLoginUrl).1))
   ∧ (DevelopmentAuthService.fetchAuthenticatedUser
        (Sample.anonymousDevelopment "" Sample.noLoginUrl)).1 = Return None
   ∧ (DevelopmentAuthService.ensureAuthenticatedUser None
        (Sample.anonymousDevelopment "" Sample.noLoginUrl)).1
       = Throw AbstractAuthService.unauthorizedError
   ∧ navigations
       (eventsSince (Sample.anonymousDevelopment "" Sample.noLoginUrl).2
          (DevelopmentAuthService.ensureAuthenticatedUser None
             (Sample.anonymousDevelopment "" Sample.noLoginUrl)).2.2)
       = ["?next=http%3A%2F%2Flocalhost"])
  ∧ Throw (A := JsObject) AbstractAuthService.unauthorizedError
      ≠ Throw AbstractAuthService.redirectLoopError.
Proof. repeat split; try reflexivity. discriminate. Qed.

(** C2.  For the JWT and the development service alike: when the session is
    anonymous after [fetchAuthenticatedUser] and the test on the referrer
    fails, [ensureAuthenticatedUser] navigates exactly once, to the login
    URL followed by [?next=] and the encoded redirect URL (the base URL when
    none is given), and rejects with the error whose [isRedirecting] is
    set. *)
Theorem ensureAuthenticatedUser_redirects_to_login
    (w : World) (redirectUrl : option string) :
  (∀ s : AxiosJwtAuthService.t,
     let c := AbstractAuthService.config (AxiosJwtAuthService.base s) in
     (AxiosJwtAuthService.fetchAuthenticatedUser false (s, w)).1 = Return None →
     fromLoginPage (document_referrer (env w)) (LOGIN_URL c) = false →
     ∃ e σ, AxiosJwtAuthService.ensureAuthenticatedUser redirectUrl (s, w)
              = (Throw e, σ)
          ∧ isRedirecting e = true
          ∧ navigations (eventsSince w σ.2)
            = [LOGIN_URL c ++ "?next="
                 ++ encodeURIComponent (default (BASE_URL c) redirectUrl)])
  ∧ (∀ s : DevelopmentAuthService.t,
       let c := AbstractAuthService.config (DevelopmentAuthService.base s) in
       (DevelopmentAuthService.fetchAuthenticatedUser (s, w)).1 = Return None →
       fromLoginPage (document_referrer (env w)) (LOGIN_URL c) = false →
       ∃ e σ, DevelopmentAuthService.ensureAuthenticatedUser redirectUrl (s, w)
                = (Throw e, σ)
            ∧ isRedirecting e = true
            ∧ navigations (eventsSince w σ.2)
              = [LOGIN_URL c ++ "?next="
                   ++ encodeURIComponent (default (BASE_URL c) redirectUrl)]).
Proof.
  split.
  - intros s c Hfetch Hloop. apply jwt_fetch_null in Hfetch.
    eexists _, _. split; [apply jwt_ensure_redirects; assumption|].
    simpl. rewrite eventsSince_record2. split; reflexivity.
  - intros s c Hfetch Hloop.
    assert (Huser : AbstractAuthService.authenticatedUser
                      (DevelopmentAuthService.base s) = None).
    { unfold DevelopmentAuthService.fetchAuthenticatedUser,
        AbstractAuthService.getAuthenticatedUser in Hfetch.
      revert Hfetch. run_method. congruence. }
    eexists _, _. split; [apply dev_ensure_redirects; assumption|].
    simpl. rewrite eventsSince_record1. split; reflexivity.
Qed.

Lemma ensureAuthenticatedUser_redirects_to_login_witness :
  (∃ e σ, AxiosJwtAuthService.ensureAuthenticatedUser
            (Some "http://localhost/mypage")
            ((Sample.anonymousJwt "http://localhost/elsewhere" Sample.config).1,
             (Sample.anonymousJwt "http://localhost/elsewhere" Sample.config).2)
          = (Throw e, σ)
        ∧ isRedirecting e = true
        ∧ navigations
            (eventsSince
               (Sample.anonymousJwt "http://localhost/elsewhere" Sample.config).2
               σ.2)
          = ["http://localhost/login?next=http%3A%2F%2Flocalhost%2Fmypage"])
  ∧ (∃ e σ, DevelopmentAuthService.ensureAuthenticatedUser None
              ((Sample.anonymousDevelopment "" Sample.config).1,
               (Sample.anonymousDevelopment "" Sample.config).2)
            = (Throw e, σ)
          ∧ isRedirecting e = true
          ∧ navigations
              (eventsSince (Sample.anonymousDevelopment "" Sample.config).2 σ.2)
            = ["http://localhost/login?next=http%3A%2F%2Flocalhost"]).
Proof.
  split.
  - apply (proj1 (ensureAuthenticatedUser_redirects_to_login
                    (Sample.anonymousJwt "http://localhost/elsewhere" Sample.config).2
                    (Some "http://localhost/mypage"))
                 (Sample.anonymousJwt "http://localhost/elsewhere" Sample.config).1);
      reflexivity.
  - apply (proj2 (ensureAuthenticatedUser_redirects_to_login
                    (Sample.anonymousDevelopment "" Sample.config).2 None)
                 (Sample.anonymousDevelopment "" Sample.config).1);
      reflexivity.
Defined.

(** ** Requests leave the service as it is *)

Lemma runRequestInterceptor_this {S} (i : RequestInterceptor)
    (c : AxiosRequestConfig) (s : S) (w : World) :
  (runRequestInterceptor i c (s, w)).2.1 = s.
Proof.
  destruct i; unfold runRequestInterceptor, createCsrfTokenProviderInterceptor,
    createJwtTokenProviderInterceptor, createApiInterceptor; run_method.
  - destruct (attachCsrfToken_shouldSkip c); simpl; [reflexivity|].
    destruct (getCsrfToken _ _ _); reflexivity.
  - destruct (refreshAccessToken_shouldSkip c); reflexivity.
  - destruct (_ !! _); reflexivity.
Qed.

Lemma runRequestInterceptors_this {S} (l : list RequestInterceptor)
    (c : AxiosRequestConfig) (s : S) (w : World) :
  (runRequestInterceptors l c (s, w)).2.1 = s.
Proof.
  revert c w. induction l as [|i l IH]; intros c w; [reflexivity|].
  simpl. unfold mbind, M_bind.
  pose proof (runRequestInterceptor_this i c s w) as Hi.
  destruct (runRequestInterceptor i c (s, w)) as [[c'|e] [s' w']];
    simpl in Hi; subst s'; [apply IH | reflexivity].
Qed.

Lemma runResponseErrorInterceptors_this {S} (l : list ResponseInterceptor)
    (e : JsError) (s : S) (w : World) :
  (runResponseErrorInterceptors l e (s, w)).2 = (s, w).
Proof.
  revert e. induction l as [|i l IH]; intros e; [reflexivity|].
  destruct i. simpl. unfold tryCatch, throw. simpl. apply IH.
Qed.

Lemma request_this {S} (client : Client) (c : AxiosRequestConfig) (s : S) (w : World) :
  (request client c (s, w)).2.1 = s.
Proof.
  unfold request, inWorld. run_method.
  destruct (instances w !! instance client) as [a|]; [|reflexivity].
  unfold tryCatch.
  pose proof (runRequestInterceptors_this (rev (requestInterceptors a))
                (lowerCaseMethod c) s w) as Hi.
  destruct (runRequestInterceptors _ _ (s, w)) as [[c'|e] [s' w']];
    simpl in Hi; subst s'; simpl.
  - destruct (send (env w') c'); simpl; [|reflexivity].
    rewrite runResponseErrorInterceptors_this. reflexivity.
  - rewrite runResponseErrorInterceptors_this. reflexivity.
Qed.

(** ** Spreading entries into an object *)

Lemma spread_cons (t : JsObject) (k : string) (v : JsValue) (l : JsEntries) :
  spread t ((k, v) :: l) = spread (<[k := v]> t) l.
Proof. reflexivity. Qed.

Lemma spread_app (t : JsObject) (l1 l2 : JsEntries) :
  spread t (l1 ++ l2)%list = spread (spread t l1) l2.
Proof. unfold spread. apply fold_left_app. Qed.

Lemma spread_absent (t : JsObject) (l : JsEntries) (k : string) :
  k ∉ l.*1 → spread t l !! k = t !! k.
Proof.
  revert t. induction l as [|[k' v'] l IH]; intros t Hk; [reflexivity|].
  rewrite spread_cons. rewrite fmap_cons, not_elem_of_cons in Hk.
  destruct Hk as [Hne Hk]. simpl in Hne.
  rewrite IH by exact Hk. apply lookup_insert_ne. congruence.
Qed.

Lemma spread_last (t : JsObject) (pre post : JsEntries) (k : string) (v : JsValue) :
  k ∉ post.*1 → spread t (pre ++ (k, v) :: post)%list !! k = Some v.
Proof.
  intros Hk. rewrite spread_app, spread_cons, spread_absent by exact Hk.
  apply lookup_insert_eq.
Qed.

Lemma spread_insert_absent (t : JsObject) (l : JsEntries) (k : string) (v : JsValue) :
  k ∉ l.*1 → spread (<[k := v]> t) l = <[k := v]> (spread t l).
Proof.
  revert t. induction l as [|[k' v'] l IH]; intros t Hk; [reflexivity|].
  rewrite fmap_cons, not_elem_of_cons in Hk. destruct Hk as [Hne Hk].
  simpl in Hne. rewrite !spread_cons, <- IH by exact Hk.
  f_equal. apply insert_insert_ne. congruence.
Qed.

Lemma setEntry_keys (k : string) (v : JsValue) (l : JsEntries) (j : string) :
  j ∈ (setEntry k v l).*1 ↔ j = k ∨ j ∈ l.*1.
Proof.
  induction l as [|[k' v'] l IH]; simpl.
  - rewrite list_elem_of_singleton, elem_of_nil. tauto.
  - destruct (String.eqb_spec k' k) as [->|Hne]; simpl.
    + rewrite !elem_of_cons. tauto.
    + rewrite !elem_of_cons, IH. tauto.
Qed.

Lemma setEntry_NoDup (k : string) (v : JsValue) (l : JsEntries) :
  NoDup l.*1 → NoDup (setEntry k v l).*1.
Proof.
  induction l as [|[k' v'] l IH]; simpl; intros Hnd.
  - apply NoDup_singleton.
  - apply NoDup_cons in Hnd as [Hk' Hnd].
    destruct (String.eqb_spec k' k) as [->|Hne]; simpl.
    + apply NoDup_cons. split; assumption.
    + apply NoDup_cons. split; [|apply IH, Hnd].
      rewrite setEntry_keys. intros [Heq|Hin]; [congruence | contradiction].
Qed.

Lemma spread_setEntry (t : JsObject) (k : string) (v : JsValue) (l : JsEntries) :
  NoDup l.*1 → spread t (setEntry k v l) = <[k := v]> (spread t l).
Proof.
  revert t. induction l as [|[k' v'] l IH]; intros t Hnd; [reflexivity|].
  simpl in Hnd. apply NoDup_cons in Hnd as [Hk' Hnd]. simpl.
  destruct (String.eqb_spec k' k) as [->|Hne].
  - rewrite !spread_cons, !spread_insert_absent by exact Hk'.
    symmetry. apply insert_insert_eq.
  - rewrite !spread_cons. apply IH, Hnd.
Qed.

Lemma assignEntries_from (t : JsObject) (l acc : JsEntries) :
  NoDup acc.*1 →
  spread t (fold_left (λ result kv, setEntry kv.1 kv.2 result) l acc)
  = spread (spread t acc) l.
Proof.
  revert acc. induction l as [|[k v] l IH]; intros acc Hnd; [reflexivity|].
  simpl. rewrite IH by (apply setEntry_NoDup, Hnd).
  rewrite spread_setEntry by exact Hnd. reflexivity.
Qed.

Lemma spread_assignEntries (t : JsObject) (l : JsEntries) :
  spread t (assignEntries l) = spread t l.
Proof. unfold assignEntries. apply assignEntries_from. constructor. Qed.

Lemma spread_present (t : JsObject) (l : JsEntries) (k : string) :
  k ∈ l.*1 → is_Some (spread t l !! k).
Proof.
  revert t. induction l as [|[k' v'] l IH]; intros t Hk.
  - apply elem_of_nil in Hk. contradiction.
  - rewrite spread_cons. destruct (decide (k ∈ l.*1)) as [Hin|Hout].
    + apply IH, Hin.
    + rewrite spread_absent by exact Hout.
      rewrite fmap_cons, elem_of_cons in Hk. destruct Hk as [->|Hk];
        [|contradiction]. simpl. rewrite lookup_insert_eq. eauto.
Qed.

Lemma converted_keys (modify : string → string) (f : JsValue → JsValue)
    (l : JsEntries) (k : string) :
  k ∈ (map (λ kv, (modify kv.1, f kv.2)) l).*1
  ↔ ∃ k0 v0, (k0, v0) ∈ l ∧ k = modify k0.
Proof.
  induction l as [|[k' v'] l IH]; simpl.
  - rewrite elem_of_nil. split; [contradiction|].
    intros (k0 & v0 & Hin & _). apply elem_of_nil in Hin. contradiction.
  - rewrite elem_of_cons, IH. split.
    + intros [->|(k0 & v0 & Hin & ->)].
      * exists k', v'. split; [apply elem_of_cons; left|]; reflexivity.
      * exists k0, v0. split; [apply elem_of_cons; right; exact Hin | reflexivity].
    + intros (k0 & v0 & Hin & ->). apply elem_of_cons in Hin as [Heq|Hin].
      * left. congruence.
      * right. eauto.
Qed.

Lemma assignEntries_NoDup (l : JsEntries) : NoDup (assignEntries l).*1.
Proof.
  unfold assignEntries.
  assert (Hfrom : ∀ acc, NoDup acc.*1 →
    NoDup (fold_left (λ result kv, setEntry kv.1 kv.2 result) l acc).*1).
  { induction l as [|[k v] l IH]; intros acc Hacc; [exact Hacc|].
    simpl. apply IH, setEntry_NoDup, Hacc. }
  apply Hfrom. constructor.
Qed.

Lemma spread_entry (t : JsObject) (l : JsEntries) (k : string) (v : JsValue) :
  NoDup l.*1 → (k, v) ∈ l → spread t l !! k = Some v.
Proof.
  intros Hnd Hin. apply list_elem_of_split in Hin as (pre & post & ->).
  apply spread_last. rewrite fmap_app, fmap_cons in Hnd.
  apply NoDup_app in Hnd as (_ & _ & Hnd). apply NoDup_cons in Hnd as [Hk _].
  exact Hk.
Qed.

Lemma assignEntries_keys (l : JsEntries) (k : string) :
  k ∈ (assignEntries l).*1 ↔ k ∈ l.*1.
Proof.
  unfold assignEntries.
  assert (Hfrom : ∀ acc,
    k ∈ (fold_left (λ result kv, setEntry kv.1 kv.2 result) l acc).*1
    ↔ k ∈ l.*1 ∨ k ∈ acc.*1).
  { induction l as [|[k' v'] l IH]; intros acc; simpl.
    - rewrite elem_of_nil. tauto.
    - rewrite IH, setEntry_keys, elem_of_cons. tauto. }
  rewrite Hfrom, elem_of_nil. tauto.
Qed.

(** ** [hydrateAuthenticatedUser] *)

(** The merge performed by hydration, for any conversion of the field names:
    the readings of a field of [{ ...user, ...converted }]. *)
Lemma merge_fields (modify : string → string) (f : JsValue → JsValue)
    (user : JsObject) (profile : JsEntries) :
  let converted := assignEntries (map (λ kv, (modify kv.1, f kv.2)) profile) in
  let merged := spread user converted in
  (∀ k, k ∉ converted.*1 → merged !! k = user !! k)
  ∧ (∀ k0 v0, (k0, v0) ∈ profile →
       modify k0 ∈ converted.*1 ∧ is_Some (merged !! modify k0))
  ∧ (∀ k v, (k, v) ∈ converted → merged !! k = Some v)
  ∧ (∀ pre k0 v0 post,
       profile = (pre ++ (k0, v0) :: post)%list →
       (∀ k1 v1, (k1, v1) ∈ post → modify k1 ≠ modify k0) →
       merged !! modify k0 = Some (f v0)).
Proof.
  intros converted merged. subst converted merged.
  split; [|split; [|split]].
  - intros k Hfresh. apply spread_absent, Hfresh.
  - intros k0 v0 Hin.
    assert (Hkey : modify k0
                   ∈ (assignEntries (map (λ kv, (modify kv.1, f kv.2)) profile)).*1)
      by (rewrite assignEntries_keys, converted_keys; eauto).
    split; [exact Hkey | apply spread_present, Hkey].
  - intros k v Hin. apply spread_entry; [apply assignEntries_NoDup | exact Hin].
  - intros pre k0 v0 post -> Hlast. rewrite spread_assignEntries, map_app. simpl.
    apply spread_last. rewrite converted_keys.
    intros (k1 & v1 & Hin & Heq). exact (Hlast k1 v1 Hin (eq_sym Heq)).
Qed.

Lemma jwt_hydrate_runs (s : AxiosJwtAuthService.t) (w : World) (user : JsObject)
    (client : Client) (response : AxiosResponse)
    (σ : AxiosJwtAuthService.t * World) :
  AbstractAuthService.authenticatedUser (AxiosJwtAuthService.base s) = Some user →
  AbstractAuthService.authenticatedHttpClient (AxiosJwtAuthService.base s)
    = Some client →
  request client
    (getRequest
       (LMS_BASE_URL (AbstractAuthService.config (AxiosJwtAuthService.base s))
        ++ "/api/user/v1/accounts/" ++ toString (prop user "username")))
    (s, w) = (Return response, σ) →
  AxiosJwtAuthService.hydrateAuthenticatedUser (s, w)
  = (Return tt,
     (AbstractAuthService.withSuper
        (AbstractAuthService.set_authenticatedUser
           (Some (spread user (camelCaseObject (data response))))) s,
      σ.2)).
Proof.
  intros Huser Hclient Hrequest.
  pose proof (request_this client
    (getRequest
       (LMS_BASE_URL (AbstractAuthService.config (AxiosJwtAuthService.base s))
        ++ "/api/user/v1/accounts/" ++ toString (prop user "username")))
    s w) as Hthis.
  rewrite Hrequest in Hthis. destruct σ as [s' w']. simpl in Hthis. subst s'.
  unfold AxiosJwtAuthService.hydrateAuthenticatedUser,
    AbstractAuthService.getAuthenticatedUser,
    AbstractAuthService.setAuthenticatedUser,
    AbstractAuthService.getConfig.
  run_method. rewrite Huser. simpl. rewrite Hclient. simpl.
  rewrite Hrequest. reflexivity.
Qed.

(** C3.  On an authenticated session whose profile request succeeds,
    [hydrateAuthenticatedUser] sets the session's user to the merge of the
    existing user with the camel-cased profile: a field of the user whose
    name is not a field of the camel-cased profile is kept as it was, every
    profile field is present under its converted name, and every field of
    the camel-cased profile stands in the merge with the profile's value,
    whatever the user held under that name.  The value under a converted
    name is that of the last profile field converted to it. *)
Theorem hydrateAuthenticatedUser_merges_profile
    (s : AxiosJwtAuthService.t) (w : World) (user : JsObject)
    (client : Client) (response : AxiosResponse)
    (σ : AxiosJwtAuthService.t * World) :
  AbstractAuthService.authenticatedUser (AxiosJwtAuthService.base s) = Some user →
  AbstractAuthService.authenticatedHttpClient (AxiosJwtAuthService.base s)
    = Some client →
  request client
    (getRequest
       (LMS_BASE_URL (AbstractAuthService.config (AxiosJwtAuthService.base s))
        ++ "/api/user/v1/accounts/" ++ toString (prop user "username")))
    (s, w) = (Return response, σ) →
  ∃ merged : JsObject,
    AxiosJwtAuthService.hydrateAuthenticatedUser (s, w)
    = (Return tt,
       (AbstractAuthService.withSuper
          (AbstractAuthService.set_authenticatedUser (Some merged)) s,
        σ.2))
    ∧ merged = spread user (camelCaseObject (data response))
    ∧ (∀ k, k ∉ (camelCaseObject (data response)).*1 → merged !! k = user !! k)
    ∧ (∀ k0 v0, (k0, v0) ∈ data response →
         camelCase k0 ∈ (camelCaseObject (data response)).*1
         ∧ is_Some (merged !! camelCase k0))
    ∧ (∀ k v, (k, v) ∈ camelCaseObject (data response) → merged !! k = Some v)
    ∧ (∀ pre k0 v0 post,
         data response = (pre ++ (k0, v0) :: post)%list →
         (∀ k1 v1, (k1, v1) ∈ post → camelCase k1 ≠ camelCase k0) →
         merged !! camelCase k0 = Some (modifyObjectKeys camelCase v0)).
Proof.
  intros Huser Hclient Hrequest.
  exists (spread user (camelCaseObject (data response))).
  split; [apply (jwt_hydrate_runs s w user client response σ); assumption|].
  split; [reflexivity|].
  apply (merge_fields camelCase (modifyObjectKeys camelCase)).
Qed.

Lemma hydrateAuthenticatedUser_merges_profile_witness :
  AbstractAuthService.authenticatedUser
    (AxiosJwtAuthService.base
       (AxiosJwtAuthService.hydrateAuthenticatedUser
          (Sample.authenticatedJwt.1, Sample.authenticatedJwt.2)).2.1)
  = Some Sample.hydratedUser.
Proof.
  destruct (hydrateAuthenticatedUser_merges_profile
              Sample.authenticatedJwt.1 Sample.authenticatedJwt.2
              Sample.user {| ident := 1; instance := 0 |}
              {| data := Sample.profile |} _
              eq_refl eq_refl eq_refl)
    as (merged & Hrun & Hmerged & _).
  rewrite Hrun, Hmerged. reflexivity.
Defined.

Lemma eventsSince_same (w : World) : eventsSince w w = [].
Proof. unfold eventsSince. apply drop_all. Qed.

(** C9.  On an anonymous session [hydrateAuthenticatedUser] resolves with
    the service and the world as they were: no request is made, nothing is
    recorded.  The development service changes nothing either, whoever the
    user is. *)
Theorem hydrateAuthenticatedUser_anonymous_noop
    (s : AxiosJwtAuthService.t) (w : World) :
  AbstractAuthService.authenticatedUser (AxiosJwtAuthService.base s) = None →
  AxiosJwtAuthService.hydrateAuthenticatedUser (s, w) = (Return tt, (s, w))
  ∧ count isNetworkCall
      (eventsSince w (AxiosJwtAuthService.hydrateAuthenticatedUser (s, w)).2.2) = 0
  ∧ ∀ d : DevelopmentAuthService.t,
      (DevelopmentAuthService.hydrateAuthenticatedUser (d, w)).2 = (d, w).
Proof.
  intros Huser.
  assert (Hrun : AxiosJwtAuthService.hydrateAuthenticatedUser (s, w)
                 = (Return tt, (s, w))).
  { unfold AxiosJwtAuthService.hydrateAuthenticatedUser,
      AbstractAuthService.getAuthenticatedUser.
    run_method. rewrite Huser. reflexivity. }
  split; [exact Hrun|]. rewrite Hrun. simpl. rewrite eventsSince_same.
  split; reflexivity.
Qed.

Lemma hydrateAuthenticatedUser_anonymous_noop_witness :
  AxiosJwtAuthService.hydrateAuthenticatedUser
    ((Sample.anonymousJwt "" Sample.config).1,
     (Sample.anonymousJwt "" Sample.config).2)
  = (Return tt,
     ((Sample.anonymousJwt "" Sample.config).1,
      (Sample.anonymousJwt "" Sample.config).2)).
Proof.
  exact (proj1 (hydrateAuthenticatedUser_anonymous_noop
                  (Sample.anonymousJwt "" Sample.config).1
                  (Sample.anonymousJwt "" Sample.config).2 eq_refl)).
Defined.

(** ** The development service *)

Lemma dev_constructor_user (options : Options.t) (w : World) :
  AbstractAuthService.authenticatedUser
    (DevelopmentAuthService.base
       (DevelopmentAuthService.constructor options
          (DevelopmentAuthService.allocated options, w)).2.1)
  = (d ← dev (Options.config options); dev_authenticatedUser d).
Proof. reflexivity. Qed.

Lemma dev_constructor_hydrated (options : Options.t) (w : World) :
  DevelopmentAuthService.hydratedAuthenticatedUser
    (DevelopmentAuthService.constructor options
       (DevelopmentAuthService.allocated options, w)).2.1
  = default ∅ (d ← dev (Options.config options); dev_hydratedAuthenticatedUser d).
Proof. reflexivity. Qed.

(** The first half of C8: on a development service as constructed,
    [fetchAuthenticatedUser] resolves to the configured [authenticatedUser],
    or to null when there is none. *)
Lemma dev_fetch_configured_user (options : Options.t) (w : World) :
  (DevelopmentAuthService.fetchAuthenticatedUser
     (DevelopmentAuthService.constructor options
        (DevelopmentAuthService.allocated options, w)).2).1
  = Return (d ← dev (Options.config options); dev_authenticatedUser d).
Proof. reflexivity. Qed.

(** [hydrateAuthenticatedUser] of the development service changes nothing. *)
Lemma dev_hydrate_unchanged (s : DevelopmentAuthService.t) (w : World) :
  DevelopmentAuthService.hydrateAuthenticatedUser (s, w)
  = (Return (AbstractAuthService.authenticatedUser (DevelopmentAuthService.base s)),
     (s, w)).
Proof. reflexivity. Qed.

(** C8, where the code departs from it: with a mock user and a hydrated mock
    user configured, the service stores the hydrated user, and after
    [hydrateAuthenticatedUser] the current user is still the plain one. *)
Theorem development_hydrate_ignores_hydrated_user :
  DevelopmentAuthService.hydratedAuthenticatedUser Sample.mockDevelopment.1
    = Sample.hydratedUser
  ∧ AbstractAuthService.authenticatedUser
      (DevelopmentAuthService.base
         (DevelopmentAuthService.hydrateAuthenticatedUser Sample.mockDevelopment).2.1)
    = Some Sample.user
  ∧ Sample.user ≠ Sample.hydratedUser.
Proof.
  split; [reflexivity|]. split; [reflexivity|].
  intros Heq.
  assert (Hfield : Sample.user !! "fullName" = Sample.hydratedUser !! "fullName")
    by (rewrite Heq; reflexivity).
  vm_compute in Hfield. discriminate.
Qed.

(** ** Events are only ever appended *)

Lemma recordAll_nil (w : World) : recordAll [] w = w.
Proof. destruct w. unfold recordAll. simpl. rewrite app_nil_r. reflexivity. Qed.

Lemma recordEvent_recordAll (ev : Event) (w : World) :
  recordEvent ev w = recordAll [ev] w.
Proof. reflexivity. Qed.

Lemma recordAll_recordAll (evs1 evs2 : list Event) (w : World) :
  recordAll evs2 (recordAll evs1 w) = recordAll (evs1 ++ evs2) w.
Proof. unfold recordAll. simpl. rewrite app_assoc. reflexivity. Qed.

(** ** [applyMiddleware] *)

Section ApplyMiddleware.
Context {S : Type} `{AbstractAuthService.Subclass S}.

Lemma callMiddleware_run (m : Middleware) (client : option Client) (s : S) (w : World) :
  AbstractAuthService.callMiddleware m client (s, w)
  = match client with
    | None => (Return tt, (s, w))
    | Some c =>
        (match mw_fn m c with Some e => Throw e | None => Return tt end,
         (s, recordAll [MiddlewareCall (mw_name m) c] w))
    end.
Proof.
  destruct client as [c|]; [|reflexivity].
  unfold AbstractAuthService.callMiddleware. run_method.
  destruct (mw_fn m c); reflexivity.
Qed.

Lemma forEach_clients_frame (m : Middleware) (clients : list (option Client))
    (s : S) (w : World) :
  ∃ r evs,
    forEach (λ client, AbstractAuthService.callMiddleware m client) clients (s, w)
    = (r, (s, recordAll evs w))
    ∧ Forall (λ ev, isMiddlewareEvent ev = true) evs.
Proof.
  revert w. induction clients as [|client clients IH]; intros w.
  - exists (Return tt), []. rewrite recordAll_nil. split; [reflexivity | constructor].
  - simpl. unfold mbind, M_bind. rewrite callMiddleware_run.
    destruct client as [c|].
    + destruct (mw_fn m c) as [e|].
      * exists (Throw e), [MiddlewareCall (mw_name m) c].
        split; [reflexivity | repeat constructor].
      * destruct (IH (recordAll [MiddlewareCall (mw_name m) c] w))
          as (r & evs & Hrun & Hevs).
        exists r, (MiddlewareCall (mw_name m) c :: evs).
        rewrite Hrun, recordAll_recordAll.
        split; [reflexivity | constructor; [reflexivity | exact Hevs]].
    + apply IH.
Qed.

Lemma forEach_middleware_frame (middleware : list Middleware)
    (clients : list (option Client)) (s : S) (w : World) :
  ∃ r evs,
    forEach (λ m, forEach (λ client, AbstractAuthService.callMiddleware m client)
                          clients)
            middleware (s, w)
    = (r, (s, recordAll evs w))
    ∧ Forall (λ ev, isMiddlewareEvent ev = true) evs.
Proof.
  revert w. induction middleware as [|m middleware IH]; intros w.
  - exists (Return tt), []. rewrite recordAll_nil. split; [reflexivity | constructor].
  - simpl. unfold mbind, M_bind.
    destruct (forEach_clients_frame m clients s w) as (r & evs & Hrun & Hevs).
    rewrite Hrun. destruct r as [[]|e].
    + destruct (IH (recordAll evs w)) as (r' & evs' & Hrun' & Hevs').
      exists r', (evs ++ evs')%list. rewrite Hrun', recordAll_recordAll.
      split; [reflexivity | apply Forall_app; split; assumption].
    + exists (Throw e), evs. split; [reflexivity | exact Hevs].
Qed.

(** Whatever the middleware functions do, [applyMiddleware] leaves the
    service as it is and records only calls of middleware and, at most, the
    report of what one threw. *)
Lemma applyMiddleware_frame (middleware : option (list Middleware))
    (s : S) (w : World) :
  ∃ r evs,
    AbstractAuthService.applyMiddleware middleware (s, w)
    = (r, (s, recordAll evs w))
    ∧ Forall (λ ev, isMiddlewareEvent ev = true) evs.
Proof.
  unfold AbstractAuthService.applyMiddleware, tryCatch. run_method.
  destruct (forEach_middleware_frame (default [] middleware)
              (AbstractAuthService.getMiddlewareClients s) s w)
    as (r & evs & Hrun & Hevs).
  rewrite Hrun. destruct r as [[]|e].
  - exists (Return tt), evs. split; [reflexivity | exact Hevs].
  - exists (Throw e), (evs ++ [LogError (LogException e)])%list.
    simpl. rewrite recordEvent_recordAll, recordAll_recordAll.
    split; [reflexivity|]. apply Forall_app. split; [exact Hevs|].
    repeat constructor.
Qed.

Lemma forEach_clients_quiet (m : Middleware) (clients : list (option Client))
    (s : S) (w : World) :
  (∀ c, mw_fn m c = None) →
  forEach (λ client, AbstractAuthService.callMiddleware m client) clients (s, w)
  = (Return tt, (s, recordAll (map (MiddlewareCall (mw_name m)) (omap id clients)) w)).
Proof.
  intros Hquiet. revert w. induction clients as [|client clients IH]; intros w.
  - simpl. rewrite recordAll_nil. reflexivity.
  - simpl. unfold mbind, M_bind. rewrite callMiddleware_run.
    destruct client as [c|]; simpl.
    + rewrite Hquiet, IH, recordAll_recordAll. reflexivity.
    + apply IH.
Qed.

(** When no middleware function throws, every function is called on every
    client of [getMiddlewareClients] that is not null, in order. *)
Lemma applyMiddleware_quiet (middleware : option (list Middleware))
    (s : S) (w : World) :
  (∀ m c, m ∈ default [] middleware → mw_fn m c = None) →
  AbstractAuthService.applyMiddleware middleware (s, w)
  = (Return tt,
     (s, recordAll (middlewareCalls (default [] middleware)
                      (AbstractAuthService.getMiddlewareClients s)) w)).
Proof.
  intros Hquiet.
  unfold AbstractAuthService.applyMiddleware, tryCatch. run_method.
  assert (Hloop : ∀ l w',
    (∀ m c, m ∈ l → mw_fn m c = None) →
    forEach (λ m, forEach (λ client, AbstractAuthService.callMiddleware m client)
                          (AbstractAuthService.getMiddlewareClients s))
            l (s, w')
    = (Return tt,
       (s, recordAll (middlewareCalls l (AbstractAuthService.getMiddlewareClients s)) w'))).
  { induction l as [|m l IH]; intros w' Hl.
    - simpl. rewrite recordAll_nil. reflexivity.
    - simpl. unfold mbind, M_bind.
      rewrite forEach_clients_quiet
        by (intros c; apply Hl, elem_of_cons; left; reflexivity).
      rewrite IH by (intros m' c Hin; apply Hl, elem_of_cons; right; exact Hin).
      rewrite recordAll_recordAll. reflexivity. }
  rewrite Hloop by exact Hquiet. reflexivity.
Qed.

End ApplyMiddleware.

(** ** Counting events *)

Lemma count_cons (p : Event → bool) (ev : Event) (evs : list Event) :
  count p (ev :: evs) = (if p ev then 1 else 0) + count p evs.
Proof.
  unfold count. rewrite filter_cons.
  destruct (decide (p ev = true)) as [Hp|Hp].
  - rewrite Hp. reflexivity.
  - apply not_true_is_false in Hp. rewrite Hp. reflexivity.
Qed.

Lemma count_middleware_reports (text : string) (evs : list Event) :
  Forall (λ ev, isMiddlewareEvent ev = true) evs → count (isReport text) evs = 0.
Proof.
  induction 1 as [|ev evs Hev _ IH]; [reflexivity|].
  rewrite count_cons, IH.
  destruct ev as [| [|] | | | | | |]; simpl in *; try discriminate; reflexivity.
Qed.

(** ** The constructor *)

Lemma constructed_returns (options : Options.t) (w : World) :
  (Lifecycle.constructed options w).1 = Return tt.
Proof. reflexivity. Qed.

Lemma constructed_trace (options : Options.t) (w : World) :
  trace (Lifecycle.constructed options w).2.2 = (trace w ++ [ConfigureCache])%list.
Proof. reflexivity. Qed.

Lemma constructed_env (options : Options.t) (w : World) :
  env (Lifecycle.constructed options w).2.2 = env w.
Proof. reflexivity. Qed.

Lemma constructed_clients (options : Options.t) (w : World) :
  let s := (Lifecycle.constructed options w).2.1 in
  ∃ a h,
    AbstractAuthService.authenticatedHttpClient (AxiosJwtAuthService.base s) = Some a
    ∧ AbstractAuthService.httpClient (AxiosJwtAuthService.base s) = Some h
    ∧ AxiosJwtAuthService.cachedAuthenticatedHttpClient s = None
    ∧ AxiosJwtAuthService.cachedHttpClient s = None
    ∧ a ≠ h.
Proof.
  simpl. eexists _, _. repeat split. intros Heq. inversion Heq. lia.
Qed.

Lemma jwt_getAuthenticatedHttpClient_run (useCache : bool)
    (s : AxiosJwtAuthService.t) (w : World) :
  AxiosJwtAuthService.getAuthenticatedHttpClient useCache (s, w)
  = (Return (if useCache then AxiosJwtAuthService.cachedAuthenticatedHttpClient s
             else AbstractAuthService.authenticatedHttpClient
                    (AxiosJwtAuthService.base s)),
     (s, w)).
Proof. destruct useCache; reflexivity. Qed.

Lemma jwt_getHttpClient_run (useCache : bool)
    (s : AxiosJwtAuthService.t) (w : World) :
  AxiosJwtAuthService.getHttpClient useCache (s, w)
  = (Return (if useCache then AxiosJwtAuthService.cachedHttpClient s
             else AbstractAuthService.httpClient (AxiosJwtAuthService.base s)),
     (s, w)).
Proof. destruct useCache; reflexivity. Qed.

Lemma constructed_instances (options : Options.t) (w : World) :
  let σ := (Lifecycle.constructed options w).2 in
  ∃ a h i,
    AbstractAuthService.authenticatedHttpClient (AxiosJwtAuthService.base σ.1) = Some a
    ∧ AbstractAuthService.httpClient (AxiosJwtAuthService.base σ.1) = Some h
    ∧ instances σ.2 !! instance a = Some i
    ∧ withCredentials i = true
    ∧ requestInterceptors i
      = [attachCsrfTokenInterceptor (CSRF_TOKEN_API_PATH (Options.config options));
         refreshAccessTokenInterceptor]
    ∧ responseInterceptors i = [processAxiosRequestErrorInterceptor]
    ∧ is_Some (instances σ.2 !! instance h).
Proof.
  simpl. eexists _, _, _. split; [reflexivity|]. split; [reflexivity|].
  split.
  - rewrite lookup_app_l
      by (rewrite !length_alter, length_app; simpl; lia).
    rewrite !list_lookup_alter_eq, list_lookup_middle by reflexivity.
    reflexivity.
  - repeat (split; [reflexivity|]).
    apply lookup_lt_is_Some. rewrite length_app. simpl. lia.
Qed.

(** ** What a service does before the cache settles *)

Lemma runRequestInterceptor_frame {S} (i : RequestInterceptor)
    (c : AxiosRequestConfig) (s : S) (w : World) :
  ∃ r evs, runRequestInterceptor i c (s, w) = (r, (s, recordAll evs w)).
Proof.
  destruct i; unfold runRequestInterceptor, createCsrfTokenProviderInterceptor,
    createJwtTokenProviderInterceptor, createApiInterceptor; run_method.
  - destruct (attachCsrfToken_shouldSkip c); simpl.
    + exists (Return c), []. rewrite recordAll_nil. reflexivity.
    + destruct (getCsrfToken _ _ _); eexists _, [_]; reflexivity.
  - destruct (refreshAccessToken_shouldSkip c).
    + exists (Return c), []. rewrite recordAll_nil. reflexivity.
    + eexists _, [_]; reflexivity.
  - destruct (_ !! _).
    + eexists _, []. rewrite recordAll_nil. reflexivity.
    + eexists _, [_]; reflexivity.
Qed.

Lemma runRequestInterceptors_frame {S} (l : list RequestInterceptor)
    (c : AxiosRequestConfig) (s : S) (w : World) :
  ∃ r evs, runRequestInterceptors l c (s, w) = (r, (s, recordAll evs w)).
Proof.
  revert c w. induction l as [|i l IH]; intros c w.
  - exists (Return c), []. rewrite recordAll_nil. reflexivity.
  - simpl. unfold mbind, M_bind.
    destruct (runRequestInterceptor_frame i c s w) as (r & evs & ->).
    destruct r as [c'|e].
    + destruct (IH c' (recordAll evs w)) as (r' & evs' & ->).
      rewrite recordAll_recordAll. eauto.
    + eauto.
Qed.

Lemma request_frame {S} (client : Client) (c : AxiosRequestConfig) (s : S) (w : World) :
  ∃ r evs, request client c (s, w) = (r, (s, recordAll evs w)).
Proof.
  unfold request, inWorld. run_method.
  destruct (instances w !! instance client) as [a|].
  - unfold tryCatch.
    destruct (runRequestInterceptors_frame (rev (requestInterceptors a))
                (lowerCaseMethod c) s w)
      as (r & evs & ->).
    destruct r as [c'|e]; simpl.
    + destruct (send (env w) c'); simpl.
      * pose proof (runResponseErrorInterceptors_this (responseInterceptors a) j s
                      (recordEvent (Send c') (recordAll evs w))) as Hframe.
        destruct (runResponseErrorInterceptors _ j _) as [r' σ'].
        simpl in Hframe. subst σ'.
        rewrite recordEvent_recordAll, recordAll_recordAll. eauto.
      * rewrite recordEvent_recordAll, recordAll_recordAll. eauto.
    + pose proof (runResponseErrorInterceptors_this (responseInterceptors a) e s
                    (recordAll evs w)) as Hframe.
      destruct (runResponseErrorInterceptors _ e _) as [r' σ'].
      simpl in Hframe. subst σ'. eauto.
  - exists (Throw (newError "not a client")), []. rewrite recordAll_nil. reflexivity.
Qed.

Lemma sameClients_refl (s : AxiosJwtAuthService.t) : sameClients s s.
Proof. repeat split. Qed.

Lemma sameClients_trans (s1 s2 s3 : AxiosJwtAuthService.t) :
  sameClients s1 s2 → sameClients s2 s3 → sameClients s1 s3.
Proof.
  intros (H1 & H2 & H3 & H4) (K1 & K2 & K3 & K4).
  repeat split; congruence.
Qed.

Lemma sameClients_user (u : option JsObject) (s : AxiosJwtAuthService.t) :
  sameClients s
    (AbstractAuthService.withSuper (AbstractAuthService.set_authenticatedUser u) s).
Proof. repeat split. Qed.

Ltac framed s' evs :=
  exists s', evs; split;
  [ rewrite ?recordAll_nil, ?recordEvent_recordAll, ?recordAll_recordAll; reflexivity
  | first [apply sameClients_refl | apply sameClients_user] ].

Lemma perform_frame (op : Lifecycle.Operation) (s : AxiosJwtAuthService.t) (w : World) :
  ∃ s' evs, (Lifecycle.perform op (s, w)).2 = (s', recordAll evs w) ∧ sameClients s s'.
Proof.
  destruct op as [forceRefresh|redirectUrl| |authUser|redirectUrl|redirectUrl
                  |useCache authenticated c];
    unfold Lifecycle.perform, Lifecycle.discard.
  - unfold AxiosJwtAuthService.fetchAuthenticatedUser,
      AbstractAuthService.getAuthenticatedUser,
      AbstractAuthService.setAuthenticatedUser.
    run_method. destruct (getJwtToken (env w) forceRefresh); simpl;
      eexists _, [_]; (split; [reflexivity | apply sameClients_user]).
  - unfold AxiosJwtAuthService.ensureAuthenticatedUser,
      AxiosJwtAuthService.fetchAuthenticatedUser,
        AbstractAuthService.redirectToLogin,
      AbstractAuthService.getLoginRedirectUrl,
      AbstractAuthService.getAuthenticatedUser,
      AbstractAuthService.setAuthenticatedUser,
      AbstractAuthService.getConfig.
    run_method. destruct (getJwtToken (env w) false); simpl.
    + eexists _, [_]; (split; [reflexivity | apply sameClients_user]).
    + destruct (fromLoginPage _ _); simpl;
        eexists _, [_; _];
        (split; [rewrite !recordEvent_recordAll, recordAll_recordAll; reflexivity
                | apply sameClients_user]).
  - unfold AxiosJwtAuthService.hydrateAuthenticatedUser,
      AbstractAuthService.getAuthenticatedUser,
      AbstractAuthService.setAuthenticatedUser,
      AbstractAuthService.getConfig.
    run_method.
    destruct (AbstractAuthService.authenticatedUser (AxiosJwtAuthService.base s))
      as [user|]; simpl; [|framed s (@nil Event)].
    destruct (AbstractAuthService.authenticatedHttpClient (AxiosJwtAuthService.base s))
      as [client|]; simpl; [|framed s (@nil Event)].
    match goal with |- context [request client ?c (s, w)] =>
      destruct (request_frame client c s w) as (r & evs & ->) end.
    destruct r; simpl; eexists _, evs;
      (split; [reflexivity | first [apply sameClients_user | apply sameClients_refl]]).
  - unfold AbstractAuthService.setAuthenticatedUser. run_method.
    framed (AbstractAuthService.withSuper
              (AbstractAuthService.set_authenticatedUser authUser) s) (@nil Event).
  - unfold AbstractAuthService.redirectToLogin,
      AbstractAuthService.getLoginRedirectUrl, AbstractAuthService.getConfig.
    run_method. eexists s, [_]. split; [reflexivity | apply sameClients_refl].
  - unfold AbstractAuthService.redirectToLogout,
      AbstractAuthService.getLogoutRedirectUrl, AbstractAuthService.getConfig.
    run_method. eexists s, [_]. split; [reflexivity | apply sameClients_refl].
  - unfold mbind, M_bind.
    assert (Hclient : ∃ client,
      (if authenticated
       then AxiosJwtAuthService.getAuthenticatedHttpClient useCache
       else AxiosJwtAuthService.getHttpClient useCache) (s, w)
      = (Return client, (s, w))).
    { destruct authenticated;
        [rewrite jwt_getAuthenticatedHttpClient_run | rewrite jwt_getHttpClient_run];
        eauto. }
    destruct Hclient as [client ->]. destruct client as [client|].
    + destruct (request_frame client c s w) as (r & evs & ->).
      exists s, evs. split; [reflexivity | apply sameClients_refl].
    + framed s (@nil Event).
Qed.

Lemma performAll_frame (ops : list Lifecycle.Operation)
    (s : AxiosJwtAuthService.t) (w : World) :
  ∃ s' evs, Lifecycle.performAll ops (s, w) = (s', recordAll evs w) ∧ sameClients s s'.
Proof.
  revert s w. induction ops as [|op ops IH]; intros s w.
  - exists s, []. rewrite recordAll_nil. split; [reflexivity | apply sameClients_refl].
  - simpl. destruct (perform_frame op s w) as (s1 & evs1 & -> & H1).
    destruct (IH s1 (recordAll evs1 w)) as (s2 & evs2 & -> & H2).
    exists s2, (evs1 ++ evs2)%list. rewrite recordAll_recordAll.
    split; [reflexivity | exact (sameClients_trans _ _ _ H1 H2)].
Qed.

(** C10.  From the construction of a JWT service until the cache settles,
    whatever the application does with the service, the getters return null
    for [useCache: true], and for [useCache: false] they return the two
    direct clients, which exist. *)
Theorem cached_clients_null_until_cache_settles
    (options : Options.t) (w : World) (ops : list Lifecycle.Operation) :
  ∃ a h,
    AxiosJwtAuthService.getAuthenticatedHttpClient true
      (Lifecycle.pending options ops w)
    = (Return None, Lifecycle.performAll ops (Lifecycle.constructed options w).2)
    ∧ AxiosJwtAuthService.getHttpClient true
        (Lifecycle.pending options ops w)
      = (Return None, Lifecycle.performAll ops (Lifecycle.constructed options w).2)
    ∧ AxiosJwtAuthService.getAuthenticatedHttpClient false
        (Lifecycle.pending options ops w)
      = (Return (Some a), Lifecycle.performAll ops (Lifecycle.constructed options w).2)
    ∧ AxiosJwtAuthService.getHttpClient false
        (Lifecycle.pending options ops w)
      = (Return (Some h), Lifecycle.performAll ops (Lifecycle.constructed options w).2)
    ∧ is_Some (instances (Lifecycle.pending options ops w).2 !! instance a)
    ∧ is_Some (instances (Lifecycle.pending options ops w).2 !! instance h).
Proof.
  destruct (constructed_instances options w)
    as (a & h & i & Ha & Hh & Hi & _ & _ & _ & Hj).
  destruct (constructed_clients options w) as (a' & h' & _ & _ & Hca & Hch & _).
  unfold Lifecycle.pending.
  set (s1 := (Lifecycle.constructed options w).2.1) in *.
  set (w1 := (Lifecycle.constructed options w).2.2) in *.
  change (Lifecycle.constructed options w).2 with (s1, w1).
  clearbody s1 w1. cbn [fst snd] in *.
  destruct (performAll_frame ops s1 w1) as (s' & evs & -> & K1 & K2 & K3 & K4).
  exists a, h.
  rewrite !jwt_getAuthenticatedHttpClient_run, !jwt_getHttpClient_run.
  rewrite K1, K2, K3, K4, Ha, Hh, Hca, Hch. simpl.
  repeat (split; [reflexivity|]).
  rewrite Hi. split; [eauto | exact Hj].
Qed.

(** ** The settlement of the cache *)

Lemma cacheInitialization_failure (options : Options.t)
    (s : AxiosJwtAuthService.t) (w : World) (e : JsError) :
  configureCache (env w) = Some e →
  ∃ r evs,
    AxiosJwtAuthService.cacheInitialization options (s, w)
    = (r,
       (AxiosJwtAuthService.set_middleware (Options.middleware options)
          (AxiosJwtAuthService.set_cached
             (AbstractAuthService.authenticatedHttpClient (AxiosJwtAuthService.base s))
             (AbstractAuthService.httpClient (AxiosJwtAuthService.base s)) s),
        recordAll
          (LogError (LogMessage ("configureCache failed with error: " ++ message e))
             :: evs) w))
    ∧ Forall (λ ev, isMiddlewareEvent ev = true) evs
    ∧ ((∀ m c, m ∈ default [] (Options.middleware options) → mw_fn m c = None) →
       r = Return tt
       ∧ evs = middlewareCalls (default [] (Options.middleware options))
                 [AbstractAuthService.authenticatedHttpClient (AxiosJwtAuthService.base s);
                  AbstractAuthService.httpClient (AxiosJwtAuthService.base s);
                  AbstractAuthService.authenticatedHttpClient (AxiosJwtAuthService.base s);
                  AbstractAuthService.httpClient (AxiosJwtAuthService.base s)]).
Proof.
  intros Hfail.
  unfold AxiosJwtAuthService.cacheInitialization, promiseFinally, promiseCatch,
    promiseThen, tryCatch, AxiosJwtAuthService.configureCacheSettled.
  run_method. rewrite Hfail. simpl.
  set (s' := AxiosJwtAuthService.set_middleware _ _).
  set (w' := recordEvent _ w).
  destruct (applyMiddleware_frame (Options.middleware options) s' w')
    as (r & evs & Hrun & Hevs).
  exists (match r with Return _ => Return tt | Throw e' => Throw e' end), evs.
  split; [|split; [exact Hevs|]].
  - rewrite Hrun. subst w'. rewrite recordEvent_recordAll, recordAll_recordAll.
    destruct r; reflexivity.
  - intros Hquiet.
    rewrite (applyMiddleware_quiet (Options.middleware options) s' w' Hquiet) in Hrun.
    inversion Hrun as [[Hr Hw]]. split; [reflexivity|].
    apply app_inv_head in Hw. symmetry. exact Hw.
Qed.

(** C4.  When [configureCache()] rejects, whatever the application did with
    the service in the meantime, the constructor has returned normally, the
    cache-backed handles are the direct clients themselves (so the getters
    return the same handle with and without [useCache]), and the failure is
    reported to the logging sink exactly once. *)
Theorem cache_failure_falls_back_to_direct_clients
    (options : Options.t) (ops : list Lifecycle.Operation) (w : World)
    (e : JsError) :
  configureCache (env w) = Some e →
  (Lifecycle.constructed options w).1 = Return tt
  ∧ ∃ a h evs,
      AxiosJwtAuthService.getAuthenticatedHttpClient true
        (Lifecycle.settled options ops w).2
        = (Return (Some a), (Lifecycle.settled options ops w).2)
      ∧ AxiosJwtAuthService.getAuthenticatedHttpClient false
          (Lifecycle.settled options ops w).2
        = (Return (Some a), (Lifecycle.settled options ops w).2)
      ∧ AxiosJwtAuthService.getHttpClient true (Lifecycle.settled options ops w).2
        = (Return (Some h), (Lifecycle.settled options ops w).2)
      ∧ AxiosJwtAuthService.getHttpClient false (Lifecycle.settled options ops w).2
        = (Return (Some h), (Lifecycle.settled options ops w).2)
      ∧ eventsSince (Lifecycle.pending options ops w).2
          (Lifecycle.settled options ops w).2.2
        = LogError (LogMessage ("configureCache failed with error: " ++ message e))
            :: evs
      ∧ Forall (λ ev, isMiddlewareEvent ev = true) evs
      ∧ count (isReport ("configureCache failed with error: " ++ message e))
              (eventsSince (Lifecycle.pending options ops w).2
                 (Lifecycle.settled options ops w).2.2) = 1.
Proof.
  intros Hfail. split; [reflexivity|].
  destruct (constructed_clients options w) as (a & h & Ha & Hh & _).
  unfold Lifecycle.settled, Lifecycle.pending.
  set (s1 := (Lifecycle.constructed options w).2.1) in *.
  set (w1 := (Lifecycle.constructed options w).2.2).
  change (Lifecycle.constructed options w).2 with (s1, w1).
  assert (Henv : env w1 = env w) by reflexivity.
  clearbody s1 w1.
  destruct (performAll_frame ops s1 w1) as (s2 & evs0 & -> & _ & _ & K3 & K4).
  assert (Hfail2 : configureCache (env (recordAll evs0 w1)) = Some e)
    by (simpl; rewrite Henv; exact Hfail).
  destruct (cacheInitialization_failure options s2 (recordAll evs0 w1) e Hfail2)
    as (r & evs & Hrun & Hevs & _).
  rewrite Hrun. exists a, h, evs. cbn [fst snd].
  rewrite !jwt_getAuthenticatedHttpClient_run, !jwt_getHttpClient_run.
  simpl. rewrite K3, K4, Ha, Hh.
  repeat (split; [reflexivity|]).
  assert (Hevents :
    eventsSince (recordAll evs0 w1)
      (recordAll
         (LogError (LogMessage ("configureCache failed with error: " ++ message e))
            :: evs) (recordAll evs0 w1))
    = LogError (LogMessage ("configureCache failed with error: " ++ message e))
        :: evs)
    by (apply eventsSince_record; reflexivity).
  split; [exact Hevents|]. split; [exact Hevs|].
  rewrite Hevents, count_cons, (count_middleware_reports _ evs Hevs).
  simpl. rewrite String.eqb_refl. reflexivity.
Qed.

Lemma cache_failure_falls_back_to_direct_clients_witness :
  (AxiosJwtAuthService.getAuthenticatedHttpClient true Sample.cacheFailed).1
    = (AxiosJwtAuthService.getAuthenticatedHttpClient false Sample.cacheFailed).1
  ∧ (AxiosJwtAuthService.getHttpClient true Sample.cacheFailed).1
    = (AxiosJwtAuthService.getHttpClient false Sample.cacheFailed).1
  ∧ count (isReport "configureCache failed with error: no storage")
      (trace Sample.cacheFailed.2) = 1.
Proof.
  destruct (cache_failure_falls_back_to_direct_clients
              (Sample.options Sample.config (Some [Sample.quiet "m"])) []
              (newWorld (Sample.collaborators "" None (Some (newError "no storage"))))
              (newError "no storage") eq_refl)
    as (_ & a & h & evs & Ha1 & Ha0 & Hh1 & Hh0 & _ & _ & Hcount).
  unfold Sample.cacheFailed.
  rewrite Ha1, Ha0, Hh1, Hh0. split; [reflexivity|]. split; reflexivity.
Defined.

Arguments AbstractAuthService.applyMiddleware : simpl never.

(** When the cache initialises and no middleware function throws, the four
    handles are four objects and every function is called once on each. *)
Lemma cache_success_middleware_calls (options : Options.t) (w : World) :
  configureCache (env w) = None →
  (∀ m c, m ∈ default [] (Options.middleware options) → mw_fn m c = None) →
  ∃ a h ca ch,
    (Lifecycle.settled options [] w).1 = Return tt
    ∧ AbstractAuthService.getMiddlewareClients (Lifecycle.settled options [] w).2.1
      = [Some a; Some h; Some ca; Some ch]
    ∧ NoDup [a; h; ca; ch]
    ∧ eventsSince w (Lifecycle.settled options [] w).2.2
      = ConfigureCache
          :: middlewareCalls (default [] (Options.middleware options))
               [Some a; Some h; Some ca; Some ch].
Proof.
  intros Hready Hquiet.
  unfold Lifecycle.settled, Lifecycle.pending, Lifecycle.performAll,
    Lifecycle.constructed,
    AxiosJwtAuthService.cacheInitialization, promiseFinally, promiseCatch,
    promiseThen, tryCatch, AxiosJwtAuthService.configureCacheSettled,
    AxiosJwtAuthService.constructor,
    AxiosJwtAuthService.addAuthenticationToHttpClient,
    AbstractAuthService.getConfig.
  run_method. rewrite Hready. simpl.
  rewrite applyMiddleware_quiet by exact Hquiet. simpl.
  eexists _, _, _, _. split; [reflexivity|]. split; [reflexivity|].
  split.
  - repeat (apply NoDup_cons; split;
            [rewrite ?elem_of_cons, elem_of_nil; intros Hin;
             repeat (destruct Hin as [Hin|Hin]); try inversion Hin; lia|]).
    constructor.
  - apply eventsSince_record. simpl. rewrite <- app_assoc. reflexivity.
Qed.

(** When the cache fails and no middleware function throws, every function
    is called on the authenticated client, on the plain client, and on both
    once more. *)
Lemma cache_failure_middleware_calls (options : Options.t) (w : World) (e : JsError) :
  configureCache (env w) = Some e →
  (∀ m c, m ∈ default [] (Options.middleware options) → mw_fn m c = None) →
  ∃ a h,
    (Lifecycle.settled options [] w).1 = Return tt
    ∧ AbstractAuthService.getMiddlewareClients (Lifecycle.settled options [] w).2.1
      = [Some a; Some h; Some a; Some h]
    ∧ a ≠ h
    ∧ eventsSince w (Lifecycle.settled options [] w).2.2
      = ConfigureCache
          :: LogError (LogMessage ("configureCache failed with error: " ++ message e))
          :: middlewareCalls (default [] (Options.middleware options))
               [Some a; Some h; Some a; Some h].
Proof.
  intros Hfail Hquiet.
  destruct (constructed_clients options w) as (a & h & Ha & Hh & _ & _ & Hne).
  unfold Lifecycle.settled, Lifecycle.pending, Lifecycle.performAll.
  set (s1 := (Lifecycle.constructed options w).2.1) in *.
  set (w1 := (Lifecycle.constructed options w).2.2).
  change (Lifecycle.constructed options w).2 with (s1, w1).
  destruct (cacheInitialization_failure options s1 w1 e Hfail)
    as (r & evs & Hrun & _ & Hcalls).
  destruct (Hcalls Hquiet) as [-> ->]. rewrite Hrun.
  assert (Htrace : trace w1 = (trace w ++ [ConfigureCache])%list) by reflexivity.
  clearbody s1 w1.
  exists a, h. split; [reflexivity|]. split; [|split; [exact Hne|]].
  - cbn [fst snd]. simpl. rewrite Ha, Hh. reflexivity.
  - cbn [fst snd]. rewrite Ha, Hh.
    apply eventsSince_record. simpl. rewrite Htrace, <- app_assoc. reflexivity.
Qed.

(** C5, where the code departs from it: with one middleware function and a
    cache that fails to initialise, the function is called twice on the
    authenticated client and twice on the plain client, the two handles in
    use; when the cache initialises it is called once on each of the four. *)
Theorem cache_failure_applies_middleware_twice :
  AbstractAuthService.getMiddlewareClients Sample.cacheFailed.1
    = [Some {| ident := 1; instance := 0 |}; Some {| ident := 2; instance := 1 |};
       Some {| ident := 1; instance := 0 |}; Some {| ident := 2; instance := 1 |}]
  ∧ count (isCall "m" {| ident := 1; instance := 0 |}) (trace Sample.cacheFailed.2) = 2
  ∧ count (isCall "m" {| ident := 2; instance := 1 |}) (trace Sample.cacheFailed.2) = 2
  ∧ AbstractAuthService.getMiddlewareClients Sample.cacheReady.1
    = [Some {| ident := 1; instance := 0 |}; Some {| ident := 2; instance := 1 |};
       Some {| ident := 4; instance := 2 |}; Some {| ident := 3; instance := 2 |}]
  ∧ Forall (λ c, count (isCall "m" c) (trace Sample.cacheReady.2) = 1)
      [{| ident := 1; instance := 0 |}; {| ident := 2; instance := 1 |};
       {| ident := 4; instance := 2 |}; {| ident := 3; instance := 2 |}].
Proof.
  split; [reflexivity|]. split; [reflexivity|]. split; [reflexivity|].
  split; [reflexivity|]. repeat constructor.
Qed.

(** ** The anti-forgery step of a request *)

Lemma includes_elem_of (l : list string) (x : string) :
  includes l x = true ↔ x ∈ l.
Proof.
  unfold includes. rewrite existsb_exists. split.
  - intros (y & Hin & Heq). apply String.eqb_eq in Heq. subst y.
    apply list_elem_of_In, Hin.
  - intros Hin. exists x. split; [apply list_elem_of_In, Hin | apply String.eqb_refl].
Qed.

Lemma attachCsrfToken_shouldSkip_iff (c : AxiosRequestConfig) :
  attachCsrfToken_shouldSkip c = true
  ↔ isCsrfExempt c = true ∨ method c ∉ CSRF_PROTECTED_METHODS.
Proof.
  unfold attachCsrfToken_shouldSkip.
  rewrite orb_true_iff, negb_true_iff, <- includes_elem_of, not_true_iff_false.
  reflexivity.
Qed.

(** What a request on a client with the two request interceptors of
    [addAuthenticationToHttpClient] records. *)
Lemma authenticated_request_events {S} (client : Client) (i : AxiosInstance)
    (apiPath : string) (c : AxiosRequestConfig) (s : S) (w : World) :
  instances w !! instance client = Some i →
  requestInterceptors i
    = [attachCsrfTokenInterceptor apiPath; refreshAccessTokenInterceptor] →
  eventsSince w (request client c (s, w)).2.2
  = ((if isPublic c then [] else [GetJwtToken false])
     ++ (if attachCsrfToken_shouldSkip (lowerCaseMethod c)
         then [Send (lowerCaseMethod c)]
         else GetCsrfToken (url c) apiPath
                :: match getCsrfToken (env w) (url c) apiPath with
                   | inr csrfToken =>
                       [Send (setHeader (CSRF_HEADER_NAME (env w)) csrfToken
                                (lowerCaseMethod c))]
                   | inl _ => []
                   end))%list.
Proof.
  intros Hi Hinterceptors.
  assert (Hhandler : ∀ e σ,
    (runResponseErrorInterceptors (S := S) (responseInterceptors i) e σ).2 = σ).
  { intros e [s' w']. apply runResponseErrorInterceptors_this. }
  unfold request, inWorld, tryCatch. run_method. rewrite Hi, Hinterceptors. simpl.
  unfold createJwtTokenProviderInterceptor, createCsrfTokenProviderInterceptor,
    refreshAccessToken_shouldSkip.
  run_method.
  destruct (isPublic c), (attachCsrfToken_shouldSkip (lowerCaseMethod c)); simpl;
    try destruct (getCsrfToken (env w) (url c) apiPath) as [e|csrfToken]; simpl;
    try match goal with |- context [send (env w) ?c'] =>
          destruct (send (env w) c') end; simpl;
    rewrite ?Hhandler; simpl;
    apply eventsSince_record; simpl; rewrite <- ?app_assoc; reflexivity.
Qed.

Lemma csrfFetches_app (evs1 evs2 : list Event) :
  csrfFetches (evs1 ++ evs2) = (csrfFetches evs1 ++ csrfFetches evs2)%list.
Proof. unfold csrfFetches. apply omap_app. Qed.

Lemma sentHeaders_app (evs1 evs2 : list Event) :
  sentHeaders (evs1 ++ evs2) = (sentHeaders evs1 ++ sentHeaders evs2)%list.
Proof. unfold sentHeaders. apply omap_app. Qed.

(** C6.  On a client carrying the request interceptors of
    [addAuthenticationToHttpClient], a request skips the anti-forgery step
    exactly when it is flagged [isCsrfExempt] or its method is none of POST,
    PUT, PATCH and DELETE, in whatever case it is written.  A skipped
    request fetches no anti-forgery token and is sent with its headers as
    they were, an exempt POST among them; any other request fetches the
    token once, and when the fetch succeeds the request is sent with the
    token set as a header. *)
Theorem csrf_step_skipped_iff_exempt_or_unprotected
    (client : Client) (i : AxiosInstance) (apiPath : string)
    (c : AxiosRequestConfig) (s : AxiosJwtAuthService.t) (w : World) :
  instances w !! instance client = Some i →
  requestInterceptors i
    = [attachCsrfTokenInterceptor apiPath; refreshAccessTokenInterceptor] →
  (attachCsrfToken_shouldSkip (lowerCaseMethod c) = true
   ↔ isCsrfExempt c = true
     ∨ toLowerCase (method c) ∉ ["post"; "put"; "patch"; "delete"])
  ∧ (attachCsrfToken_shouldSkip (lowerCaseMethod c) = true →
     csrfFetches (eventsSince w (request client c (s, w)).2.2) = []
     ∧ sentHeaders (eventsSince w (request client c (s, w)).2.2) = [headers c])
  ∧ (isCsrfExempt c = true → toLowerCase (method c) = "post" →
     csrfFetches (eventsSince w (request client c (s, w)).2.2) = [])
  ∧ (attachCsrfToken_shouldSkip (lowerCaseMethod c) = false →
     csrfFetches (eventsSince w (request client c (s, w)).2.2) = [(url c, apiPath)]
     ∧ ∀ csrfToken, getCsrfToken (env w) (url c) apiPath = inr csrfToken →
         sentHeaders (eventsSince w (request client c (s, w)).2.2)
         = [<[CSRF_HEADER_NAME (env w) := csrfToken]> (headers c)]).
Proof.
  intros Hi Hinterceptors.
  rewrite (authenticated_request_events client i apiPath c s w Hi Hinterceptors).
  rewrite csrfFetches_app, sentHeaders_app.
  assert (Hjwt : csrfFetches (if isPublic c then [] else [GetJwtToken false]) = []
                 ∧ sentHeaders (if isPublic c then [] else [GetJwtToken false]) = [])
    by (destruct (isPublic c); split; reflexivity).
  destruct Hjwt as [-> ->]. simpl.
  split; [apply (attachCsrfToken_shouldSkip_iff (lowerCaseMethod c))|].
  split; [intros ->; split; reflexivity|].
  split.
  - intros Hexempt _.
    assert (Hskip : attachCsrfToken_shouldSkip (lowerCaseMethod c) = true)
      by (apply attachCsrfToken_shouldSkip_iff; left; exact Hexempt).
    rewrite Hskip. reflexivity.
  - intros ->. split.
    + destruct (getCsrfToken (env w) (url c) apiPath); reflexivity.
    + intros csrfToken ->. reflexivity.
Qed.

Lemma csrf_step_skipped_iff_exempt_or_unprotected_witness :
  csrfFetches
    (eventsSince (Sample.anonymousJwt "" Sample.config).2
       (request {| ident := 1; instance := 0 |} (Sample.enroll "POST" true)
          ((Sample.anonymousJwt "" Sample.config).1,
           (Sample.anonymousJwt "" Sample.config).2)).2.2) = []
  ∧ sentHeaders
      (eventsSince (Sample.anonymousJwt "" Sample.config).2
         (request {| ident := 1; instance := 0 |} (Sample.enroll "POST" false)
            ((Sample.anonymousJwt "" Sample.config).1,
             (Sample.anonymousJwt "" Sample.config).2)).2.2)
    = [<["X-CSRFToken" := "token"]> ∅].
Proof.
  split.
  - apply (csrf_step_skipped_iff_exempt_or_unprotected
             {| ident := 1; instance := 0 |}
             {| usesCache := false; withCredentials := true;
                requestInterceptors :=
                  [attachCsrfTokenInterceptor "/csrf/api/v1/token";
                   refreshAccessTokenInterceptor];
                responseInterceptors := [processAxiosRequestErrorInterceptor] |}
             "/csrf/api/v1/token" (Sample.enroll "POST" true)
             (Sample.anonymousJwt "" Sample.config).1
             (Sample.anonymousJwt "" Sample.config).2 eq_refl eq_refl);
      reflexivity.
  - apply (csrf_step_skipped_iff_exempt_or_unprotected
             {| ident := 1; instance := 0 |}
             {| usesCache := false; withCredentials := true;
                requestInterceptors :=
                  [attachCsrfTokenInterceptor "/csrf/api/v1/token";
                   refreshAccessTokenInterceptor];
                responseInterceptors := [processAxiosRequestErrorInterceptor] |}
             "/csrf/api/v1/token" (Sample.enroll "POST" false)
             (Sample.anonymousJwt "" Sample.config).1
             (Sample.anonymousJwt "" Sample.config).2 eq_refl eq_refl);
      reflexivity.
Defined.

(** ** One refresh for all concurrent requesters *)

Section TokenProviderFacts.
Context {V : Type}.
Import TokenProvider.

Lemma run_app (kind : Kind) (inputs1 inputs2 : list (Input V)) (p : t V) :
  run kind (inputs1 ++ inputs2) p = run kind inputs2 (run kind inputs1 p).
Proof. unfold run. apply fold_left_app. Qed.

(** Requesters arriving while a refresh is pending join those waiting. *)
Lemma calls_while_pending (kind : Kind) (callers waiting : list nat) (p : t V) :
  cached p = None →
  inFlight p = Some waiting →
  run kind (map Call callers) p
  = {| cached := None;
       inFlight := Some (waiting ++ callers)%list;
       refreshCalls := refreshCalls p;
       observed := observed p |}.
Proof.
  revert waiting p. induction callers as [|caller callers IH]; intros waiting p Hc Hf.
  - simpl. rewrite app_nil_r. destruct p; simpl in *. congruence.
  - change (run kind (map Call (caller :: callers)) p)
      with (run kind (map Call callers) (step kind p (Call caller))).
    assert (Hstep : step kind p (Call caller)
                    = {| cached := None;
                         inFlight := Some (waiting ++ [caller])%list;
                         refreshCalls := refreshCalls p;
                         observed := observed p |})
      by (unfold step; rewrite Hc, Hf; reflexivity).
    rewrite Hstep, (IH (waiting ++ [caller])%list) by reflexivity.
    simpl. rewrite <- app_assoc. reflexivity.
Qed.

Lemma calls_from_idle (kind : Kind) (caller : nat) (callers : list nat) :
  run kind (map Call (caller :: callers)) (idle (V := V))
  = {| cached := None;
       inFlight := Some (caller :: callers);
       refreshCalls := 1;
       observed := [] |}.
Proof.
  change (run kind (map Call (caller :: callers)) idle)
    with (run kind (map Call callers) (step kind (idle (V := V)) (Call caller))).
  rewrite (calls_while_pending kind callers [caller]) by reflexivity.
  reflexivity.
Qed.

End TokenProviderFacts.

(** C7.  Of any number of requesters that call a provider with nothing
    cached before the refresh settles, the first starts the one refresh and
    the others wait for it; when it settles every one of them gets the same
    result, the value or the failure (null, for a credential), and the
    in-flight marker is cleared. *)
Theorem single_refresh_fans_out {V : Type} (kind : TokenProvider.Kind)
    (callers : list nat) (r : TokenProvider.Settlement V) :
  callers ≠ [] →
  TokenProvider.refreshCalls
    (TokenProvider.run kind (map TokenProvider.Call callers)
       (TokenProvider.idle (V := V))) = 1
  ∧ TokenProvider.inFlight
      (TokenProvider.run kind (map TokenProvider.Call callers)
       (TokenProvider.idle (V := V)))
    = Some callers
  ∧ TokenProvider.refreshCalls
      (TokenProvider.run kind
         (map TokenProvider.Call callers ++ [TokenProvider.Settle r])
         TokenProvider.idle) = 1
  ∧ TokenProvider.observed
      (TokenProvider.run kind
         (map TokenProvider.Call callers ++ [TokenProvider.Settle r])
         TokenProvider.idle)
    = map (λ caller, (caller, TokenProvider.observe kind r)) callers
  ∧ TokenProvider.inFlight
      (TokenProvider.run kind
         (map TokenProvider.Call callers ++ [TokenProvider.Settle r])
         TokenProvider.idle)
    = None.
Proof.
  intros Hcallers. destruct callers as [|caller callers]; [congruence|].
  rewrite run_app, calls_from_idle. repeat split.
Qed.

Lemma single_refresh_fans_out_witness :
  TokenProvider.refreshCalls
    (TokenProvider.run TokenProvider.Credential
       (map TokenProvider.Call [1; 2; 3]
          ++ [TokenProvider.Settle (TokenProvider.Rejected (newError "offline"))])
       (TokenProvider.idle (V := JsObject))) = 1
  ∧ TokenProvider.observed
      (TokenProvider.run TokenProvider.Credential
         (map TokenProvider.Call [1; 2; 3]
            ++ [TokenProvider.Settle (TokenProvider.Rejected (newError "offline"))])
         (TokenProvider.idle (V := JsObject)))
    = [(1, TokenProvider.Null); (2, TokenProvider.Null); (3, TokenProvider.Null)].
Proof.
  destruct (single_refresh_fans_out (V := JsObject) TokenProvider.Credential
              [1; 2; 3] (TokenProvider.Rejected (newError "offline"))
              ltac:(discriminate))
    as (_ & _ & Hcalls & Hobserved & _).
  split; [exact Hcalls | exact Hobserved].
Defined.

(** * Further properties of the services *)

(** ** The login and logout addresses *)

Lemma unreserved_not_percent (c : ascii) :
  uriUnreserved c = true → Ascii.eqb c "%" = false.
Proof. destruct c as [[] [] [] [] [] [] [] []]; vm_compute; congruence. Qed.

Lemma percentDecode_percentEncode (c : ascii) (t : string) :
  percentDecode (percentEncode c ++ t) = option_map (String c) (percentDecode t).
Proof. destruct c as [[] [] [] [] [] [] [] []]; reflexivity. Qed.

Lemma percentDecode_literal (c : ascii) (t : string) :
  Ascii.eqb c "%" = false →
  percentDecode (String c t) = option_map (String c) (percentDecode t).
Proof.
  intros Hc.
  change (percentDecode (String c t))
    with (if Ascii.eqb c "%" then
            match t with
            | String h (String l rest') =>
                match hexValue h, hexValue l with
                | Some a, Some b =>
                    option_map (String (ascii_of_nat (16 * a + b)))
                      (percentDecode rest')
                | _, _ => None
                end
            | _ => None
            end
          else option_map (String c) (percentDecode t)).
  rewrite Hc. reflexivity.
Qed.

Lemma percentDecode_encodeURIComponent (s : string) :
  percentDecode (encodeURIComponent s) = Some s.
Proof.
  induction s as [|c s IH]; [reflexivity|].
  change (encodeURIComponent (String c s))
    with ((if uriUnreserved c then String c "" else percentEncode c)
            ++ encodeURIComponent s).
  destruct (uriUnreserved c) eqn:Hc.
  - change (String c "" ++ encodeURIComponent s)
      with (String c (encodeURIComponent s)).
    rewrite (percentDecode_literal c _ (unreserved_not_percent c Hc)), IH.
    reflexivity.
  - rewrite percentDecode_percentEncode, IH. reflexivity.
Qed.

Lemma encoded_character_no_delimiter (c : ascii) :
  forallb (λ ch, negb (existsb (Ascii.eqb ch) queryDelimiters))
    (list_ascii_of_string
       (if uriUnreserved c then String c "" else percentEncode c)) = true.
Proof. destruct c as [[] [] [] [] [] [] [] []]; reflexivity. Qed.

Lemma list_ascii_of_string_app (s t : string) :
  list_ascii_of_string (s ++ t)
  = (list_ascii_of_string s ++ list_ascii_of_string t)%list.
Proof. induction s as [|c s IH]; simpl; [reflexivity | rewrite IH; reflexivity]. Qed.

Lemma not_delimiter (ch : ascii) :
  negb (existsb (Ascii.eqb ch) queryDelimiters) = true → ch ∉ queryDelimiters.
Proof.
  intros Hb Hin. apply negb_true_iff in Hb.
  apply list_elem_of_In in Hin.
  assert (Hex : existsb (Ascii.eqb ch) queryDelimiters = true).
  { apply existsb_exists. exists ch. split; [exact Hin | apply Ascii.eqb_refl]. }
  congruence.
Qed.

Lemma encodeURIComponent_no_delimiter (s : string) :
  Forall (λ ch, ch ∉ queryDelimiters) (list_ascii_of_string (encodeURIComponent s)).
Proof.
  induction s as [|c s IH]; [constructor|].
  change (encodeURIComponent (String c s))
    with ((if uriUnreserved c then String c "" else percentEncode c)
            ++ encodeURIComponent s).
  rewrite list_ascii_of_string_app. apply Forall_app. split; [|exact IH].
  pose proof (encoded_character_no_delimiter c) as Hc.
  rewrite forallb_forall in Hc. apply Forall_forall.
  intros ch Hin. apply not_delimiter, Hc, list_elem_of_In, Hin.
Qed.

(** X1.  The login and the logout address are the configured URL, the name
    of the query parameter and one value; the value has none of the
    characters that end or split a query value, and percent-decoding it
    gives back the redirect URL, or the base URL when none was given.
    Building an address changes nothing; redirecting navigates once, to that
    address. *)
Theorem redirect_addresses_carry_the_redirect_url
    {S : Type} `{AbstractAuthService.Subclass S}
    (s : S) (w : World) (redirectUrl : option string) :
  ∃ q : string,
    percentDecode q
      = Some (default (BASE_URL (AbstractAuthService.config
                                   (AbstractAuthService.super s))) redirectUrl)
    ∧ Forall (λ ch, ch ∉ queryDelimiters) (list_ascii_of_string q)
    ∧ AbstractAuthService.getLoginRedirectUrl redirectUrl (s, w)
      = (Return (LOGIN_URL (AbstractAuthService.config (AbstractAuthService.super s))
                 ++ "?next=" ++ q), (s, w))
    ∧ AbstractAuthService.getLogoutRedirectUrl redirectUrl (s, w)
      = (Return (LOGOUT_URL (AbstractAuthService.config (AbstractAuthService.super s))
                 ++ "?redirect_url=" ++ q), (s, w))
    ∧ AbstractAuthService.redirectToLogin redirectUrl (s, w)
      = (Return tt,
         (s, recordAll
               [LocationAssign
                  (LOGIN_URL (AbstractAuthService.config (AbstractAuthService.super s))
                   ++ "?next=" ++ q)] w))
    ∧ AbstractAuthService.redirectToLogout redirectUrl (s, w)
      = (Return tt,
         (s, recordAll
               [LocationAssign
                  (LOGOUT_URL (AbstractAuthService.config (AbstractAuthService.super s))
                   ++ "?redirect_url=" ++ q)] w)).
Proof.
  exists (encodeURIComponent
            (default (BASE_URL (AbstractAuthService.config
                                  (AbstractAuthService.super s))) redirectUrl)).
  split; [apply percentDecode_encodeURIComponent|].
  split; [apply encodeURIComponent_no_delimiter|].
  repeat split.
Qed.

(** ** The outcomes of [ensureAuthenticatedUser] *)

Lemma prefix_app (s t : string) : String.prefix s (s ++ t) = true.
Proof.
  induction s as [|c s IH]; simpl; [destruct t; reflexivity|].
  destruct (ascii_dec c c); [exact IH | congruence].
Qed.

Lemma fromLoginPage_under (loginUrl rest : string) :
  loginUrl ++ rest ≠ "" → fromLoginPage (loginUrl ++ rest) loginUrl = true.
Proof.
  intros Hne. unfold fromLoginPage, startsWith. rewrite prefix_app, andb_true_r.
  apply negb_true_iff, String.eqb_neq, Hne.
Qed.

(** X2.  When the token service has a token, [ensureAuthenticatedUser] of
    the JWT service resolves with the user built from it, which is then the
    current user; its only call is one [getJwtToken(false)].  The
    development service resolves with its configured user and calls
    nothing.  Neither navigates nor logs, whatever the referrer and the
    redirect URL are. *)
Theorem ensureAuthenticatedUser_resolves_with_the_user
    (s : AxiosJwtAuthService.t) (d : DevelopmentAuthService.t) (w w' : World)
    (redirectUrl : option string) (decodedAccessToken user : JsObject) :
  getJwtToken (env w) false = Some decodedAccessToken →
  AbstractAuthService.authenticatedUser (DevelopmentAuthService.base d) = Some user →
  AxiosJwtAuthService.ensureAuthenticatedUser redirectUrl (s, w)
  = (Return (userOfToken decodedAccessToken),
     (AbstractAuthService.withSuper
        (AbstractAuthService.set_authenticatedUser
           (Some (userOfToken decodedAccessToken))) s,
      recordAll [GetJwtToken false] w))
  ∧ DevelopmentAuthService.ensureAuthenticatedUser redirectUrl (d, w')
    = (Return user, (d, w')).
Proof.
  intros Htoken Huser. split.
  - unfold AxiosJwtAuthService.ensureAuthenticatedUser,
      AxiosJwtAuthService.fetchAuthenticatedUser,
      AbstractAuthService.getAuthenticatedUser,
      AbstractAuthService.setAuthenticatedUser,
      AbstractAuthService.getConfig.
    run_method. rewrite Htoken. reflexivity.
  - unfold DevelopmentAuthService.ensureAuthenticatedUser,
      DevelopmentAuthService.fetchAuthenticatedUser,
      AbstractAuthService.getAuthenticatedUser,
      AbstractAuthService.getConfig.
    run_method. rewrite Huser. reflexivity.
Qed.

Lemma ensureAuthenticatedUser_resolves_with_the_user_witness :
  (AxiosJwtAuthService.ensureAuthenticatedUser (Some "http://localhost/mypage")
     (Sample.jwt Sample.config
        (newWorld (Sample.collaborators "http://localhost/login"
                     (Some Sample.decodedAccessToken) None)))).1
  = Return (userOfToken Sample.decodedAccessToken)
  ∧ (DevelopmentAuthService.ensureAuthenticatedUser (Some "http://localhost/mypage")
       Sample.mockDevelopment).1
    = Return Sample.user.
Proof.
  destruct (ensureAuthenticatedUser_resolves_with_the_user
              (Sample.jwt Sample.config
                 (newWorld (Sample.collaborators "http://localhost/login"
                              (Some Sample.decodedAccessToken) None))).1
              Sample.mockDevelopment.1
              (Sample.jwt Sample.config
                 (newWorld (Sample.collaborators "http://localhost/login"
                              (Some Sample.decodedAccessToken) None))).2
              Sample.mockDevelopment.2
              (Some "http://localhost/mypage")
              Sample.decodedAccessToken Sample.user eq_refl eq_refl)
    as [Hjwt Hdev].
  split.
  - exact (f_equal fst Hjwt).
  - exact (f_equal fst Hdev).
Defined.

(** X3.  An anonymous session whose referrer is any address that starts
    with the login URL (the login URL followed by a query, say), and is not
    empty, is refused as a redirect loop by both services: the error is
    logged once, and there is no navigation. *)
Theorem ensureAuthenticatedUser_rejects_referrer_under_login_url
    (s : AxiosJwtAuthService.t) (d : DevelopmentAuthService.t) (w : World)
    (redirectUrl : option string) (rest : string) :
  getJwtToken (env w) false = None →
  AbstractAuthService.authenticatedUser (DevelopmentAuthService.base d) = None →
  AbstractAuthService.config (DevelopmentAuthService.base d)
    = AbstractAuthService.config (AxiosJwtAuthService.base s) →
  document_referrer (env w)
    = LOGIN_URL (AbstractAuthService.config (AxiosJwtAuthService.base s)) ++ rest →
  document_referrer (env w) ≠ "" →
  (AxiosJwtAuthService.ensureAuthenticatedUser redirectUrl (s, w)).1
    = Throw AbstractAuthService.redirectLoopError
  ∧ navigations
      (eventsSince w (AxiosJwtAuthService.ensureAuthenticatedUser redirectUrl (s, w)).2.2)
    = []
  ∧ reported
      (eventsSince w (AxiosJwtAuthService.ensureAuthenticatedUser redirectUrl (s, w)).2.2)
    = [LogException AbstractAuthService.redirectLoopError]
  ∧ DevelopmentAuthService.ensureAuthenticatedUser redirectUrl (d, w)
    = (Throw AbstractAuthService.redirectLoopError,
       (d, recordAll [LogError (LogException AbstractAuthService.redirectLoopError)] w)).
Proof.
  intros Htoken Huser Hconfig Hreferrer Hne.
  assert (Hloop : fromLoginPage (document_referrer (env w))
                    (LOGIN_URL (AbstractAuthService.config
                                  (AxiosJwtAuthService.base s))) = true).
  { rewrite Hreferrer. apply fromLoginPage_under. rewrite <- Hreferrer. exact Hne. }
  rewrite (jwt_ensure_loop s w redirectUrl Htoken Hloop).
  cbn [fst snd]. rewrite eventsSince_record2.
  split; [reflexivity|]. split; [reflexivity|]. split; [reflexivity|].
  rewrite <- Hconfig in Hloop.
  rewrite (dev_ensure_loop d w redirectUrl Huser Hloop). reflexivity.
Qed.

Lemma ensureAuthenticatedUser_rejects_referrer_under_login_url_witness :
  (AxiosJwtAuthService.ensureAuthenticatedUser None
     (Sample.anonymousJwt "http://localhost/login?next=%2F" Sample.config)).1
  = Throw AbstractAuthService.redirectLoopError
  ∧ (DevelopmentAuthService.ensureAuthenticatedUser None
       ((Sample.anonymousDevelopment "" Sample.config).1,
        (Sample.anonymousJwt "http://localhost/login?next=%2F" Sample.config).2)).1
    = Throw AbstractAuthService.redirectLoopError.
Proof.
  destruct (ensureAuthenticatedUser_rejects_referrer_under_login_url
              (Sample.anonymousJwt "http://localhost/login?next=%2F" Sample.config).1
              (Sample.anonymousDevelopment "" Sample.config).1
              (Sample.anonymousJwt "http://localhost/login?next=%2F" Sample.config).2
              None "?next=%2F" eq_refl eq_refl eq_refl eq_refl)
    as (Hjwt & _ & _ & Hdev).
  - discriminate.
  - split; [exact Hjwt | exact (f_equal fst Hdev)].
Defined.

(** X4.  Every run of [ensureAuthenticatedUser] of the JWT service in
    which the token service answers, with a token or with null, asks it
    once, without forcing a refresh, leaves the four client
    handles alone, and ends in one of three ways: it resolves with the
    current user, having neither navigated nor logged; it rejects with an
    error flagged [isRedirecting], having navigated once and logged nothing;
    or it rejects with an error not so flagged, having logged that error and
    not navigated.  After a rejection the session is anonymous. *)
Theorem ensureAuthenticatedUser_redirecting_iff_navigated
    (s : AxiosJwtAuthService.t) (w : World) (redirectUrl : option string) :
  credentialFetches
    (eventsSince w (AxiosJwtAuthService.ensureAuthenticatedUser redirectUrl (s, w)).2.2)
  = [false]
  ∧ sameClients s (AxiosJwtAuthService.ensureAuthenticatedUser redirectUrl (s, w)).2.1
  ∧ match (AxiosJwtAuthService.ensureAuthenticatedUser redirectUrl (s, w)).1 with
    | Return user =>
        AbstractAuthService.authenticatedUser
          (AxiosJwtAuthService.base
             (AxiosJwtAuthService.ensureAuthenticatedUser redirectUrl (s, w)).2.1)
        = Some user
        ∧ navigations
            (eventsSince w
               (AxiosJwtAuthService.ensureAuthenticatedUser redirectUrl (s, w)).2.2) = []
        ∧ reported
            (eventsSince w
               (AxiosJwtAuthService.ensureAuthenticatedUser redirectUrl (s, w)).2.2) = []
    | Throw e =>
        AbstractAuthService.authenticatedUser
          (AxiosJwtAuthService.base
             (AxiosJwtAuthService.ensureAuthenticatedUser redirectUrl (s, w)).2.1)
        = None
        ∧ length (navigations
                    (eventsSince w
                       (AxiosJwtAuthService.ensureAuthenticatedUser redirectUrl
                          (s, w)).2.2))
          = (if isRedirecting e then 1 else 0)
        ∧ reported
            (eventsSince w
               (AxiosJwtAuthService.ensureAuthenticatedUser redirectUrl (s, w)).2.2)
          = (if isRedirecting e then [] else [LogException e])
    end.
Proof.
  destruct (getJwtToken (env w) false) as [decodedAccessToken|] eqn:Htoken.
  - assert (Hrun :
      AxiosJwtAuthService.ensureAuthenticatedUser redirectUrl (s, w)
      = (Return (userOfToken decodedAccessToken),
         (AbstractAuthService.withSuper
            (AbstractAuthService.set_authenticatedUser
               (Some (userOfToken decodedAccessToken))) s,
          recordEvent (GetJwtToken false) w))).
    { unfold AxiosJwtAuthService.ensureAuthenticatedUser,
        AxiosJwtAuthService.fetchAuthenticatedUser,
        AbstractAuthService.getAuthenticatedUser,
        AbstractAuthService.setAuthenticatedUser,
        AbstractAuthService.getConfig.
      run_method. rewrite Htoken. reflexivity. }
    rewrite Hrun. cbn [fst snd]. rewrite eventsSince_record1.
    split; [reflexivity|]. split; [apply sameClients_user|].
    repeat split.
  - destruct (fromLoginPage (document_referrer (env w))
                (LOGIN_URL (AbstractAuthService.config (AxiosJwtAuthService.base s))))
      eqn:Hloop.
    + rewrite (jwt_ensure_loop s w redirectUrl Htoken Hloop).
      cbn [fst snd]. rewrite eventsSince_record2.
      split; [reflexivity|]. split; [apply sameClients_user|].
      repeat split.
    + rewrite (jwt_ensure_redirects s w redirectUrl Htoken Hloop).
      cbn [fst snd]. rewrite eventsSince_record2.
      split; [reflexivity|]. split; [apply sameClients_user|].
      repeat split.
Qed.

(** ** [applyMiddleware]: the first exception, and clients that are null *)

Lemma forEach_app {S A : Type} (f : A → M S unit) (l1 l2 : list A) (σ : S * World) :
  forEach f (l1 ++ l2) σ
  = match forEach f l1 σ with
    | (Return _, σ') => forEach f l2 σ'
    | (Throw e, σ') => (Throw e, σ')
    end.
Proof.
  revert σ. induction l1 as [|x l1 IH]; intros σ; [reflexivity|].
  simpl. unfold mbind, M_bind. destruct (f x σ) as [[[]|e] σ']; [apply IH | reflexivity].
Qed.

Lemma forEach_middleware_quiet {S : Type} `{AbstractAuthService.Subclass S}
    (l : list Middleware) (clients : list (option Client)) (s : S) (w : World) :
  (∀ m c, m ∈ l → mw_fn m c = None) →
  forEach (λ m, forEach (λ client, AbstractAuthService.callMiddleware m client) clients)
          l (s, w)
  = (Return tt, (s, recordAll (middlewareCalls l clients) w)).
Proof.
  revert w. induction l as [|m l IH]; intros w Hl.
  - simpl. rewrite recordAll_nil. reflexivity.
  - simpl. unfold mbind, M_bind.
    rewrite forEach_clients_quiet
      by (intros c; apply Hl, elem_of_cons; left; reflexivity).
    rewrite IH by (intros m' c Hin; apply Hl, elem_of_cons; right; exact Hin).
    rewrite recordAll_recordAll. reflexivity.
Qed.

Lemma forEach_clients_throw {S : Type} `{AbstractAuthService.Subclass S}
    (m : Middleware) (pre post : list (option Client)) (c : Client) (e : JsError)
    (s : S) (w : World) :
  (∀ c', Some c' ∈ pre → mw_fn m c' = None) →
  mw_fn m c = Some e →
  forEach (λ client, AbstractAuthService.callMiddleware m client)
          (pre ++ Some c :: post) (s, w)
  = (Throw e,
     (s, recordAll (map (MiddlewareCall (mw_name m)) (omap id pre)
                    ++ [MiddlewareCall (mw_name m) c]) w)).
Proof.
  intros Hpre Hc. rewrite forEach_app.
  assert (Hquiet :
    forEach (λ client, AbstractAuthService.callMiddleware m client) pre (s, w)
    = (Return tt, (s, recordAll (map (MiddlewareCall (mw_name m)) (omap id pre)) w))).
  { clear Hc. revert w. induction pre as [|client pre IH]; intros w.
    - simpl. rewrite recordAll_nil. reflexivity.
    - simpl. unfold mbind, M_bind. rewrite callMiddleware_run.
      assert (Hrest : ∀ c', Some c' ∈ pre → mw_fn m c' = None)
        by (intros c' Hin; apply Hpre, elem_of_cons; right; exact Hin).
      destruct client as [c0|]; simpl.
      + rewrite (Hpre c0) by (apply elem_of_cons; left; reflexivity).
        rewrite (IH Hrest), recordAll_recordAll. reflexivity.
      + apply (IH Hrest). }
  rewrite Hquiet. cbn [forEach]. unfold mbind, M_bind.
  rewrite callMiddleware_run, Hc, recordAll_recordAll. reflexivity.
Qed.

(** X5.  [applyMiddleware] stops at the first call that throws.  Every
    function before the throwing one has been called on every client that is
    not null; the throwing one has been called on the clients before the one
    it throws on; no later client and no later function is called.  The
    exception is logged once and thrown again, and the service is
    unchanged. *)
Theorem applyMiddleware_stops_at_the_first_exception
    {S : Type} `{AbstractAuthService.Subclass S}
    (before after : list Middleware) (m : Middleware)
    (pre post : list (option Client)) (c : Client) (e : JsError)
    (s : S) (w : World) :
  (∀ m' c', m' ∈ before → mw_fn m' c' = None) →
  AbstractAuthService.getMiddlewareClients s = (pre ++ Some c :: post)%list →
  (∀ c', Some c' ∈ pre → mw_fn m c' = None) →
  mw_fn m c = Some e →
  AbstractAuthService.applyMiddleware (Some (before ++ m :: after)%list) (s, w)
  = (Throw e,
     (s, recordAll
           (middlewareCalls before (AbstractAuthService.getMiddlewareClients s)
            ++ map (MiddlewareCall (mw_name m)) (omap id pre)
            ++ [MiddlewareCall (mw_name m) c; LogError (LogException e)]) w)).
Proof.
  intros Hbefore Hclients Hpre Hc.
  unfold AbstractAuthService.applyMiddleware, tryCatch. run_method.
  rewrite forEach_app, (forEach_middleware_quiet before _ s w Hbefore).
  simpl. unfold mbind, M_bind.
  rewrite Hclients at 1.
  rewrite (forEach_clients_throw m pre post c e s _ Hpre Hc).
  simpl. rewrite recordEvent_recordAll, !recordAll_recordAll.
  rewrite <- !app_assoc. reflexivity.
Qed.

Lemma applyMiddleware_stops_at_the_first_exception_witness :
  AbstractAuthService.applyMiddleware
    (Some [Sample.quiet "first"; Scenario.failing "second"; Sample.quiet "third"])
    ((Sample.anonymousJwt "" Sample.config).1, (Sample.anonymousJwt "" Sample.config).2)
  = (Throw (newError "middleware failed"),
     ((Sample.anonymousJwt "" Sample.config).1,
      recordAll
        [MiddlewareCall "first" {| ident := 1; instance := 0 |};
         MiddlewareCall "first" {| ident := 2; instance := 1 |};
         MiddlewareCall "second" {| ident := 1; instance := 0 |};
         LogError (LogException (newError "middleware failed"))]
        (Sample.anonymousJwt "" Sample.config).2)).
Proof.
  etransitivity.
  - apply (applyMiddleware_stops_at_the_first_exception
             [Sample.quiet "first"] [Sample.quiet "third"] (Scenario.failing "second")
             [] [Some {| ident := 2; instance := 1 |}; None; None]
             {| ident := 1; instance := 0 |} (newError "middleware failed")
             (Sample.anonymousJwt "" Sample.config).1
             (Sample.anonymousJwt "" Sample.config).2).
    + intros m' c' Hin. apply list_elem_of_singleton in Hin. subst m'. reflexivity.
    + reflexivity.
    + intros c' Hin. apply elem_of_nil in Hin. destruct Hin.
    + reflexivity.
  - reflexivity.
Defined.

(** X6.  While the cache has not settled, whatever the application has
    done with the service, the two cached clients are null and
    [applyMiddleware] passes them over: functions that do not throw are
    called, in order, on the direct authenticated client and then on the
    direct plain client, which are two objects, and on nothing else. *)
Theorem applyMiddleware_passes_over_null_clients
    (options : Options.t) (ops : list Lifecycle.Operation) (w : World)
    (middleware : option (list Middleware)) :
  (∀ m c, m ∈ default [] middleware → mw_fn m c = None) →
  ∃ a h,
    a ≠ h
    ∧ AbstractAuthService.getMiddlewareClients (Lifecycle.pending options ops w).1
      = [Some a; Some h; None; None]
    ∧ AbstractAuthService.applyMiddleware middleware (Lifecycle.pending options ops w)
      = (Return tt,
         ((Lifecycle.pending options ops w).1,
          recordAll
            (flat_map (λ m, [MiddlewareCall (mw_name m) a; MiddlewareCall (mw_name m) h])
                      (default [] middleware))
            (Lifecycle.pending options ops w).2)).
Proof.
  intros Hquiet.
  destruct (constructed_clients options w) as (a & h & Ha & Hh & Hca & Hch & Hne).
  unfold Lifecycle.pending.
  set (s1 := (Lifecycle.constructed options w).2.1) in *.
  set (w1 := (Lifecycle.constructed options w).2.2).
  change (Lifecycle.constructed options w).2 with (s1, w1).
  clearbody s1 w1. cbn [fst snd] in *.
  destruct (performAll_frame ops s1 w1) as (s' & evs & -> & K1 & K2 & K3 & K4).
  exists a, h. split; [exact Hne|].
  assert (Hclients :
    AbstractAuthService.getMiddlewareClients s' = [Some a; Some h; None; None]).
  { simpl. rewrite K1, K2, K3, K4, Ha, Hh, Hca, Hch. reflexivity. }
  cbn [fst snd]. split; [exact Hclients|].
  rewrite (applyMiddleware_quiet middleware s' _ Hquiet), Hclients.
  reflexivity.
Qed.

Lemma applyMiddleware_passes_over_null_clients_witness :
  AbstractAuthService.applyMiddleware (Some [Sample.quiet "m"])
    (Lifecycle.pending (Sample.options Sample.config None)
       [Lifecycle.FetchAuthenticatedUser true]
       (newWorld (Sample.collaborators "" None None)))
  = (Return tt,
     ((Lifecycle.pending (Sample.options Sample.config None)
         [Lifecycle.FetchAuthenticatedUser true]
         (newWorld (Sample.collaborators "" None None))).1,
      recordAll [MiddlewareCall "m" {| ident := 1; instance := 0 |};
                 MiddlewareCall "m" {| ident := 2; instance := 1 |}]
        (Lifecycle.pending (Sample.options Sample.config None)
           [Lifecycle.FetchAuthenticatedUser true]
           (newWorld (Sample.collaborators "" None None))).2)).
Proof.
  destruct (applyMiddleware_passes_over_null_clients
              (Sample.options Sample.config None)
              [Lifecycle.FetchAuthenticatedUser true]
              (newWorld (Sample.collaborators "" None None))
              (Some [Sample.quiet "m"]))
    as (a & h & _ & Hclients & Hrun).
  - intros m c Hin. apply list_elem_of_singleton in Hin. subst m. reflexivity.
  - inversion Hclients. subst a h. exact Hrun.
Defined.

(** ** [fetchAuthenticatedUser] of the JWT service *)

Lemma userOfToken_fields (decodedAccessToken : JsObject) (k : string) :
  is_Some (userOfToken decodedAccessToken !! k)
  ↔ k ∈ ["name"; "administrator"; "roles"; "username"; "userId"; "email"].
Proof.
  unfold userOfToken.
  rewrite !lookup_insert_is_Some', lookup_empty, !elem_of_cons, elem_of_nil.
  split.
  - intros [->|[->|[->|[->|[->|[->|[x Hx]]]]]]]; [tauto..|discriminate].
  - intros [->|[->|[->|[->|[->|[->|[]]]]]]]; tauto.
Qed.

(** X7.  [fetchAuthenticatedUser] calls the token service once, with the
    [forceRefresh] it was given, and when the service answers it replaces
    the current user, whatever it
    was: by null when there is no token, otherwise by a user with exactly
    the fields name, administrator, roles, username, userId and email, read
    from the token's claims name, administrator, roles, preferred_username,
    user_id and email.  [roles] is never missing: without a truthy claim it
    is the empty array.  The value returned is the new current user. *)
Theorem fetchAuthenticatedUser_replaces_the_user
    (s : AxiosJwtAuthService.t) (w : World) (forceRefresh : bool) :
  AxiosJwtAuthService.fetchAuthenticatedUser forceRefresh (s, w)
  = (Return (userOfToken <$> getJwtToken (env w) forceRefresh),
     (AbstractAuthService.withSuper
        (AbstractAuthService.set_authenticatedUser
           (userOfToken <$> getJwtToken (env w) forceRefresh)) s,
      recordAll [GetJwtToken forceRefresh] w))
  ∧ ∀ decodedAccessToken : JsObject,
      (∀ k, is_Some (userOfToken decodedAccessToken !! k)
            ↔ k ∈ ["name"; "administrator"; "roles"; "username"; "userId"; "email"])
      ∧ prop (userOfToken decodedAccessToken) "username"
        = prop decodedAccessToken "preferred_username"
      ∧ prop (userOfToken decodedAccessToken) "userId"
        = prop decodedAccessToken "user_id"
      ∧ truthy (prop (userOfToken decodedAccessToken) "roles") = true
      ∧ (truthy (prop decodedAccessToken "roles") = false →
         prop (userOfToken decodedAccessToken) "roles" = JArr []).
Proof.
  split.
  - unfold AxiosJwtAuthService.fetchAuthenticatedUser,
      AbstractAuthService.getAuthenticatedUser,
      AbstractAuthService.setAuthenticatedUser.
    run_method. destruct (getJwtToken (env w) forceRefresh); reflexivity.
  - intros decodedAccessToken.
    split; [apply userOfToken_fields|].
    assert (Hroles : prop (userOfToken decodedAccessToken) "roles"
                     = js_or (prop decodedAccessToken "roles") (JArr []))
      by reflexivity.
    split; [reflexivity|]. split; [reflexivity|].
    rewrite Hroles. unfold js_or.
    destruct (truthy (prop decodedAccessToken "roles")) eqn:Htruthy.
    + split; [exact Htruthy | discriminate].
    + split; reflexivity.
Qed.

(** ** [hydrateAuthenticatedUser]: a failed request, and hydrating twice *)

Lemma runResponseErrorInterceptors_run {S} (l : list ResponseInterceptor)
    (e : JsError) (σ : S * World) :
  ∃ e', runResponseErrorInterceptors l e σ = (Throw e', σ).
Proof.
  revert e. induction l as [|i l IH]; intros e; [exists e; reflexivity|].
  destruct i. simpl. unfold tryCatch, throw. apply IH.
Qed.

(** A GET on a client with the request interceptors of
    [addAuthenticationToHttpClient]: the credential is asked for, the
    anti-forgery step is skipped, the request is sent as it is. *)
Lemma authenticated_get_run {S} (client : Client) (i : AxiosInstance)
    (apiPath u : string) (s : S) (w : World) :
  instances w !! instance client = Some i →
  requestInterceptors i
    = [attachCsrfTokenInterceptor apiPath; refreshAccessTokenInterceptor] →
  ∃ r,
    request client (getRequest u) (s, w)
    = (r, (s, recordAll [GetJwtToken false; Send (getRequest u)] w))
    ∧ match send (env w) (getRequest u) with
      | inr response => r = Return response
      | inl _ => ∃ e', r = Throw e'
      end.
Proof.
  intros Hi Hinterceptors.
  unfold request, inWorld, tryCatch. run_method. rewrite Hi, Hinterceptors. simpl.
  unfold createJwtTokenProviderInterceptor, createCsrfTokenProviderInterceptor,
    refreshAccessToken_shouldSkip.
  run_method.
  change (lowerCaseMethod (getRequest u)) with (getRequest u).
  change (attachCsrfToken_shouldSkip (getRequest u)) with true. simpl.
  destruct (send (env w) (getRequest u)) as [e|response]; simpl.
  - destruct (runResponseErrorInterceptors_run (S := S) (responseInterceptors i) e
                (s, recordEvent (Send (getRequest u)) (recordEvent (GetJwtToken false) w)))
      as [e' ->].
    exists (Throw e'). rewrite !recordEvent_recordAll, recordAll_recordAll.
    split; [reflexivity | eauto].
  - exists (Return response). rewrite !recordEvent_recordAll, recordAll_recordAll.
    split; reflexivity.
Qed.

Lemma eventsSince_recordAll (w : World) (evs : list Event) :
  eventsSince w (recordAll evs w) = evs.
Proof. apply eventsSince_record. reflexivity. Qed.

Lemma jwt_hydrate_get (s : AxiosJwtAuthService.t) (w : World) (user : JsObject)
    (client : Client) (i : AxiosInstance) (apiPath : string) :
  AbstractAuthService.authenticatedUser (AxiosJwtAuthService.base s) = Some user →
  AbstractAuthService.authenticatedHttpClient (AxiosJwtAuthService.base s)
    = Some client →
  instances w !! instance client = Some i →
  requestInterceptors i
    = [attachCsrfTokenInterceptor apiPath; refreshAccessTokenInterceptor] →
  ∃ r s',
    AxiosJwtAuthService.hydrateAuthenticatedUser (s, w)
    = (r, (s',
           recordAll
             [GetJwtToken false;
              Send (getRequest
                      (accountUrl (AbstractAuthService.config
                                     (AxiosJwtAuthService.base s)) user))] w))
    ∧ match send (env w)
              (getRequest (accountUrl (AbstractAuthService.config
                                         (AxiosJwtAuthService.base s)) user)) with
      | inr response =>
          r = Return tt
          ∧ s' = AbstractAuthService.withSuper
                   (AbstractAuthService.set_authenticatedUser
                      (Some (spread user (camelCaseObject (data response))))) s
      | inl _ => (∃ e', r = Throw e') ∧ s' = s
      end.
Proof.
  intros Huser Hclient Hi Hinterceptors.
  destruct (authenticated_get_run client i apiPath
              (accountUrl (AbstractAuthService.config (AxiosJwtAuthService.base s)) user)
              s w Hi Hinterceptors) as (r & Hrun & Hr).
  unfold accountUrl in *.
  unfold AxiosJwtAuthService.hydrateAuthenticatedUser,
    AbstractAuthService.getAuthenticatedUser,
    AbstractAuthService.setAuthenticatedUser,
    AbstractAuthService.getConfig.
  run_method. rewrite Huser. simpl. rewrite Hclient. simpl. rewrite Hrun.
  destruct (send (env w) _) as [e|response].
  - destruct Hr as [e' ->]. eexists _, _. split; [reflexivity|]. eauto.
  - subst r. eexists _, _. split; [reflexivity|]. split; reflexivity.
Qed.

Lemma spread_same_entries (t1 t2 : JsObject) (l : JsEntries) (k : string) :
  k ∈ l.*1 → spread t1 l !! k = spread t2 l !! k.
Proof.
  revert t1 t2. induction l as [|[k' v'] l IH]; intros t1 t2 Hk.
  - apply elem_of_nil in Hk. contradiction.
  - rewrite !spread_cons. destruct (decide (k ∈ l.*1)) as [Hin|Hout].
    + apply IH, Hin.
    + rewrite !spread_absent by exact Hout.
      rewrite fmap_cons, elem_of_cons in Hk. destruct Hk as [->|Hk];
        [|contradiction]. simpl. rewrite !lookup_insert_eq. reflexivity.
Qed.

Lemma spread_twice (t : JsObject) (l : JsEntries) :
  spread (spread t l) l = spread t l.
Proof.
  apply map_eq. intros k. destruct (decide (k ∈ l.*1)) as [Hin|Hout].
  - apply spread_same_entries, Hin.
  - rewrite spread_absent by exact Hout. reflexivity.
Qed.

(** X8.  When the transport fails the profile request,
    [hydrateAuthenticatedUser] rejects and the service is as it was, the
    current user included.  One request went out, the GET of
    [LMS_BASE_URL/api/user/v1/accounts/<username>] with no header added, and
    no anti-forgery token was fetched. *)
Theorem hydrateAuthenticatedUser_failed_request_keeps_the_user
    (s : AxiosJwtAuthService.t) (w : World) (user : JsObject)
    (client : Client) (i : AxiosInstance) (apiPath : string) (e : JsError) :
  AbstractAuthService.authenticatedUser (AxiosJwtAuthService.base s) = Some user →
  AbstractAuthService.authenticatedHttpClient (AxiosJwtAuthService.base s)
    = Some client →
  instances w !! instance client = Some i →
  requestInterceptors i
    = [attachCsrfTokenInterceptor apiPath; refreshAccessTokenInterceptor] →
  send (env w)
    (getRequest (accountUrl (AbstractAuthService.config (AxiosJwtAuthService.base s))
                   user)) = inl e →
  (∃ e', (AxiosJwtAuthService.hydrateAuthenticatedUser (s, w)).1 = Throw e')
  ∧ (AxiosJwtAuthService.hydrateAuthenticatedUser (s, w)).2.1 = s
  ∧ sent (eventsSince w (AxiosJwtAuthService.hydrateAuthenticatedUser (s, w)).2.2)
    = [getRequest (accountUrl (AbstractAuthService.config (AxiosJwtAuthService.base s))
                     user)]
  ∧ csrfFetches
      (eventsSince w (AxiosJwtAuthService.hydrateAuthenticatedUser (s, w)).2.2) = [].
Proof.
  intros Huser Hclient Hi Hinterceptors Hsend.
  destruct (jwt_hydrate_get s w user client i apiPath Huser Hclient Hi Hinterceptors)
    as (r & s' & Hrun & Hr).
  rewrite Hsend in Hr. destruct Hr as [[e' ->] ->].
  rewrite Hrun. cbn [fst snd]. rewrite eventsSince_recordAll.
  split; [eauto|]. repeat split.
Qed.

Lemma hydrateAuthenticatedUser_failed_request_keeps_the_user_witness :
  (AxiosJwtAuthService.hydrateAuthenticatedUser
     (Scenario.authenticatedOffline.1, Scenario.authenticatedOffline.2)).2.1
  = Scenario.authenticatedOffline.1
  ∧ sent (eventsSince Scenario.authenticatedOffline.2
            (AxiosJwtAuthService.hydrateAuthenticatedUser
               (Scenario.authenticatedOffline.1, Scenario.authenticatedOffline.2)).2.2)
    = [getRequest "http://lms/api/user/v1/accounts/a"].
Proof.
  destruct (hydrateAuthenticatedUser_failed_request_keeps_the_user
              Scenario.authenticatedOffline.1 Scenario.authenticatedOffline.2
              Sample.user {| ident := 1; instance := 0 |}
              {| usesCache := false; withCredentials := true;
                 requestInterceptors :=
                   [attachCsrfTokenInterceptor "/csrf/api/v1/token";
                    refreshAccessTokenInterceptor];
                 responseInterceptors := [processAxiosRequestErrorInterceptor] |}
              "/csrf/api/v1/token" (newError "Network Error")
              eq_refl eq_refl eq_refl eq_refl eq_refl)
    as (_ & Hthis & Hsent & _).
  split; [exact Hthis | exact Hsent].
Defined.

(** X9.  Hydrating twice is hydrating once when the accounts endpoint
    answers the second request with the same profile: the current user
    after the second call is the one after the first. *)
Theorem hydrateAuthenticatedUser_again_changes_nothing
    (s : AxiosJwtAuthService.t) (w : World) (user : JsObject)
    (client : Client) (i : AxiosInstance) (apiPath : string)
    (response response' : AxiosResponse) :
  AbstractAuthService.authenticatedUser (AxiosJwtAuthService.base s) = Some user →
  AbstractAuthService.authenticatedHttpClient (AxiosJwtAuthService.base s)
    = Some client →
  instances w !! instance client = Some i →
  requestInterceptors i
    = [attachCsrfTokenInterceptor apiPath; refreshAccessTokenInterceptor] →
  send (env w)
    (getRequest (accountUrl (AbstractAuthService.config (AxiosJwtAuthService.base s))
                   user)) = inr response →
  send (env w)
    (getRequest (accountUrl (AbstractAuthService.config (AxiosJwtAuthService.base s))
                   (spread user (camelCaseObject (data response))))) = inr response' →
  data response' = data response →
  AbstractAuthService.authenticatedUser
    (AxiosJwtAuthService.base
       (AxiosJwtAuthService.hydrateAuthenticatedUser (s, w)).2.1)
  = Some (spread user (camelCaseObject (data response)))
  ∧ AbstractAuthService.authenticatedUser
      (AxiosJwtAuthService.base
         (AxiosJwtAuthService.hydrateAuthenticatedUser
            (AxiosJwtAuthService.hydrateAuthenticatedUser (s, w)).2).2.1)
    = Some (spread user (camelCaseObject (data response))).
Proof.
  intros Huser Hclient Hi Hinterceptors Hsend Hsend' Hdata.
  destruct (jwt_hydrate_get s w user client i apiPath Huser Hclient Hi Hinterceptors)
    as (r & s' & Hrun & Hr).
  rewrite Hsend in Hr. destruct Hr as [-> ->].
  rewrite Hrun. cbn [fst snd]. split; [reflexivity|].
  match goal with
  | |- context [AxiosJwtAuthService.hydrateAuthenticatedUser (?s1, ?w1)] =>
      destruct (jwt_hydrate_get s1 w1
                  (spread user (camelCaseObject (data response))) client i apiPath
                  eq_refl Hclient Hi Hinterceptors) as (r & s' & Hrun' & Hr')
  end.
  simpl in Hr'. rewrite Hsend' in Hr'. destruct Hr' as [-> ->].
  rewrite Hrun'. cbn [fst snd]. simpl. rewrite Hdata, spread_twice. reflexivity.
Qed.

Lemma hydrateAuthenticatedUser_again_changes_nothing_witness :
  AbstractAuthService.authenticatedUser
    (AxiosJwtAuthService.base
       (AxiosJwtAuthService.hydrateAuthenticatedUser
          (AxiosJwtAuthService.hydrateAuthenticatedUser
             (Sample.authenticatedJwt.1, Sample.authenticatedJwt.2)).2).2.1)
  = Some Sample.hydratedUser.
Proof.
  destruct (hydrateAuthenticatedUser_again_changes_nothing
              Sample.authenticatedJwt.1 Sample.authenticatedJwt.2
              Sample.user {| ident := 1; instance := 0 |}
              {| usesCache := false; withCredentials := true;
                 requestInterceptors :=
                   [attachCsrfTokenInterceptor "/csrf/api/v1/token";
                    refreshAccessTokenInterceptor];
                 responseInterceptors := [processAxiosRequestErrorInterceptor] |}
              "/csrf/api/v1/token" {| data := Sample.profile |}
              {| data := Sample.profile |}
              eq_refl eq_refl eq_refl eq_refl eq_refl eq_refl eq_refl)
    as [_ Htwice].
  etransitivity; [exact Htwice | reflexivity].
Defined.

(** ** The development service: its constructor and its clients *)

Lemma dev_constructed (options : Options.t) (w : World) :
  ∃ a h,
    (developmentConstructed options w).1 = Return tt
    ∧ AbstractAuthService.authenticatedHttpClient
        (DevelopmentAuthService.base (developmentConstructed options w).2.1) = Some a
    ∧ AbstractAuthService.httpClient
        (DevelopmentAuthService.base (developmentConstructed options w).2.1) = Some h
    ∧ a ≠ h
    ∧ instance a ≠ instance h
    ∧ instances (developmentConstructed options w).2.2 !! instance a
      = Some {| usesCache := false; withCredentials := false;
                requestInterceptors :=
                  [apiInterceptor (apiConfigOf (Options.config options))];
                responseInterceptors := [] |}
    ∧ instances (developmentConstructed options w).2.2 !! instance h
      = Some {| usesCache := false; withCredentials := false;
                requestInterceptors :=
                  [apiInterceptor (apiConfigOf (Options.config options))];
                responseInterceptors := [] |}.
Proof.
  unfold developmentConstructed, apiConfigOf.
  simpl. eexists _, _. split; [reflexivity|]. split; [reflexivity|].
  split; [reflexivity|].
  rewrite !length_alter, !length_app. simpl.
  split; [intros Heq; inversion Heq; lia|].
  split; [lia|].
  split.
  - rewrite list_lookup_alter_ne by lia.
    rewrite lookup_app_l by (rewrite length_alter, length_app; simpl; lia).
    rewrite list_lookup_alter_eq, list_lookup_middle by reflexivity.
    reflexivity.
  - rewrite list_lookup_alter_eq.
    rewrite lookup_app_r by (rewrite length_alter, length_app; simpl; lia).
    rewrite length_alter, length_app. simpl.
    replace (length (instances w) + 1 - (length (instances w) + 1)) with 0 by lia.
    reflexivity.
Qed.

Lemma dev_constructed_trace (options : Options.t) (w : World) :
  trace (developmentConstructed options w).2.2
  = (trace w ++ [ConsoleLog "add config responder";
                 ConsoleLog "add config responder"])%list.
Proof. simpl. rewrite <- app_assoc. reflexivity. Qed.


(** X10.  The constructor of the development service returns with two
    clients, two objects over two axios instances.  Each instance has one
    request interceptor, the responder for the configured table of canned
    responses (the empty table when there is no [dev.apiConfig]), no response
    interceptor, and credentials off.  The current user is the configured
    one, or null.  The constructor writes the console message twice and does
    nothing else: it does not start a cache and it calls no middleware
    function, whatever [options.middleware] holds. *)
Theorem development_constructor_installs_the_responder
    (options : Options.t) (w : World) :
  ∃ a h,
    (developmentConstructed options w).1 = Return tt
    ∧ AbstractAuthService.getMiddlewareClients (developmentConstructed options w).2.1
      = [Some a; Some h]
    ∧ a ≠ h
    ∧ instance a ≠ instance h
    ∧ Forall (λ client,
        instances (developmentConstructed options w).2.2 !! instance client
        = Some {| usesCache := false; withCredentials := false;
                  requestInterceptors :=
                    [apiInterceptor (apiConfigOf (Options.config options))];
                  responseInterceptors := [] |}) [a; h]
    ∧ AbstractAuthService.authenticatedUser
        (DevelopmentAuthService.base (developmentConstructed options w).2.1)
      = dev (Options.config options) ≫= dev_authenticatedUser
    ∧ eventsSince w (developmentConstructed options w).2.2
      = [ConsoleLog "add config responder"; ConsoleLog "add config responder"].
Proof.
  destruct (dev_constructed options w) as (a & h & Hr & Ha & Hh & Hne & Hni & Hia & Hih).
  exists a, h. split; [exact Hr|].
  split; [simpl in Ha, Hh |- *; rewrite Ha, Hh; reflexivity|].
  split; [exact Hne|]. split; [exact Hni|].
  split; [repeat constructor; assumption|].
  split; [reflexivity|].
  apply eventsSince_record, dev_constructed_trace.
Qed.



(** X12.  The response the adapter of a canned response resolves with: a
    field of the table's entry stands with the entry's value, whether or not
    it is one of the six fields of a response; a field the entry does not
    give has its default.  The defaults are an empty [data], status 200 with
    text OK, the JSON content type, the request configuration the adapter
    was called with, and an empty [request]. *)
Theorem adapterResponse_entry_overrides_defaults
    (callConfig : JsObject) (config : JsValue) (k : string) :
  adapterResponse callConfig config !! k
  = match callConfig !! k with
    | Some v => Some v
    | None => adapterResponse ∅ config !! k
    end
  ∧ (is_Some (adapterResponse ∅ config !! k)
     ↔ k ∈ ["data"; "status"; "statusText"; "headers"; "config"; "request"])
  ∧ adapterResponse ∅ config !! "data" = Some (JObj [])
  ∧ adapterResponse ∅ config !! "status" = Some (JNum "200")
  ∧ adapterResponse ∅ config !! "statusText" = Some (JStr "OK")
  ∧ adapterResponse ∅ config !! "headers"
    = Some (JObj [("content-type", JStr "application/json")])
  ∧ adapterResponse ∅ config !! "config" = Some config
  ∧ adapterResponse ∅ config !! "request" = Some (JObj []).
Proof.
  split.
  - unfold adapterResponse. rewrite !lookup_union, lookup_empty.
    destruct (callConfig !! k) as [v|]; simpl.
    + rewrite union_Some_l. reflexivity.
    + rewrite !(left_id_L None union). reflexivity.
  - split; [|repeat split].
    unfold adapterResponse. rewrite (left_id_L ∅ union).
    rewrite !lookup_insert_is_Some', lookup_empty, !elem_of_cons, elem_of_nil.
    split.
    + intros [->|[->|[->|[->|[->|[->|[x Hx]]]]]]]; [tauto..|discriminate].
    + intros [->|[->|[->|[->|[->|[->|[]]]]]]]; tauto.
Qed.

(** ** The clients once the cache has initialised *)

Lemma constructed_layout (options : Options.t) (w : World) :
  ∃ a h,
    AbstractAuthService.authenticatedHttpClient
      (AxiosJwtAuthService.base (Lifecycle.constructed options w).2.1) = Some a
    ∧ AbstractAuthService.httpClient
        (AxiosJwtAuthService.base (Lifecycle.constructed options w).2.1) = Some h
    ∧ ident a < objects (Lifecycle.constructed options w).2.2
    ∧ ident h < objects (Lifecycle.constructed options w).2.2
    ∧ a ≠ h
    ∧ instance a < instance h
    ∧ instance h < length (instances (Lifecycle.constructed options w).2.2)
    ∧ instances (Lifecycle.constructed options w).2.2 !! instance h
      = Some (freshInstance false).
Proof.
  simpl. eexists _, _. split; [reflexivity|]. split; [reflexivity|].
  rewrite !length_app, !length_alter, !length_app. simpl.
  split; [lia|]. split; [lia|].
  split; [intros Heq; inversion Heq; lia|].
  split; [lia|]. split; [lia|].
  rewrite lookup_app_r by (rewrite !length_alter, length_app; simpl; lia).
  rewrite !length_alter, length_app. simpl.
  replace (length (instances w) + 1 - (length (instances w) + 1)) with 0 by lia.
  reflexivity.
Qed.

Lemma cacheInitialization_success (options : Options.t)
    (s : AxiosJwtAuthService.t) (w : World) :
  configureCache (env w) = None →
  ∃ r s' w' i,
    AxiosJwtAuthService.cacheInitialization options (s, w) = (r, (s', w'))
    ∧ AxiosJwtAuthService.base s' = AxiosJwtAuthService.base s
    ∧ AxiosJwtAuthService.cachedAuthenticatedHttpClient s'
      = Some {| ident := S (objects w); instance := length (instances w) |}
    ∧ AxiosJwtAuthService.cachedHttpClient s'
      = Some {| ident := objects w; instance := length (instances w) |}
    ∧ instances w' !! length (instances w) = Some i
    ∧ usesCache i = true
    ∧ withCredentials i = true
    ∧ requestInterceptors i
      = [attachCsrfTokenInterceptor
           (CSRF_TOKEN_API_PATH
              (AbstractAuthService.config (AxiosJwtAuthService.base s)));
         refreshAccessTokenInterceptor]
    ∧ responseInterceptors i = [processAxiosRequestErrorInterceptor]
    ∧ ∀ j, j < length (instances w) → instances w' !! j = instances w !! j.
Proof.
  intros Hready.
  unfold AxiosJwtAuthService.cacheInitialization, promiseFinally, promiseCatch,
    promiseThen, tryCatch, AxiosJwtAuthService.configureCacheSettled,
    AxiosJwtAuthService.addAuthenticationToHttpClient,
    AbstractAuthService.getConfig.
  run_method. rewrite Hready. simpl.
  match goal with
  | |- context [AbstractAuthService.applyMiddleware ?m (?s1, ?w1)] =>
      destruct (applyMiddleware_frame m s1 w1) as (r & evs & Hrun & _)
  end.
  rewrite Hrun.
  exists (match r with Return _ => Return tt | Throw e => Throw e end).
  eexists _, _, _.
  split; [destruct r; reflexivity|].
  split; [reflexivity|]. split; [reflexivity|]. split; [reflexivity|].
  split.
  { simpl. rewrite !list_lookup_alter_eq, list_lookup_middle by reflexivity.
    reflexivity. }
  repeat (split; [reflexivity|]).
  intros j Hj. simpl.
  rewrite !list_lookup_alter_ne by lia. apply lookup_app_l, Hj.
Qed.

(** X13.  When the cache initialises, whatever the application did with the
    service in the meantime and whatever the middleware functions throw
    (a middleware function is taken not to replace a client's instance), the
    service has four clients that are four objects.  The two direct clients
    have an axios instance each; the two cached clients read one and the same
    instance, the one [configureCache()] resolved to, because the
    authenticated one is made from the plain one by [Object.create].  That
    instance has credentials on and the anti-forgery, access-token and error
    interceptors registered once each, so the plain cached client carries the
    authentication of the authenticated one; the instance of the plain direct
    client has none of it. *)
Theorem cached_clients_share_one_instance
    (options : Options.t) (ops : list Lifecycle.Operation) (w : World) :
  configureCache (env w) = None →
  ∃ a h ca ch i,
    AbstractAuthService.getMiddlewareClients (Lifecycle.settled options ops w).2.1
    = [Some a; Some h; Some ca; Some ch]
    ∧ NoDup [a; h; ca; ch]
    ∧ instance ca = instance ch
    ∧ NoDup [instance a; instance h; instance ch]
    ∧ instances (Lifecycle.settled options ops w).2.2 !! instance ch = Some i
    ∧ usesCache i = true
    ∧ withCredentials i = true
    ∧ (∃ apiPath,
         requestInterceptors i
         = [attachCsrfTokenInterceptor apiPath; refreshAccessTokenInterceptor])
    ∧ responseInterceptors i = [processAxiosRequestErrorInterceptor]
    ∧ instances (Lifecycle.settled options ops w).2.2 !! instance h
      = Some (freshInstance false).
Proof.
  intros Hready.
  destruct (constructed_layout options w)
    as (a & h & Ha & Hh & Hia & Hih & Hne & Hlt & Hlen & Hfresh).
  unfold Lifecycle.settled, Lifecycle.pending.
  set (s1 := (Lifecycle.constructed options w).2.1) in *.
  set (w1 := (Lifecycle.constructed options w).2.2) in *.
  change (Lifecycle.constructed options w).2 with (s1, w1).
  assert (Henv : env w1 = env w) by reflexivity.
  clearbody s1 w1.
  destruct (performAll_frame ops s1 w1) as (s2 & evs0 & -> & _ & _ & K3 & K4).
  assert (Hready2 : configureCache (env (recordAll evs0 w1)) = None)
    by (simpl; rewrite Henv; exact Hready).
  destruct (cacheInitialization_success options s2 (recordAll evs0 w1) Hready2)
    as (r & s' & w' & i & -> & Hbase & Hca & Hch & Hi & Hcache & Hcred & Hreq & Hresp
        & Hold).
  cbn [fst snd]. simpl in Hca, Hch, Hi, Hold.
  exists a, h, {| ident := S (objects w1); instance := length (instances w1) |},
    {| ident := objects w1; instance := length (instances w1) |}, i.
  split.
  { simpl. rewrite Hbase, K3, K4, Ha, Hh, Hca, Hch. reflexivity. }
  split.
  { repeat (apply NoDup_cons; split;
            [rewrite ?elem_of_cons, elem_of_nil; intros Hin;
             repeat (destruct Hin as [Hin|Hin]);
             try contradiction; try (subst; simpl in *; lia);
             try (inversion Hin; lia)|]).
    constructor. }
  split; [reflexivity|].
  split.
  { simpl. repeat (apply NoDup_cons; split;
            [rewrite ?elem_of_cons, elem_of_nil; intros Hin;
             repeat (destruct Hin as [Hin|Hin]); try contradiction; lia|]).
    constructor. }
  split; [exact Hi|]. split; [exact Hcache|]. split; [exact Hcred|].
  split; [eauto|]. split; [exact Hresp|].
  rewrite (Hold _ Hlen). exact Hfresh.
Qed.

Lemma cached_clients_share_one_instance_witness :
  AbstractAuthService.getMiddlewareClients Sample.cacheReady.1
  = [Some {| ident := 1; instance := 0 |}; Some {| ident := 2; instance := 1 |};
     Some {| ident := 4; instance := 2 |}; Some {| ident := 3; instance := 2 |}]
  ∧ instances Sample.cacheReady.2 !! 1 = Some (freshInstance false).
Proof.
  destruct (cached_clients_share_one_instance
              (Sample.options Sample.config (Some [Sample.quiet "m"])) []
              (newWorld (Sample.collaborators "" None None)) eq_refl)
    as (a & h & ca & ch & i & Hclients & _ & _ & _ & _ & _ & _ & _ & _ & Hplain).
  unfold Sample.cacheReady. split; [reflexivity|].
  assert (Hh : Some h = Some {| ident := 2; instance := 1 |})
    by (apply (f_equal (λ l, default None (l !! 1))) in Hclients; symmetry;
        exact Hclients).
  injection Hh as ->. exact Hplain.
Defined.

(** ** Requests on an authenticated client: the access-token step *)

Lemma credentialFetches_app (evs1 evs2 : list Event) :
  credentialFetches (evs1 ++ evs2)
  = (credentialFetches evs1 ++ credentialFetches evs2)%list.
Proof. unfold credentialFetches. apply omap_app. Qed.

(** X14.  On a client carrying the request interceptors of
    [addAuthenticationToHttpClient], a request flagged [isPublic] never asks
    the token service for the credential, and any other request asks once,
    without forcing a refresh, before anything else happens: before the
    anti-forgery token is fetched and before the request is sent.  A public
    request that also skips the anti-forgery step is handed to the transport
    as it was given, and nothing else is called. *)
Theorem public_request_skips_the_access_token
    (client : Client) (i : AxiosInstance) (apiPath : string)
    (c : AxiosRequestConfig) (s : AxiosJwtAuthService.t) (w : World) :
  instances w !! instance client = Some i →
  requestInterceptors i
    = [attachCsrfTokenInterceptor apiPath; refreshAccessTokenInterceptor] →
  credentialFetches (eventsSince w (request client c (s, w)).2.2)
  = (if isPublic c then [] else [false])
  ∧ (∃ rest,
       eventsSince w (request client c (s, w)).2.2
       = ((if isPublic c then [] else [GetJwtToken false]) ++ rest)%list
       ∧ credentialFetches rest = [])
  ∧ (isPublic c = true →
     attachCsrfToken_shouldSkip (lowerCaseMethod c) = true →
     eventsSince w (request client c (s, w)).2.2 = [Send (lowerCaseMethod c)])
  ∧ (request client c (s, w)).2.1 = s.
Proof.
  intros Hi Hinterceptors.
  rewrite (authenticated_request_events client i apiPath c s w Hi Hinterceptors).
  rewrite credentialFetches_app.
  assert (Hrest : credentialFetches
            (if attachCsrfToken_shouldSkip (lowerCaseMethod c)
             then [Send (lowerCaseMethod c)]
             else GetCsrfToken (url c) apiPath
                    :: match getCsrfToken (env w) (url c) apiPath with
                       | inr csrfToken =>
                           [Send (setHeader (CSRF_HEADER_NAME (env w)) csrfToken
                                    (lowerCaseMethod c))]
                       | inl _ => []
                       end) = []).
  { destruct (attachCsrfToken_shouldSkip (lowerCaseMethod c)); [reflexivity|].
    destruct (getCsrfToken (env w) (url c) apiPath); reflexivity. }
  rewrite Hrest, app_nil_r.
  split; [destruct (isPublic c); reflexivity|].
  split; [eexists; split; [reflexivity | exact Hrest]|].
  split; [intros -> ->; reflexivity|].
  apply request_this.
Qed.

Lemma public_request_skips_the_access_token_witness :
  credentialFetches
    (eventsSince (Sample.anonymousJwt "" Sample.config).2
       (request {| ident := 1; instance := 0 |} (Sample.enroll "POST" false)
          ((Sample.anonymousJwt "" Sample.config).1,
           (Sample.anonymousJwt "" Sample.config).2)).2.2) = [false].
Proof.
  apply (public_request_skips_the_access_token
           {| ident := 1; instance := 0 |}
           {| usesCache := false; withCredentials := true;
              requestInterceptors :=
                [attachCsrfTokenInterceptor "/csrf/api/v1/token";
                 refreshAccessTokenInterceptor];
              responseInterceptors := [processAxiosRequestErrorInterceptor] |}
           "/csrf/api/v1/token" (Sample.enroll "POST" false)
           (Sample.anonymousJwt "" Sample.config).1
           (Sample.anonymousJwt "" Sample.config).2 eq_refl eq_refl).
Defined.

(** ** The current user *)


(** ** Middleware is applied at the settlement of the cache, not before *)

Lemma middlewareCalled_app (evs1 evs2 : list Event) :
  middlewareCalled (evs1 ++ evs2)
  = (middlewareCalled evs1 ++ middlewareCalled evs2)%list.
Proof. unfold middlewareCalled. apply omap_app. Qed.

Lemma runRequestInterceptor_calls {S} (i : RequestInterceptor)
    (c : AxiosRequestConfig) (s : S) (w : World) :
  ∃ r evs,
    runRequestInterceptor i c (s, w) = (r, (s, recordAll evs w))
    ∧ middlewareCalled evs = [].
Proof.
  destruct i; unfold runRequestInterceptor, createCsrfTokenProviderInterceptor,
    createJwtTokenProviderInterceptor, createApiInterceptor; run_method.
  - destruct (attachCsrfToken_shouldSkip c); simpl.
    + exists (Return c), []. rewrite recordAll_nil. split; reflexivity.
    + destruct (getCsrfToken _ _ _); eexists _, [_]; split; reflexivity.
  - destruct (refreshAccessToken_shouldSkip c).
    + exists (Return c), []. rewrite recordAll_nil. split; reflexivity.
    + eexists _, [_]; split; reflexivity.
  - destruct (_ !! _).
    + eexists _, []. rewrite recordAll_nil. split; reflexivity.
    + eexists _, [_]; split; reflexivity.
Qed.

Lemma runRequestInterceptors_calls {S} (l : list RequestInterceptor)
    (c : AxiosRequestConfig) (s : S) (w : World) :
  ∃ r evs,
    runRequestInterceptors l c (s, w) = (r, (s, recordAll evs w))
    ∧ middlewareCalled evs = [].
Proof.
  revert c w. induction l as [|i l IH]; intros c w.
  - exists (Return c), []. rewrite recordAll_nil. split; reflexivity.
  - simpl. unfold mbind, M_bind.
    destruct (runRequestInterceptor_calls i c s w) as (r & evs & -> & Hevs).
    destruct r as [c'|e].
    + destruct (IH c' (recordAll evs w)) as (r' & evs' & -> & Hevs').
      rewrite recordAll_recordAll. eexists _, _. split; [reflexivity|].
      rewrite middlewareCalled_app, Hevs, Hevs'. reflexivity.
    + eauto.
Qed.

Lemma request_calls {S} (client : Client) (c : AxiosRequestConfig) (s : S) (w : World) :
  ∃ r evs,
    request client c (s, w) = (r, (s, recordAll evs w))
    ∧ middlewareCalled evs = [].
Proof.
  unfold request, inWorld. run_method.
  destruct (instances w !! instance client) as [a|].
  - unfold tryCatch.
    destruct (runRequestInterceptors_calls (rev (requestInterceptors a))
                (lowerCaseMethod c) s w)
      as (r & evs & -> & Hevs).
    destruct r as [c'|e]; simpl.
    + destruct (send (env w) c'); simpl.
      * pose proof (runResponseErrorInterceptors_this (responseInterceptors a) j s
                      (recordEvent (Send c') (recordAll evs w))) as Hframe.
        destruct (runResponseErrorInterceptors _ j _) as [r' σ'].
        simpl in Hframe. subst σ'.
        rewrite recordEvent_recordAll, recordAll_recordAll.
        eexists _, _. split; [reflexivity|].
        rewrite middlewareCalled_app, Hevs. reflexivity.
      * rewrite recordEvent_recordAll, recordAll_recordAll.
        eexists _, _. split; [reflexivity|].
        rewrite middlewareCalled_app, Hevs. reflexivity.
    + pose proof (runResponseErrorInterceptors_this (responseInterceptors a) e s
                    (recordAll evs w)) as Hframe.
      destruct (runResponseErrorInterceptors _ e _) as [r' σ'].
      simpl in Hframe. subst σ'. eauto.
  - exists (Throw (newError "not a client")), []. rewrite recordAll_nil.
    split; reflexivity.
Qed.

Lemma perform_calls (op : Lifecycle.Operation) (s : AxiosJwtAuthService.t) (w : World) :
  ∃ s' evs,
    (Lifecycle.perform op (s, w)).2 = (s', recordAll evs w)
    ∧ middlewareCalled evs = [].
Proof.
  destruct op as [forceRefresh|redirectUrl| |authUser|redirectUrl|redirectUrl
                  |useCache authenticated c];
    unfold Lifecycle.perform, Lifecycle.discard.
  - unfold AxiosJwtAuthService.fetchAuthenticatedUser,
      AbstractAuthService.getAuthenticatedUser,
      AbstractAuthService.setAuthenticatedUser.
    run_method. destruct (getJwtToken (env w) forceRefresh); simpl;
      eexists _, [_]; split; reflexivity.
  - unfold AxiosJwtAuthService.ensureAuthenticatedUser,
      AxiosJwtAuthService.fetchAuthenticatedUser,
      AbstractAuthService.redirectToLogin,
      AbstractAuthService.getLoginRedirectUrl,
      AbstractAuthService.getAuthenticatedUser,
      AbstractAuthService.setAuthenticatedUser,
      AbstractAuthService.getConfig.
    run_method. destruct (getJwtToken (env w) false); simpl.
    + eexists _, [_]; split; reflexivity.
    + destruct (fromLoginPage _ _); simpl;
        eexists _, [_; _];
        (split; [rewrite !recordEvent_recordAll, recordAll_recordAll; reflexivity
                | reflexivity]).
  - unfold AxiosJwtAuthService.hydrateAuthenticatedUser,
      AbstractAuthService.getAuthenticatedUser,
      AbstractAuthService.setAuthenticatedUser,
      AbstractAuthService.getConfig.
    run_method.
    destruct (AbstractAuthService.authenticatedUser (AxiosJwtAuthService.base s))
      as [user|]; simpl;
      [|exists s, []; rewrite recordAll_nil; split; reflexivity].
    destruct (AbstractAuthService.authenticatedHttpClient (AxiosJwtAuthService.base s))
      as [client|]; simpl;
      [|exists s, []; rewrite recordAll_nil; split; reflexivity].
    match goal with |- context [request client ?c (s, w)] =>
      destruct (request_calls client c s w) as (r & evs & -> & Hevs) end.
    destruct r; simpl; eexists _, evs; (split; [reflexivity | exact Hevs]).
  - unfold AbstractAuthService.setAuthenticatedUser. run_method.
    eexists _, []. rewrite recordAll_nil. split; reflexivity.
  - unfold AbstractAuthService.redirectToLogin,
      AbstractAuthService.getLoginRedirectUrl, AbstractAuthService.getConfig.
    run_method. eexists s, [_]. split; reflexivity.
  - unfold AbstractAuthService.redirectToLogout,
      AbstractAuthService.getLogoutRedirectUrl, AbstractAuthService.getConfig.
    run_method. eexists s, [_]. split; reflexivity.
  - unfold mbind, M_bind.
    assert (Hclient : ∃ client,
      (if authenticated
       then AxiosJwtAuthService.getAuthenticatedHttpClient useCache
       else AxiosJwtAuthService.getHttpClient useCache) (s, w)
      = (Return client, (s, w))).
    { destruct authenticated;
        [rewrite jwt_getAuthenticatedHttpClient_run | rewrite jwt_getHttpClient_run];
        eauto. }
    destruct Hclient as [client ->]. destruct client as [client|].
    + destruct (request_calls client c s w) as (r & evs & -> & Hevs).
      exists s, evs. split; [reflexivity | exact Hevs].
    + exists s, []. rewrite recordAll_nil. split; reflexivity.
Qed.

Lemma performAll_calls (ops : list Lifecycle.Operation)
    (s : AxiosJwtAuthService.t) (w : World) :
  ∃ s' evs,
    Lifecycle.performAll ops (s, w) = (s', recordAll evs w)
    ∧ middlewareCalled evs = [].
Proof.
  revert s w. induction ops as [|op ops IH]; intros s w.
  - exists s, []. rewrite recordAll_nil. split; reflexivity.
  - simpl. destruct (perform_calls op s w) as (s1 & evs1 & -> & H1).
    destruct (IH s1 (recordAll evs1 w)) as (s2 & evs2 & -> & H2).
    exists s2, (evs1 ++ evs2)%list. rewrite recordAll_recordAll.
    split; [reflexivity|]. rewrite middlewareCalled_app, H1, H2. reflexivity.
Qed.

(** X16.  The constructor of the JWT service applies no middleware: from
    the construction until the cache settles, whatever the application does
    with the service (requests on the direct clients included), no
    middleware function has been called, and the first thing the service did
    was to start the cache. *)
Theorem no_middleware_until_the_cache_settles
    (options : Options.t) (ops : list Lifecycle.Operation) (w : World) :
  middlewareCalled (eventsSince w (Lifecycle.pending options ops w).2) = []
  ∧ ∃ evs, eventsSince w (Lifecycle.pending options ops w).2 = ConfigureCache :: evs.
Proof.
  unfold Lifecycle.pending.
  set (s1 := (Lifecycle.constructed options w).2.1).
  set (w1 := (Lifecycle.constructed options w).2.2).
  change (Lifecycle.constructed options w).2 with (s1, w1).
  assert (Htrace : trace w1 = (trace w ++ [ConfigureCache])%list) by reflexivity.
  clearbody s1 w1.
  destruct (performAll_calls ops s1 w1) as (s2 & evs & -> & Hevs).
  assert (Hevents : eventsSince w (recordAll evs w1) = ConfigureCache :: evs).
  { apply eventsSince_record. simpl. rewrite Htrace, <- app_assoc. reflexivity. }
  cbn [snd]. rewrite Hevents. split; [exact Hevs | eauto].
Qed.

(** ** The development service's [ensureAuthenticatedUser], on every input *)

(** X17.  [ensureAuthenticatedUser] of the development service never
    changes the service and never calls a token service or the transport.
    It resolves with the configured user, having done nothing at all; or,
    when no user is configured, it rejects: with an error flagged
    [isRedirecting] after one navigation and no log, or with an error not so
    flagged after logging that error and no navigation. *)
Theorem development_ensureAuthenticatedUser_outcomes
    (d : DevelopmentAuthService.t) (w : World) (redirectUrl : option string) :
  (DevelopmentAuthService.ensureAuthenticatedUser redirectUrl (d, w)).2.1 = d
  ∧ credentialFetches
      (eventsSince w
         (DevelopmentAuthService.ensureAuthenticatedUser redirectUrl (d, w)).2.2) = []
  ∧ sent
      (eventsSince w
         (DevelopmentAuthService.ensureAuthenticatedUser redirectUrl (d, w)).2.2) = []
  ∧ match (DevelopmentAuthService.ensureAuthenticatedUser redirectUrl (d, w)).1 with
    | Return user =>
        AbstractAuthService.authenticatedUser (DevelopmentAuthService.base d)
        = Some user
        ∧ (DevelopmentAuthService.ensureAuthenticatedUser redirectUrl (d, w)).2.2 = w
    | Throw e =>
        AbstractAuthService.authenticatedUser (DevelopmentAuthService.base d) = None
        ∧ length (navigations
                    (eventsSince w
                       (DevelopmentAuthService.ensureAuthenticatedUser redirectUrl
                          (d, w)).2.2))
          = (if isRedirecting e then 1 else 0)
        ∧ reported
            (eventsSince w
               (DevelopmentAuthService.ensureAuthenticatedUser redirectUrl (d, w)).2.2)
          = (if isRedirecting e then [] else [LogException e])
    end.
Proof.
  destruct (AbstractAuthService.authenticatedUser (DevelopmentAuthService.base d))
    as [user|] eqn:Huser.
  - assert (Hrun :
      DevelopmentAuthService.ensureAuthenticatedUser redirectUrl (d, w)
      = (Return user, (d, w))).
    { unfold DevelopmentAuthService.ensureAuthenticatedUser,
        DevelopmentAuthService.fetchAuthenticatedUser,
        AbstractAuthService.getAuthenticatedUser,
        AbstractAuthService.getConfig.
      run_method. rewrite Huser. reflexivity. }
    rewrite Hrun. cbn [fst snd]. rewrite eventsSince_same. repeat split.
  - destruct (fromLoginPage (document_referrer (env w))
                (LOGIN_URL (AbstractAuthService.config (DevelopmentAuthService.base d))))
      eqn:Hloop.
    + rewrite (dev_ensure_loop d w redirectUrl Huser Hloop).
      cbn [fst snd]. rewrite eventsSince_record1. repeat split.
    + rewrite (dev_ensure_redirects d w redirectUrl Huser Hloop).
      cbn [fst snd]. rewrite eventsSince_record1. repeat split.
Qed.

(** ** [applyMiddleware] on a service without clients *)

(** X18.  On a service none of whose clients exists yet, the base class
    as its constructor leaves it for one, [applyMiddleware] calls no
    function, logs nothing and returns, whatever the middleware functions
    would do. *)
Theorem applyMiddleware_without_clients
    {S : Type} `{AbstractAuthService.Subclass S}
    (middleware : option (list Middleware)) (s : S) (w : World) :
  Forall (λ client, client = None) (AbstractAuthService.getMiddlewareClients s) →
  AbstractAuthService.applyMiddleware middleware (s, w) = (Return tt, (s, w)).
Proof.
  intros Hnull.
  unfold AbstractAuthService.applyMiddleware, tryCatch. run_method.
  assert (Hclients : ∀ m,
    forEach (λ client, AbstractAuthService.callMiddleware m client)
            (AbstractAuthService.getMiddlewareClients s) (s, w)
    = (Return tt, (s, w))).
  { intros m. induction Hnull as [|client clients -> _ IH]; [reflexivity|].
    simpl. unfold mbind, M_bind. exact IH. }
  induction (default [] middleware) as [|m l IH]; [reflexivity|].
  simpl. unfold mbind, M_bind. rewrite Hclients. exact IH.
Qed.

Lemma applyMiddleware_without_clients_witness :
  AbstractAuthService.applyMiddleware (Some [Scenario.failing "m"])
    (AbstractAuthService.constructor (Sample.options Sample.config None),
     newWorld (Sample.collaborators "" None None))
  = (Return tt,
     (AbstractAuthService.constructor (Sample.options Sample.config None),
      newWorld (Sample.collaborators "" None None))).
Proof.
  apply (applyMiddleware_without_clients (Some [Scenario.failing "m"])
           (AbstractAuthService.constructor (Sample.options Sample.config None))
           (newWorld (Sample.collaborators "" None None))).
  repeat constructor.
Defined.
